(** * Recipe service: ingredient resolution and recipe synthesis

    A shallow embedding of [app/services/recipe_ai.py] together with the
    parts of [app/schemas/recipe_schema.py] and [app/core/db_manager.py]
    it runs through; then the settings, the validators of the request,
    the preference store with its endpoints and the start-up of
    [app/main.py].

    Python strings are modelled by the [string] of their UTF-8 bytes;
    [str.lower], [str.upper] and [str.strip] act on the code points, with
    the tables of the Unicode Character Database.  Values coming back from
    [json.loads] or from a dataset cell are [pyobj] trees.  The external
    collaborators (the WordNet lemmatizer, [json.loads], the chat
    completion endpoint, the Mongo database, the CSV table) are variables
    of the section [Service]; logging, the calls sent to the chat endpoint
    and the preference collection are threaded through a [World]. *)

From Stdlib Require Import Ascii String NArith ZArith Bool List PrimFloat.
From stdpp Require Import base option list strings gmap pretty.

Local Open Scope string_scope.
Set Warnings "-register-all".

(** ** Unicode

    A Python [str] is a sequence of code points; it is modelled by the
    [string] of its UTF-8 bytes, a lone surrogate being written like any
    other code point.  [decode] and [encode] go back and forth; a byte
    that belongs to no well-formed sequence is carried as
    [raw_byte + byte], a value no table touches.

    The case mappings, the properties Cased and Case_Ignorable and the
    white space are those of the Unicode Character Database 14.0.0, with
    which CPython 3.11 is built: [to_lower] and [to_upper] are its
    [_PyUnicode_ToLowerFull] and [_PyUnicode_ToUpperFull], [final_sigma]
    its [handle_capital_sigma], [is_space] its [Py_UNICODE_ISSPACE]. *)

Module Unicode.

Local Open Scope N_scope.

Definition raw_byte : N := 0x110000.

Definition is_continuation (b : N) : bool := (0x80 <=? b) && (b <? 0xC0).

(** A sequence being read: the continuation bytes still expected, the
    value so far, the least value a sequence of this length may encode,
    and the bytes read. *)
Record Pending : Type := {
  need : nat;
  value : N;
  least : N;
  seen : list N }.

Definition lead (b : N) : option Pending :=
  if (0xC0 <=? b) && (b <? 0xE0) then
    Some {| need := 1; value := b - 0xC0; least := 0x80; seen := [b] |}
  else if (0xE0 <=? b) && (b <? 0xF0) then
    Some {| need := 2; value := b - 0xE0; least := 0x800; seen := [b] |}
  else if (0xF0 <=? b) && (b <? 0xF8) then
    Some {| need := 3; value := b - 0xF0; least := 0x10000; seen := [b] |}
  else None.

Definition raw (bytes : list N) : list N := map (fun b => raw_byte + b) bytes.

Definition plain (b : N) : N := if b <? 0x80 then b else raw_byte + b.

Fixpoint decode_from (p : option Pending) (s : string) : list N :=
  match s with
  | EmptyString =>
      match p with
      | Some q => raw (seen q)
      | None => []
      end
  | String a r =>
      let b := N_of_ascii a in
      let afresh :=
        match lead b with
        | Some q => decode_from (Some q) r
        | None => plain b :: decode_from None r
        end in
      match p with
      | None => afresh
      | Some q =>
          if is_continuation b then
            let v := value q * 64 + (b - 0x80) in
            match need q with
            | S (S k) =>
                decode_from (Some {| need := S k; value := v; least := least q;
                                     seen := seen q ++ [b] |}) r
            | _ =>
                (if (least q <=? v) && (v <? raw_byte) then [v]
                 else raw (seen q ++ [b])) ++ decode_from None r
            end
          else (raw (seen q) ++ afresh)%list
      end
  end.

Definition decode (s : string) : list N := decode_from None s.

Definition encode_one (c : N) : list ascii :=
  if c <? 0x80 then [ascii_of_N c]
  else if c <? 0x800 then
    [ascii_of_N (0xC0 + c / 64); ascii_of_N (0x80 + c mod 64)]
  else if c <? 0x10000 then
    [ascii_of_N (0xE0 + c / 4096); ascii_of_N (0x80 + (c / 64) mod 64);
     ascii_of_N (0x80 + c mod 64)]
  else if c <? raw_byte then
    [ascii_of_N (0xF0 + c / 262144); ascii_of_N (0x80 + (c / 4096) mod 64);
     ascii_of_N (0x80 + (c / 64) mod 64); ascii_of_N (0x80 + c mod 64)]
  else [ascii_of_N (c - raw_byte)].

Definition encode (cs : list N) : string :=
  string_of_list_ascii (flat_map encode_one cs).

(** The simple lower-case mappings above U+007F, as runs (first, last,
    step, image of the first): the code point [first + k * step] of a
    run goes to [image + k * step]. *)
Definition lower_runs : list (N * N * N * N) :=
  [(0xC0, 0xD6, 1, 0xE0); (0xD8, 0xDE, 1, 0xF8); (0x100, 0x12E, 2, 0x101);
   (0x132, 0x136, 2, 0x133); (0x139, 0x147, 2, 0x13A);
   (0x14A, 0x176, 2, 0x14B); (0x178, 0x178, 1, 0xFF);
   (0x179, 0x17D, 2, 0x17A); (0x181, 0x181, 1, 0x253);
   (0x182, 0x184, 2, 0x183); (0x186, 0x186, 1, 0x254);
   (0x187, 0x187, 1, 0x188); (0x189, 0x18A, 1, 0x256);
   (0x18B, 0x18B, 1, 0x18C); (0x18E, 0x18E, 1, 0x1DD);
   (0x18F, 0x18F, 1, 0x259); (0x190, 0x190, 1, 0x25B);
   (0x191, 0x191, 1, 0x192); (0x193, 0x193, 1, 0x260);
   (0x194, 0x194, 1, 0x263); (0x196, 0x196, 1, 0x269);
   (0x197, 0x197, 1, 0x268); (0x198, 0x198, 1, 0x199);
   (0x19C, 0x19C, 1, 0x26F); (0x19D, 0x19D, 1, 0x272);
   (0x19F, 0x19F, 1, 0x275); (0x1A0, 0x1A4, 2, 0x1A1);
   (0x1A6, 0x1A6, 1, 0x280); (0x1A7, 0x1A7, 1, 0x1A8);
   (0x1A9, 0x1A9, 1, 0x283); (0x1AC, 0x1AC, 1, 0x1AD);
   (0x1AE, 0x1AE, 1, 0x288); (0x1AF, 0x1AF, 1, 0x1B0);
   (0x1B1, 0x1B2, 1, 0x28A); (0x1B3, 0x1B5, 2, 0x1B4);
   (0x1B7, 0x1B7, 1, 0x292); (0x1B8, 0x1B8, 1, 0x1B9);
   (0x1BC, 0x1BC, 1, 0x1BD); (0x1C4, 0x1C4, 1, 0x1C6);
   (0x1C5, 0x1C5, 1, 0x1C6); (0x1C7, 0x1C7, 1, 0x1C9);
   (0x1C8, 0x1C8, 1, 0x1C9); (0x1CA, 0x1CA, 1, 0x1CC);
   (0x1CB, 0x1DB, 2, 0x1CC); (0x1DE, 0x1EE, 2, 0x1DF);
   (0x1F1, 0x1F1, 1, 0x1F3); (0x1F2, 0x1F4, 2, 0x1F3);
   (0x1F6, 0x1F6, 1, 0x195); (0x1F7, 0x1F7, 1, 0x1BF);
   (0x1F8, 0x21E, 2, 0x1F9); (0x220, 0x220, 1, 0x19E);
   (0x222, 0x232, 2, 0x223); (0x23A, 0x23A, 1, 0x2C65);
   (0x23B, 0x23B, 1, 0x23C); (0x23D, 0x23D, 1, 0x19A);
   (0x23E, 0x23E, 1, 0x2C66); (0x241, 0x241, 1, 0x242);
   (0x243, 0x243, 1, 0x180); (0x244, 0x244, 1, 0x289);
   (0x245, 0x245, 1, 0x28C); (0x246, 0x24E, 2, 0x247);
   (0x370, 0x372, 2, 0x371); (0x376, 0x376, 1, 0x377);
   (0x37F, 0x37F, 1, 0x3F3); (0x386, 0x386, 1, 0x3AC);
   (0x388, 0x38A, 1, 0x3AD); (0x38C, 0x38C, 1, 0x3CC);
   (0x38E, 0x38F, 1, 0x3CD); (0x391, 0x3A1, 1, 0x3B1);
   (0x3A3, 0x3AB, 1, 0x3C3); (0x3CF, 0x3CF, 1, 0x3D7);
   (0x3D8, 0x3EE, 2, 0x3D9); (0x3F4, 0x3F4, 1, 0x3B8);
   (0x3F7, 0x3F7, 1, 0x3F8); (0x3F9, 0x3F9, 1, 0x3F2);
   (0x3FA, 0x3FA, 1, 0x3FB); (0x3FD, 0x3FF, 1, 0x37B);
   (0x400, 0x40F, 1, 0x450); (0x410, 0x42F, 1, 0x430);
   (0x460, 0x480, 2, 0x461); (0x48A, 0x4BE, 2, 0x48B);
   (0x4C0, 0x4C0, 1, 0x4CF); (0x4C1, 0x4CD, 2, 0x4C2);
   (0x4D0, 0x52E, 2, 0x4D1); (0x531, 0x556, 1, 0x561);
   (0x10A0, 0x10C5, 1, 0x2D00); (0x10C7, 0x10C7, 1, 0x2D27);
   (0x10CD, 0x10CD, 1, 0x2D2D); (0x13A0, 0x13EF, 1, 0xAB70);
   (0x13F0, 0x13F5, 1, 0x13F8); (0x1C90, 0x1CBA, 1, 0x10D0);
   (0x1CBD, 0x1CBF, 1, 0x10FD); (0x1E00, 0x1E94, 2, 0x1E01);
   (0x1E9E, 0x1E9E, 1, 0xDF); (0x1EA0, 0x1EFE, 2, 0x1EA1);
   (0x1F08, 0x1F0F, 1, 0x1F00); (0x1F18, 0x1F1D, 1, 0x1F10);
   (0x1F28, 0x1F2F, 1, 0x1F20); (0x1F38, 0x1F3F, 1, 0x1F30);
   (0x1F48, 0x1F4D, 1, 0x1F40); (0x1F59, 0x1F5F, 2, 0x1F51);
   (0x1F68, 0x1F6F, 1, 0x1F60); (0x1F88, 0x1F8F, 1, 0x1F80);
   (0x1F98, 0x1F9F, 1, 0x1F90); (0x1FA8, 0x1FAF, 1, 0x1FA0);
   (0x1FB8, 0x1FB9, 1, 0x1FB0); (0x1FBA, 0x1FBB, 1, 0x1F70);
   (0x1FBC, 0x1FBC, 1, 0x1FB3); (0x1FC8, 0x1FCB, 1, 0x1F72);
   (0x1FCC, 0x1FCC, 1, 0x1FC3); (0x1FD8, 0x1FD9, 1, 0x1FD0);
   (0x1FDA, 0x1FDB, 1, 0x1F76); (0x1FE8, 0x1FE9, 1, 0x1FE0);
   (0x1FEA, 0x1FEB, 1, 0x1F7A); (0x1FEC, 0x1FEC, 1, 0x1FE5);
   (0x1FF8, 0x1FF9, 1, 0x1F78); (0x1FFA, 0x1FFB, 1, 0x1F7C);
   (0x1FFC, 0x1FFC, 1, 0x1FF3); (0x2126, 0x2126, 1, 0x3C9);
   (0x212A, 0x212A, 1, 0x6B); (0x212B, 0x212B, 1, 0xE5);
   (0x2132, 0x2132, 1, 0x214E); (0x2160, 0x216F, 1, 0x2170);
   (0x2183, 0x2183, 1, 0x2184); (0x24B6, 0x24CF, 1, 0x24D0);
   (0x2C00, 0x2C2F, 1, 0x2C30); (0x2C60, 0x2C60, 1, 0x2C61);
   (0x2C62, 0x2C62, 1, 0x26B); (0x2C63, 0x2C63, 1, 0x1D7D);
   (0x2C64, 0x2C64, 1, 0x27D); (0x2C67, 0x2C6B, 2, 0x2C68);
   (0x2C6D, 0x2C6D, 1, 0x251); (0x2C6E, 0x2C6E, 1, 0x271);
   (0x2C6F, 0x2C6F, 1, 0x250); (0x2C70, 0x2C70, 1, 0x252);
   (0x2C72, 0x2C72, 1, 0x2C73); (0x2C75, 0x2C75, 1, 0x2C76);
   (0x2C7E, 0x2C7F, 1, 0x23F); (0x2C80, 0x2CE2, 2, 0x2C81);
   (0x2CEB, 0x2CED, 2, 0x2CEC); (0x2CF2, 0x2CF2, 1, 0x2CF3);
   (0xA640, 0xA66C, 2, 0xA641); (0xA680, 0xA69A, 2, 0xA681);
   (0xA722, 0xA72E, 2, 0xA723); (0xA732, 0xA76E, 2, 0xA733);
   (0xA779, 0xA77B, 2, 0xA77A); (0xA77D, 0xA77D, 1, 0x1D79);
   (0xA77E, 0xA786, 2, 0xA77F); (0xA78B, 0xA78B, 1, 0xA78C);
   (0xA78D, 0xA78D, 1, 0x265); (0xA790, 0xA792, 2, 0xA791);
   (0xA796, 0xA7A8, 2, 0xA797); (0xA7AA, 0xA7AA, 1, 0x266);
   (0xA7AB, 0xA7AB, 1, 0x25C); (0xA7AC, 0xA7AC, 1, 0x261);
   (0xA7AD, 0xA7AD, 1, 0x26C); (0xA7AE, 0xA7AE, 1, 0x26A);
   (0xA7B0, 0xA7B0, 1, 0x29E); (0xA7B1, 0xA7B1, 1, 0x287);
   (0xA7B2, 0xA7B2, 1, 0x29D); (0xA7B3, 0xA7B3, 1, 0xAB53);
   (0xA7B4, 0xA7C2, 2, 0xA7B5); (0xA7C4, 0xA7C4, 1, 0xA794);
   (0xA7C5, 0xA7C5, 1, 0x282); (0xA7C6, 0xA7C6, 1, 0x1D8E);
   (0xA7C7, 0xA7C9, 2, 0xA7C8); (0xA7D0, 0xA7D0, 1, 0xA7D1);
   (0xA7D6, 0xA7D8, 2, 0xA7D7); (0xA7F5, 0xA7F5, 1, 0xA7F6);
   (0xFF21, 0xFF3A, 1, 0xFF41); (0x10400, 0x10427, 1, 0x10428);
   (0x104B0, 0x104D3, 1, 0x104D8); (0x10570, 0x10594, 2, 0x10597);
   (0x10571, 0x10579, 2, 0x10598); (0x1057D, 0x10589, 2, 0x105A4);
   (0x1058D, 0x10591, 2, 0x105B4); (0x10595, 0x10595, 1, 0x105BC);
   (0x10C80, 0x10CB2, 1, 0x10CC0); (0x118A0, 0x118BF, 1, 0x118C0);
   (0x16E40, 0x16E5F, 1, 0x16E60); (0x1E900, 0x1E921, 1, 0x1E922)].

(** The one code point whose lower case is a sequence. *)
Definition lower_special : list (N * list N) :=
  [(0x130, [0x69; 0x307])].

(** The simple upper-case mappings above U+007F. *)
Definition upper_runs : list (N * N * N * N) :=
  [(0xB5, 0xB5, 1, 0x39C); (0xE0, 0xF6, 1, 0xC0); (0xF8, 0xFE, 1, 0xD8);
   (0xFF, 0xFF, 1, 0x178); (0x101, 0x12F, 2, 0x100); (0x131, 0x131, 1, 0x49);
   (0x133, 0x137, 2, 0x132); (0x13A, 0x148, 2, 0x139);
   (0x14B, 0x177, 2, 0x14A); (0x17A, 0x17E, 2, 0x179);
   (0x17F, 0x17F, 1, 0x53); (0x180, 0x180, 1, 0x243);
   (0x183, 0x185, 2, 0x182); (0x188, 0x188, 1, 0x187);
   (0x18C, 0x18C, 1, 0x18B); (0x192, 0x192, 1, 0x191);
   (0x195, 0x195, 1, 0x1F6); (0x199, 0x199, 1, 0x198);
   (0x19A, 0x19A, 1, 0x23D); (0x19E, 0x19E, 1, 0x220);
   (0x1A1, 0x1A5, 2, 0x1A0); (0x1A8, 0x1A8, 1, 0x1A7);
   (0x1AD, 0x1AD, 1, 0x1AC); (0x1B0, 0x1B0, 1, 0x1AF);
   (0x1B4, 0x1B6, 2, 0x1B3); (0x1B9, 0x1B9, 1, 0x1B8);
   (0x1BD, 0x1BD, 1, 0x1BC); (0x1BF, 0x1BF, 1, 0x1F7);
   (0x1C5, 0x1C5, 1, 0x1C4); (0x1C6, 0x1C6, 1, 0x1C4);
   (0x1C8, 0x1C8, 1, 0x1C7); (0x1C9, 0x1C9, 1, 0x1C7);
   (0x1CB, 0x1CB, 1, 0x1CA); (0x1CC, 0x1CC, 1, 0x1CA);
   (0x1CE, 0x1DC, 2, 0x1CD); (0x1DD, 0x1DD, 1, 0x18E);
   (0x1DF, 0x1EF, 2, 0x1DE); (0x1F2, 0x1F2, 1, 0x1F1);
   (0x1F3, 0x1F3, 1, 0x1F1); (0x1F5, 0x1F5, 1, 0x1F4);
   (0x1F9, 0x21F, 2, 0x1F8); (0x223, 0x233, 2, 0x222);
   (0x23C, 0x23C, 1, 0x23B); (0x23F, 0x240, 1, 0x2C7E);
   (0x242, 0x242, 1, 0x241); (0x247, 0x24F, 2, 0x246);
   (0x250, 0x250, 1, 0x2C6F); (0x251, 0x251, 1, 0x2C6D);
   (0x252, 0x252, 1, 0x2C70); (0x253, 0x253, 1, 0x181);
   (0x254, 0x254, 1, 0x186); (0x256, 0x257, 1, 0x189);
   (0x259, 0x259, 1, 0x18F); (0x25B, 0x25B, 1, 0x190);
   (0x25C, 0x25C, 1, 0xA7AB); (0x260, 0x260, 1, 0x193);
   (0x261, 0x261, 1, 0xA7AC); (0x263, 0x263, 1, 0x194);
   (0x265, 0x265, 1, 0xA78D); (0x266, 0x266, 1, 0xA7AA);
   (0x268, 0x268, 1, 0x197); (0x269, 0x269, 1, 0x196);
   (0x26A, 0x26A, 1, 0xA7AE); (0x26B, 0x26B, 1, 0x2C62);
   (0x26C, 0x26C, 1, 0xA7AD); (0x26F, 0x26F, 1, 0x19C);
   (0x271, 0x271, 1, 0x2C6E); (0x272, 0x272, 1, 0x19D);
   (0x275, 0x275, 1, 0x19F); (0x27D, 0x27D, 1, 0x2C64);
   (0x280, 0x280, 1, 0x1A6); (0x282, 0x282, 1, 0xA7C5);
   (0x283, 0x283, 1, 0x1A9); (0x287, 0x287, 1, 0xA7B1);
   (0x288, 0x288, 1, 0x1AE); (0x289, 0x289, 1, 0x244);
   (0x28A, 0x28B, 1, 0x1B1); (0x28C, 0x28C, 1, 0x245);
   (0x292, 0x292, 1, 0x1B7); (0x29D, 0x29D, 1, 0xA7B2);
   (0x29E, 0x29E, 1, 0xA7B0); (0x345, 0x345, 1, 0x399);
   (0x371, 0x373, 2, 0x370); (0x377, 0x377, 1, 0x376);
   (0x37B, 0x37D, 1, 0x3FD); (0x3AC, 0x3AC, 1, 0x386);
   (0x3AD, 0x3AF, 1, 0x388); (0x3B1, 0x3C1, 1, 0x391);
   (0x3C2, 0x3C2, 1, 0x3A3); (0x3C3, 0x3CB, 1, 0x3A3);
   (0x3CC, 0x3CC, 1, 0x38C); (0x3CD, 0x3CE, 1, 0x38E);
   (0x3D0, 0x3D0, 1, 0x392); (0x3D1, 0x3D1, 1, 0x398);
   (0x3D5, 0x3D5, 1, 0x3A6); (0x3D6, 0x3D6, 1, 0x3A0);
   (0x3D7, 0x3D7, 1, 0x3CF); (0x3D9, 0x3EF, 2, 0x3D8);
   (0x3F0, 0x3F0, 1, 0x39A); (0x3F1, 0x3F1, 1, 0x3A1);
   (0x3F2, 0x3F2, 1, 0x3F9); (0x3F3, 0x3F3, 1, 0x37F);
   (0x3F5, 0x3F5, 1, 0x395); (0x3F8, 0x3F8, 1, 0x3F7);
   (0x3FB, 0x3FB, 1, 0x3FA); (0x430, 0x44F, 1, 0x410);
   (0x450, 0x45F, 1, 0x400); (0x461, 0x481, 2, 0x460);
   (0x48B, 0x4BF, 2, 0x48A); (0x4C2, 0x4CE, 2, 0x4C1);
   (0x4CF, 0x4CF, 1, 0x4C0); (0x4D1, 0x52F, 2, 0x4D0);
   (0x561, 0x586, 1, 0x531); (0x10D0, 0x10FA, 1, 0x1C90);
   (0x10FD, 0x10FF, 1, 0x1CBD); (0x13F8, 0x13FD, 1, 0x13F0);
   (0x1C80, 0x1C80, 1, 0x412); (0x1C81, 0x1C81, 1, 0x414);
   (0x1C82, 0x1C82, 1, 0x41E); (0x1C83, 0x1C84, 1, 0x421);
   (0x1C85, 0x1C85, 1, 0x422); (0x1C86, 0x1C86, 1, 0x42A);
   (0x1C87, 0x1C87, 1, 0x462); (0x1C88, 0x1C88, 1, 0xA64A);
   (0x1D79, 0x1D79, 1, 0xA77D); (0x1D7D, 0x1D7D, 1, 0x2C63);
   (0x1D8E, 0x1D8E, 1, 0xA7C6); (0x1E01, 0x1E95, 2, 0x1E00);
   (0x1E9B, 0x1E9B, 1, 0x1E60); (0x1EA1, 0x1EFF, 2, 0x1EA0);
   (0x1F00, 0x1F07, 1, 0x1F08); (0x1F10, 0x1F15, 1, 0x1F18);
   (0x1F20, 0x1F27, 1, 0x1F28); (0x1F30, 0x1F37, 1, 0x1F38);
   (0x1F40, 0x1F45, 1, 0x1F48); (0x1F51, 0x1F57, 2, 0x1F59);
   (0x1F60, 0x1F67, 1, 0x1F68); (0x1F70, 0x1F71, 1, 0x1FBA);
   (0x1F72, 0x1F75, 1, 0x1FC8); (0x1F76, 0x1F77, 1, 0x1FDA);
   (0x1F78, 0x1F79, 1, 0x1FF8); (0x1F7A, 0x1F7B, 1, 0x1FEA);
   (0x1F7C, 0x1F7D, 1, 0x1FFA); (0x1FB0, 0x1FB1, 1, 0x1FB8);
   (0x1FBE, 0x1FBE, 1, 0x399); (0x1FD0, 0x1FD1, 1, 0x1FD8);
   (0x1FE0, 0x1FE1, 1, 0x1FE8); (0x1FE5, 0x1FE5, 1, 0x1FEC);
   (0x214E, 0x214E, 1, 0x2132); (0x2170, 0x217F, 1, 0x2160);
   (0x2184, 0x2184, 1, 0x2183); (0x24D0, 0x24E9, 1, 0x24B6);
   (0x2C30, 0x2C5F, 1, 0x2C00); (0x2C61, 0x2C61, 1, 0x2C60);
   (0x2C65, 0x2C65, 1, 0x23A); (0x2C66, 0x2C66, 1, 0x23E);
   (0x2C68, 0x2C6C, 2, 0x2C67); (0x2C73, 0x2C73, 1, 0x2C72);
   (0x2C76, 0x2C76, 1, 0x2C75); (0x2C81, 0x2CE3, 2, 0x2C80);
   (0x2CEC, 0x2CEE, 2, 0x2CEB); (0x2CF3, 0x2CF3, 1, 0x2CF2);
   (0x2D00, 0x2D25, 1, 0x10A0); (0x2D27, 0x2D27, 1, 0x10C7);
   (0x2D2D, 0x2D2D, 1, 0x10CD); (0xA641, 0xA66D, 2, 0xA640);
   (0xA681, 0xA69B, 2, 0xA680); (0xA723, 0xA72F, 2, 0xA722);
   (0xA733, 0xA76F, 2, 0xA732); (0xA77A, 0xA77C, 2, 0xA779);
   (0xA77F, 0xA787, 2, 0xA77E); (0xA78C, 0xA78C, 1, 0xA78B);
   (0xA791, 0xA793, 2, 0xA790); (0xA794, 0xA794, 1, 0xA7C4);
   (0xA797, 0xA7A9, 2, 0xA796); (0xA7B5, 0xA7C3, 2, 0xA7B4);
   (0xA7C8, 0xA7CA, 2, 0xA7C7); (0xA7D1, 0xA7D1, 1, 0xA7D0);
   (0xA7D7, 0xA7D9, 2, 0xA7D6); (0xA7F6, 0xA7F6, 1, 0xA7F5);
   (0xAB53, 0xAB53, 1, 0xA7B3); (0xAB70, 0xABBF, 1, 0x13A0);
   (0xFF41, 0xFF5A, 1, 0xFF21); (0x10428, 0x1044F, 1, 0x10400);
   (0x104D8, 0x104FB, 1, 0x104B0); (0x10597, 0x105BB, 2, 0x10570);
   (0x10598, 0x105A0, 2, 0x10571); (0x105A4, 0x105B0, 2, 0x1057D);
   (0x105B4, 0x105B8, 2, 0x1058D); (0x105BC, 0x105BC, 1, 0x10595);
   (0x10CC0, 0x10CF2, 1, 0x10C80); (0x118C0, 0x118DF, 1, 0x118A0);
   (0x16E60, 0x16E7F, 1, 0x16E40); (0x1E922, 0x1E943, 1, 0x1E900)].

(** The code points whose upper case is a sequence. *)
Definition upper_special : list (N * list N) :=
  [(0xDF, [0x53; 0x53]); (0x149, [0x2BC; 0x4E]); (0x1F0, [0x4A; 0x30C]);
   (0x390, [0x399; 0x308; 0x301]); (0x3B0, [0x3A5; 0x308; 0x301]);
   (0x587, [0x535; 0x552]); (0x1E96, [0x48; 0x331]); (0x1E97, [0x54; 0x308]);
   (0x1E98, [0x57; 0x30A]); (0x1E99, [0x59; 0x30A]); (0x1E9A, [0x41; 0x2BE]);
   (0x1F50, [0x3A5; 0x313]); (0x1F52, [0x3A5; 0x313; 0x300]);
   (0x1F54, [0x3A5; 0x313; 0x301]); (0x1F56, [0x3A5; 0x313; 0x342]);
   (0x1F80, [0x1F08; 0x399]); (0x1F81, [0x1F09; 0x399]);
   (0x1F82, [0x1F0A; 0x399]); (0x1F83, [0x1F0B; 0x399]);
   (0x1F84, [0x1F0C; 0x399]); (0x1F85, [0x1F0D; 0x399]);
   (0x1F86, [0x1F0E; 0x399]); (0x1F87, [0x1F0F; 0x399]);
   (0x1F88, [0x1F08; 0x399]); (0x1F89, [0x1F09; 0x399]);
   (0x1F8A, [0x1F0A; 0x399]); (0x1F8B, [0x1F0B; 0x399]);
   (0x1F8C, [0x1F0C; 0x399]); (0x1F8D, [0x1F0D; 0x399]);
   (0x1F8E, [0x1F0E; 0x399]); (0x1F8F, [0x1F0F; 0x399]);
   (0x1F90, [0x1F28; 0x399]); (0x1F91, [0x1F29; 0x399]);
   (0x1F92, [0x1F2A; 0x399]); (0x1F93, [0x1F2B; 0x399]);
   (0x1F94, [0x1F2C; 0x399]); (0x1F95, [0x1F2D; 0x399]);
   (0x1F96, [0x1F2E; 0x399]); (0x1F97, [0x1F2F; 0x399]);
   (0x1F98, [0x1F28; 0x399]); (0x1F99, [0x1F29; 0x399]);
   (0x1F9A, [0x1F2A; 0x399]); (0x1F9B, [0x1F2B; 0x399]);
   (0x1F9C, [0x1F2C; 0x399]); (0x1F9D, [0x1F2D; 0x399]);
   (0x1F9E, [0x1F2E; 0x399]); (0x1F9F, [0x1F2F; 0x399]);
   (0x1FA0, [0x1F68; 0x399]); (0x1FA1, [0x1F69; 0x399]);
   (0x1FA2, [0x1F6A; 0x399]); (0x1FA3, [0x1F6B; 0x399]);
   (0x1FA4, [0x1F6C; 0x399]); (0x1FA5, [0x1F6D; 0x399]);
   (0x1FA6, [0x1F6E; 0x399]); (0x1FA7, [0x1F6F; 0x399]);
   (0x1FA8, [0x1F68; 0x399]); (0x1FA9, [0x1F69; 0x399]);
   (0x1FAA, [0x1F6A; 0x399]); (0x1FAB, [0x1F6B; 0x399]);
   (0x1FAC, [0x1F6C; 0x399]); (0x1FAD, [0x1F6D; 0x399]);
   (0x1FAE, [0x1F6E; 0x399]); (0x1FAF, [0x1F6F; 0x399]);
   (0x1FB2, [0x1FBA; 0x399]); (0x1FB3, [0x391; 0x399]);
   (0x1FB4, [0x386; 0x399]); (0x1FB6, [0x391; 0x342]);
   (0x1FB7, [0x391; 0x342; 0x399]); (0x1FBC, [0x391; 0x399]);
   (0x1FC2, [0x1FCA; 0x399]); (0x1FC3, [0x397; 0x399]);
   (0x1FC4, [0x389; 0x399]); (0x1FC6, [0x397; 0x342]);
   (0x1FC7, [0x397; 0x342; 0x399]); (0x1FCC, [0x397; 0x399]);
   (0x1FD2, [0x399; 0x308; 0x300]); (0x1FD3, [0x399; 0x308; 0x301]);
   (0x1FD6, [0x399; 0x342]); (0x1FD7, [0x399; 0x308; 0x342]);
   (0x1FE2, [0x3A5; 0x308; 0x300]); (0x1FE3, [0x3A5; 0x308; 0x301]);
   (0x1FE4, [0x3A1; 0x313]); (0x1FE6, [0x3A5; 0x342]);
   (0x1FE7, [0x3A5; 0x308; 0x342]); (0x1FF2, [0x1FFA; 0x399]);
   (0x1FF3, [0x3A9; 0x399]); (0x1FF4, [0x38F; 0x399]);
   (0x1FF6, [0x3A9; 0x342]); (0x1FF7, [0x3A9; 0x342; 0x399]);
   (0x1FFC, [0x3A9; 0x399]); (0xFB00, [0x46; 0x46]); (0xFB01, [0x46; 0x49]);
   (0xFB02, [0x46; 0x4C]); (0xFB03, [0x46; 0x46; 0x49]);
   (0xFB04, [0x46; 0x46; 0x4C]); (0xFB05, [0x53; 0x54]);
   (0xFB06, [0x53; 0x54]); (0xFB13, [0x544; 0x546]); (0xFB14, [0x544; 0x535]);
   (0xFB15, [0x544; 0x53B]); (0xFB16, [0x54E; 0x546]);
   (0xFB17, [0x544; 0x53D])].

(** The property Cased above U+007F. *)
Definition cased_ranges : list (N * N) :=
  [(0xAA, 0xAA); (0xB5, 0xB5); (0xBA, 0xBA); (0xC0, 0xD6); (0xD8, 0xF6);
   (0xF8, 0x1BA); (0x1BC, 0x1BF); (0x1C4, 0x293); (0x295, 0x2B8);
   (0x2C0, 0x2C1); (0x2E0, 0x2E4); (0x345, 0x345); (0x370, 0x373);
   (0x376, 0x377); (0x37A, 0x37D); (0x37F, 0x37F); (0x386, 0x386);
   (0x388, 0x38A); (0x38C, 0x38C); (0x38E, 0x3A1); (0x3A3, 0x3F5);
   (0x3F7, 0x481); (0x48A, 0x52F); (0x531, 0x556); (0x560, 0x588);
   (0x10A0, 0x10C5); (0x10C7, 0x10C7); (0x10CD, 0x10CD); (0x10D0, 0x10FA);
   (0x10FD, 0x10FF); (0x13A0, 0x13F5); (0x13F8, 0x13FD); (0x1C80, 0x1C88);
   (0x1C90, 0x1CBA); (0x1CBD, 0x1CBF); (0x1D00, 0x1DBF); (0x1E00, 0x1F15);
   (0x1F18, 0x1F1D); (0x1F20, 0x1F45); (0x1F48, 0x1F4D); (0x1F50, 0x1F57);
   (0x1F59, 0x1F59); (0x1F5B, 0x1F5B); (0x1F5D, 0x1F5D); (0x1F5F, 0x1F7D);
   (0x1F80, 0x1FB4); (0x1FB6, 0x1FBC); (0x1FBE, 0x1FBE); (0x1FC2, 0x1FC4);
   (0x1FC6, 0x1FCC); (0x1FD0, 0x1FD3); (0x1FD6, 0x1FDB); (0x1FE0, 0x1FEC);
   (0x1FF2, 0x1FF4); (0x1FF6, 0x1FFC); (0x2071, 0x2071); (0x207F, 0x207F);
   (0x2090, 0x209C); (0x2102, 0x2102); (0x2107, 0x2107); (0x210A, 0x2113);
   (0x2115, 0x2115); (0x2119, 0x211D); (0x2124, 0x2124); (0x2126, 0x2126);
   (0x2128, 0x2128); (0x212A, 0x212D); (0x212F, 0x2134); (0x2139, 0x2139);
   (0x213C, 0x213F); (0x2145, 0x2149); (0x214E, 0x214E); (0x2160, 0x217F);
   (0x2183, 0x2184); (0x24B6, 0x24E9); (0x2C00, 0x2CE4); (0x2CEB, 0x2CEE);
   (0x2CF2, 0x2CF3); (0x2D00, 0x2D25); (0x2D27, 0x2D27); (0x2D2D, 0x2D2D);
   (0xA640, 0xA66D); (0xA680, 0xA69D); (0xA722, 0xA787); (0xA78B, 0xA78E);
   (0xA790, 0xA7CA); (0xA7D0, 0xA7D1); (0xA7D3, 0xA7D3); (0xA7D5, 0xA7D9);
   (0xA7F5, 0xA7F6); (0xA7F8, 0xA7FA); (0xAB30, 0xAB5A); (0xAB5C, 0xAB68);
   (0xAB70, 0xABBF); (0xFB00, 0xFB06); (0xFB13, 0xFB17); (0xFF21, 0xFF3A);
   (0xFF41, 0xFF5A); (0x10400, 0x1044F); (0x104B0, 0x104D3);
   (0x104D8, 0x104FB); (0x10570, 0x1057A); (0x1057C, 0x1058A);
   (0x1058C, 0x10592); (0x10594, 0x10595); (0x10597, 0x105A1);
   (0x105A3, 0x105B1); (0x105B3, 0x105B9); (0x105BB, 0x105BC);
   (0x10780, 0x10780); (0x10783, 0x10785); (0x10787, 0x107B0);
   (0x107B2, 0x107BA); (0x10C80, 0x10CB2); (0x10CC0, 0x10CF2);
   (0x118A0, 0x118DF); (0x16E40, 0x16E7F); (0x1D400, 0x1D454);
   (0x1D456, 0x1D49C); (0x1D49E, 0x1D49F); (0x1D4A2, 0x1D4A2);
   (0x1D4A5, 0x1D4A6); (0x1D4A9, 0x1D4AC); (0x1D4AE, 0x1D4B9);
   (0x1D4BB, 0x1D4BB); (0x1D4BD, 0x1D4C3); (0x1D4C5, 0x1D505);
   (0x1D507, 0x1D50A); (0x1D50D, 0x1D514); (0x1D516, 0x1D51C);
   (0x1D51E, 0x1D539); (0x1D53B, 0x1D53E); (0x1D540, 0x1D544);
   (0x1D546, 0x1D546); (0x1D54A, 0x1D550); (0x1D552, 0x1D6A5);
   (0x1D6A8, 0x1D6C0); (0x1D6C2, 0x1D6DA); (0x1D6DC, 0x1D6FA);
   (0x1D6FC, 0x1D714); (0x1D716, 0x1D734); (0x1D736, 0x1D74E);
   (0x1D750, 0x1D76E); (0x1D770, 0x1D788); (0x1D78A, 0x1D7A8);
   (0x1D7AA, 0x1D7C2); (0x1D7C4, 0x1D7CB); (0x1DF00, 0x1DF09);
   (0x1DF0B, 0x1DF1E); (0x1E900, 0x1E943); (0x1F130, 0x1F149);
   (0x1F150, 0x1F169); (0x1F170, 0x1F189)].

(** The property Case_Ignorable above U+007F. *)
Definition case_ignorable_ranges : list (N * N) :=
  [(0xA8, 0xA8); (0xAD, 0xAD); (0xAF, 0xAF); (0xB4, 0xB4); (0xB7, 0xB8);
   (0x2B0, 0x36F); (0x374, 0x375); (0x37A, 0x37A); (0x384, 0x385);
   (0x387, 0x387); (0x483, 0x489); (0x559, 0x559); (0x55F, 0x55F);
   (0x591, 0x5BD); (0x5BF, 0x5BF); (0x5C1, 0x5C2); (0x5C4, 0x5C5);
   (0x5C7, 0x5C7); (0x5F4, 0x5F4); (0x600, 0x605); (0x610, 0x61A);
   (0x61C, 0x61C); (0x640, 0x640); (0x64B, 0x65F); (0x670, 0x670);
   (0x6D6, 0x6DD); (0x6DF, 0x6E8); (0x6EA, 0x6ED); (0x70F, 0x70F);
   (0x711, 0x711); (0x730, 0x74A); (0x7A6, 0x7B0); (0x7EB, 0x7F5);
   (0x7FA, 0x7FA); (0x7FD, 0x7FD); (0x816, 0x82D); (0x859, 0x85B);
   (0x888, 0x888); (0x890, 0x891); (0x898, 0x89F); (0x8C9, 0x902);
   (0x93A, 0x93A); (0x93C, 0x93C); (0x941, 0x948); (0x94D, 0x94D);
   (0x951, 0x957); (0x962, 0x963); (0x971, 0x971); (0x981, 0x981);
   (0x9BC, 0x9BC); (0x9C1, 0x9C4); (0x9CD, 0x9CD); (0x9E2, 0x9E3);
   (0x9FE, 0x9FE); (0xA01, 0xA02); (0xA3C, 0xA3C); (0xA41, 0xA42);
   (0xA47, 0xA48); (0xA4B, 0xA4D); (0xA51, 0xA51); (0xA70, 0xA71);
   (0xA75, 0xA75); (0xA81, 0xA82); (0xABC, 0xABC); (0xAC1, 0xAC5);
   (0xAC7, 0xAC8); (0xACD, 0xACD); (0xAE2, 0xAE3); (0xAFA, 0xAFF);
   (0xB01, 0xB01); (0xB3C, 0xB3C); (0xB3F, 0xB3F); (0xB41, 0xB44);
   (0xB4D, 0xB4D); (0xB55, 0xB56); (0xB62, 0xB63); (0xB82, 0xB82);
   (0xBC0, 0xBC0); (0xBCD, 0xBCD); (0xC00, 0xC00); (0xC04, 0xC04);
   (0xC3C, 0xC3C); (0xC3E, 0xC40); (0xC46, 0xC48); (0xC4A, 0xC4D);
   (0xC55, 0xC56); (0xC62, 0xC63); (0xC81, 0xC81); (0xCBC, 0xCBC);
   (0xCBF, 0xCBF); (0xCC6, 0xCC6); (0xCCC, 0xCCD); (0xCE2, 0xCE3);
   (0xD00, 0xD01); (0xD3B, 0xD3C); (0xD41, 0xD44); (0xD4D, 0xD4D);
   (0xD62, 0xD63); (0xD81, 0xD81); (0xDCA, 0xDCA); (0xDD2, 0xDD4);
   (0xDD6, 0xDD6); (0xE31, 0xE31); (0xE34, 0xE3A); (0xE46, 0xE4E);
   (0xEB1, 0xEB1); (0xEB4, 0xEBC); (0xEC6, 0xEC6); (0xEC8, 0xECD);
   (0xF18, 0xF19); (0xF35, 0xF35); (0xF37, 0xF37); (0xF39, 0xF39);
   (0xF71, 0xF7E); (0xF80, 0xF84); (0xF86, 0xF87); (0xF8D, 0xF97);
   (0xF99, 0xFBC); (0xFC6, 0xFC6); (0x102D, 0x1030); (0x1032, 0x1037);
   (0x1039, 0x103A); (0x103D, 0x103E); (0x1058, 0x1059); (0x105E, 0x1060);
   (0x1071, 0x1074); (0x1082, 0x1082); (0x1085, 0x1086); (0x108D, 0x108D);
   (0x109D, 0x109D); (0x10FC, 0x10FC); (0x135D, 0x135F); (0x1712, 0x1714);
   (0x1732, 0x1733); (0x1752, 0x1753); (0x1772, 0x1773); (0x17B4, 0x17B5);
   (0x17B7, 0x17BD); (0x17C6, 0x17C6); (0x17C9, 0x17D3); (0x17D7, 0x17D7);
   (0x17DD, 0x17DD); (0x180B, 0x180F); (0x1843, 0x1843); (0x1885, 0x1886);
   (0x18A9, 0x18A9); (0x1920, 0x1922); (0x1927, 0x1928); (0x1932, 0x1932);
   (0x1939, 0x193B); (0x1A17, 0x1A18); (0x1A1B, 0x1A1B); (0x1A56, 0x1A56);
   (0x1A58, 0x1A5E); (0x1A60, 0x1A60); (0x1A62, 0x1A62); (0x1A65, 0x1A6C);
   (0x1A73, 0x1A7C); (0x1A7F, 0x1A7F); (0x1AA7, 0x1AA7); (0x1AB0, 0x1ACE);
   (0x1B00, 0x1B03); (0x1B34, 0x1B34); (0x1B36, 0x1B3A); (0x1B3C, 0x1B3C);
   (0x1B42, 0x1B42); (0x1B6B, 0x1B73); (0x1B80, 0x1B81); (0x1BA2, 0x1BA5);
   (0x1BA8, 0x1BA9); (0x1BAB, 0x1BAD); (0x1BE6, 0x1BE6); (0x1BE8, 0x1BE9);
   (0x1BED, 0x1BED); (0x1BEF, 0x1BF1); (0x1C2C, 0x1C33); (0x1C36, 0x1C37);
   (0x1C78, 0x1C7D); (0x1CD0, 0x1CD2); (0x1CD4, 0x1CE0); (0x1CE2, 0x1CE8);
   (0x1CED, 0x1CED); (0x1CF4, 0x1CF4); (0x1CF8, 0x1CF9); (0x1D2C, 0x1D6A);
   (0x1D78, 0x1D78); (0x1D9B, 0x1DFF); (0x1FBD, 0x1FBD); (0x1FBF, 0x1FC1);
   (0x1FCD, 0x1FCF); (0x1FDD, 0x1FDF); (0x1FED, 0x1FEF); (0x1FFD, 0x1FFE);
   (0x200B, 0x200F); (0x2018, 0x2019); (0x2024, 0x2024); (0x2027, 0x2027);
   (0x202A, 0x202E); (0x2060, 0x2064); (0x2066, 0x206F); (0x2071, 0x2071);
   (0x207F, 0x207F); (0x2090, 0x209C); (0x20D0, 0x20F0); (0x2C7C, 0x2C7D);
   (0x2CEF, 0x2CF1); (0x2D6F, 0x2D6F); (0x2D7F, 0x2D7F); (0x2DE0, 0x2DFF);
   (0x2E2F, 0x2E2F); (0x3005, 0x3005); (0x302A, 0x302D); (0x3031, 0x3035);
   (0x303B, 0x303B); (0x3099, 0x309E); (0x30FC, 0x30FE); (0xA015, 0xA015);
   (0xA4F8, 0xA4FD); (0xA60C, 0xA60C); (0xA66F, 0xA672); (0xA674, 0xA67D);
   (0xA67F, 0xA67F); (0xA69C, 0xA69F); (0xA6F0, 0xA6F1); (0xA700, 0xA721);
   (0xA770, 0xA770); (0xA788, 0xA78A); (0xA7F2, 0xA7F4); (0xA7F8, 0xA7F9);
   (0xA802, 0xA802); (0xA806, 0xA806); (0xA80B, 0xA80B); (0xA825, 0xA826);
   (0xA82C, 0xA82C); (0xA8C4, 0xA8C5); (0xA8E0, 0xA8F1); (0xA8FF, 0xA8FF);
   (0xA926, 0xA92D); (0xA947, 0xA951); (0xA980, 0xA982); (0xA9B3, 0xA9B3);
   (0xA9B6, 0xA9B9); (0xA9BC, 0xA9BD); (0xA9CF, 0xA9CF); (0xA9E5, 0xA9E6);
   (0xAA29, 0xAA2E); (0xAA31, 0xAA32); (0xAA35, 0xAA36); (0xAA43, 0xAA43);
   (0xAA4C, 0xAA4C); (0xAA70, 0xAA70); (0xAA7C, 0xAA7C); (0xAAB0, 0xAAB0);
   (0xAAB2, 0xAAB4); (0xAAB7, 0xAAB8); (0xAABE, 0xAABF); (0xAAC1, 0xAAC1);
   (0xAADD, 0xAADD); (0xAAEC, 0xAAED); (0xAAF3, 0xAAF4); (0xAAF6, 0xAAF6);
   (0xAB5B, 0xAB5F); (0xAB69, 0xAB6B); (0xABE5, 0xABE5); (0xABE8, 0xABE8);
   (0xABED, 0xABED); (0xFB1E, 0xFB1E); (0xFBB2, 0xFBC2); (0xFE00, 0xFE0F);
   (0xFE13, 0xFE13); (0xFE20, 0xFE2F); (0xFE52, 0xFE52); (0xFE55, 0xFE55);
   (0xFEFF, 0xFEFF); (0xFF07, 0xFF07); (0xFF0E, 0xFF0E); (0xFF1A, 0xFF1A);
   (0xFF3E, 0xFF3E); (0xFF40, 0xFF40); (0xFF70, 0xFF70); (0xFF9E, 0xFF9F);
   (0xFFE3, 0xFFE3); (0xFFF9, 0xFFFB); (0x101FD, 0x101FD); (0x102E0, 0x102E0);
   (0x10376, 0x1037A); (0x10780, 0x10785); (0x10787, 0x107B0);
   (0x107B2, 0x107BA); (0x10A01, 0x10A03); (0x10A05, 0x10A06);
   (0x10A0C, 0x10A0F); (0x10A38, 0x10A3A); (0x10A3F, 0x10A3F);
   (0x10AE5, 0x10AE6); (0x10D24, 0x10D27); (0x10EAB, 0x10EAC);
   (0x10F46, 0x10F50); (0x10F82, 0x10F85); (0x11001, 0x11001);
   (0x11038, 0x11046); (0x11070, 0x11070); (0x11073, 0x11074);
   (0x1107F, 0x11081); (0x110B3, 0x110B6); (0x110B9, 0x110BA);
   (0x110BD, 0x110BD); (0x110C2, 0x110C2); (0x110CD, 0x110CD);
   (0x11100, 0x11102); (0x11127, 0x1112B); (0x1112D, 0x11134);
   (0x11173, 0x11173); (0x11180, 0x11181); (0x111B6, 0x111BE);
   (0x111C9, 0x111CC); (0x111CF, 0x111CF); (0x1122F, 0x11231);
   (0x11234, 0x11234); (0x11236, 0x11237); (0x1123E, 0x1123E);
   (0x112DF, 0x112DF); (0x112E3, 0x112EA); (0x11300, 0x11301);
   (0x1133B, 0x1133C); (0x11340, 0x11340); (0x11366, 0x1136C);
   (0x11370, 0x11374); (0x11438, 0x1143F); (0x11442, 0x11444);
   (0x11446, 0x11446); (0x1145E, 0x1145E); (0x114B3, 0x114B8);
   (0x114BA, 0x114BA); (0x114BF, 0x114C0); (0x114C2, 0x114C3);
   (0x115B2, 0x115B5); (0x115BC, 0x115BD); (0x115BF, 0x115C0);
   (0x115DC, 0x115DD); (0x11633, 0x1163A); (0x1163D, 0x1163D);
   (0x1163F, 0x11640); (0x116AB, 0x116AB); (0x116AD, 0x116AD);
   (0x116B0, 0x116B5); (0x116B7, 0x116B7); (0x1171D, 0x1171F);
   (0x11722, 0x11725); (0x11727, 0x1172B); (0x1182F, 0x11837);
   (0x11839, 0x1183A); (0x1193B, 0x1193C); (0x1193E, 0x1193E);
   (0x11943, 0x11943); (0x119D4, 0x119D7); (0x119DA, 0x119DB);
   (0x119E0, 0x119E0); (0x11A01, 0x11A0A); (0x11A33, 0x11A38);
   (0x11A3B, 0x11A3E); (0x11A47, 0x11A47); (0x11A51, 0x11A56);
   (0x11A59, 0x11A5B); (0x11A8A, 0x11A96); (0x11A98, 0x11A99);
   (0x11C30, 0x11C36); (0x11C38, 0x11C3D); (0x11C3F, 0x11C3F);
   (0x11C92, 0x11CA7); (0x11CAA, 0x11CB0); (0x11CB2, 0x11CB3);
   (0x11CB5, 0x11CB6); (0x11D31, 0x11D36); (0x11D3A, 0x11D3A);
   (0x11D3C, 0x11D3D); (0x11D3F, 0x11D45); (0x11D47, 0x11D47);
   (0x11D90, 0x11D91); (0x11D95, 0x11D95); (0x11D97, 0x11D97);
   (0x11EF3, 0x11EF4); (0x13430, 0x13438); (0x16AF0, 0x16AF4);
   (0x16B30, 0x16B36); (0x16B40, 0x16B43); (0x16F4F, 0x16F4F);
   (0x16F8F, 0x16F9F); (0x16FE0, 0x16FE1); (0x16FE3, 0x16FE4);
   (0x1AFF0, 0x1AFF3); (0x1AFF5, 0x1AFFB); (0x1AFFD, 0x1AFFE);
   (0x1BC9D, 0x1BC9E); (0x1BCA0, 0x1BCA3); (0x1CF00, 0x1CF2D);
   (0x1CF30, 0x1CF46); (0x1D167, 0x1D169); (0x1D173, 0x1D182);
   (0x1D185, 0x1D18B); (0x1D1AA, 0x1D1AD); (0x1D242, 0x1D244);
   (0x1DA00, 0x1DA36); (0x1DA3B, 0x1DA6C); (0x1DA75, 0x1DA75);
   (0x1DA84, 0x1DA84); (0x1DA9B, 0x1DA9F); (0x1DAA1, 0x1DAAF);
   (0x1E000, 0x1E006); (0x1E008, 0x1E018); (0x1E01B, 0x1E021);
   (0x1E023, 0x1E024); (0x1E026, 0x1E02A); (0x1E130, 0x1E13D);
   (0x1E2AE, 0x1E2AE); (0x1E2EC, 0x1E2EF); (0x1E8D0, 0x1E8D6);
   (0x1E944, 0x1E94B); (0x1F3FB, 0x1F3FF); (0xE0001, 0xE0001);
   (0xE0020, 0xE007F); (0xE0100, 0xE01EF)].

(** White space above U+007F. *)
Definition space_ranges : list (N * N) :=
  [(0x85, 0x85); (0xA0, 0xA0); (0x1680, 0x1680); (0x2000, 0x200A);
   (0x2028, 0x2029); (0x202F, 0x202F); (0x205F, 0x205F); (0x3000, 0x3000)].

Definition in_ranges (c : N) (ranges : list (N * N)) : bool :=
  existsb (fun r => (fst r <=? c) && (c <=? snd r)) ranges.

Fixpoint in_runs (c : N) (runs : list (N * N * N * N)) : option N :=
  match runs with
  | [] => None
  | (first, last, step, image) :: rest =>
      if (first <=? c) && (c <=? last) && ((c - first) mod step =? 0)
      then Some (image + (c - first))
      else in_runs c rest
  end.

Fixpoint in_special (c : N) (special : list (N * list N)) : option (list N) :=
  match special with
  | [] => None
  | (d, image) :: rest => if c =? d then Some image else in_special c rest
  end.

Definition mapping (runs : list (N * N * N * N)) (special : list (N * list N))
    (c : N) : list N :=
  match in_special c special with
  | Some image => image
  | None =>
      match in_runs c runs with
      | Some d => [d]
      | None => [c]
      end
  end.

(** Below U+0080 only the letters A-Z and a-z have another case. *)
Definition to_lower (c : N) : list N :=
  if c <? 0x80 then [if (0x41 <=? c) && (c <=? 0x5A) then c + 32 else c]
  else mapping lower_runs lower_special c.

Definition to_upper (c : N) : list N :=
  if c <? 0x80 then [if (0x61 <=? c) && (c <=? 0x7A) then c - 32 else c]
  else mapping upper_runs upper_special c.

Definition cased (c : N) : bool :=
  if c <? 0x80 then ((0x41 <=? c) && (c <=? 0x5A)) || ((0x61 <=? c) && (c <=? 0x7A))
  else in_ranges c cased_ranges.

(** Below U+0080: the apostrophe, the full stop, the colon, the
    circumflex and the grave accent. *)
Definition case_ignorable (c : N) : bool :=
  if c <? 0x80 then
    (c =? 0x27) || (c =? 0x2E) || (c =? 0x3A) || (c =? 0x5E) || (c =? 0x60)
  else in_ranges c case_ignorable_ranges.

(** Below U+0080: TAB, LF, VT, FF, CR, the separators FS, GS, RS, US and
    the space. *)
Definition is_space (c : N) : bool :=
  if c <? 0x80 then ((0x09 <=? c) && (c <=? 0x0D)) || ((0x1C <=? c) && (c <=? 0x20))
  else in_ranges c space_ranges.

(** The first code point that is not case-ignorable. *)
Fixpoint skip_ignorable (cs : list N) : option N :=
  match cs with
  | [] => None
  | c :: rest => if case_ignorable c then skip_ignorable rest else Some c
  end.

(** A capital sigma is final when a cased letter comes before it and
    none after it, case-ignorable code points apart; [before] is what
    precedes it, nearest first. *)
Definition final_sigma (before after : list N) : bool :=
  match skip_ignorable before with
  | Some c => cased c
  | None => false
  end &&
  match skip_ignorable after with
  | Some c => negb (cased c)
  | None => true
  end.

Fixpoint lower_from (before cs : list N) : list N :=
  match cs with
  | [] => []
  | c :: rest =>
      ((if c =? 0x3A3 then [if final_sigma before rest then 0x3C2 else 0x3C3]
        else to_lower c) ++ lower_from (c :: before) rest)%list
  end.

Definition lower (cs : list N) : list N := lower_from [] cs.

Definition upper (cs : list N) : list N := flat_map to_upper cs.

Fixpoint lstrip (cs : list N) : list N :=
  match cs with
  | [] => []
  | c :: rest => if is_space c then lstrip rest else cs
  end.

Definition strip (cs : list N) : list N := rev (lstrip (rev (lstrip cs))).

End Unicode.

(** ** Python string primitives *)

Module Str.

(** The letters A-Z, and their lower case. *)
Definition is_upper (c : ascii) : bool :=
  let n := nat_of_ascii c in (65 <=? n)%nat && (n <=? 90)%nat.

Definition lower_char (c : ascii) : ascii :=
  if is_upper c then ascii_of_nat (nat_of_ascii c + 32) else c.

(** [s.lower()] *)
Definition lower (s : string) : string :=
  Unicode.encode (Unicode.lower (Unicode.decode s)).

(** [s.upper()] *)
Definition upper (s : string) : string :=
  Unicode.encode (Unicode.upper (Unicode.decode s)).

(** [s.replace] of the space by the empty string: every U+0020 is
    dropped, nothing else. *)
Fixpoint remove_spaces (s : string) : string :=
  match s with
  | EmptyString => EmptyString
  | String c r =>
      if Ascii.eqb c " "%char then remove_spaces r
      else String c (remove_spaces r)
  end.

(** The white space below U+0080, each a byte of its own: TAB, LF, VT,
    FF, CR, the separators FS, GS, RS, US and the space. *)
Definition is_space (c : ascii) : bool :=
  let n := nat_of_ascii c in
  ((9 <=? n)%nat && (n <=? 13)%nat) || ((28 <=? n)%nat && (n <=? 32)%nat).

Fixpoint lstrip_by (p : ascii -> bool) (s : string) : string :=
  match s with
  | EmptyString => EmptyString
  | String c r => if p c then lstrip_by p r else s
  end.

Fixpoint rstrip_by (p : ascii -> bool) (s : string) : string :=
  match s with
  | EmptyString => EmptyString
  | String c r =>
      match rstrip_by p r with
      | EmptyString => if p c then EmptyString else String c EmptyString
      | r' => String c r'
      end
  end.

Definition strip_by (p : ascii -> bool) (s : string) : string :=
  rstrip_by p (lstrip_by p s).

(** [s.strip()] *)
Definition strip (s : string) : string :=
  Unicode.encode (Unicode.strip (Unicode.decode s)).

Fixpoint mem_char (c : ascii) (chars : string) : bool :=
  match chars with
  | EmptyString => false
  | String d r => Ascii.eqb c d || mem_char c r
  end.

(** [s.strip(chars)]: [chars] is a set of characters, not an affix. *)
Definition strip_chars (chars s : string) : string :=
  strip_by (fun c => mem_char c chars) s.

(** [sep.join(l)] *)
Fixpoint join (sep : string) (l : list string) : string :=
  match l with
  | [] => EmptyString
  | [x] => x
  | x :: r => x ++ sep ++ join sep r
  end.

End Str.


(** ** Python values and exceptions *)

(** What [json.loads] returns, and what a cell of the dataset holds: a
    missing cell is the float NaN. *)
Inductive pyobj : Type :=
| PyNone
| PyBool (b : bool)
| PyInt (z : Z)
| PyFloat (f : float)
| PyStr (s : string)
| PyList (l : list pyobj)
| PyDict (d : list (string * pyobj)).

(** [bool(v)].  NaN is a non-zero float, hence true. *)
Definition truthy (v : pyobj) : bool :=
  match v with
  | PyNone => false
  | PyBool b => b
  | PyInt z => negb (z =? 0)%Z
  | PyFloat f => negb (PrimFloat.eqb f PrimFloat.zero)
  | PyStr s => negb (String.eqb s EmptyString)
  | PyList l => match l with [] => false | _ => true end
  | PyDict d => match d with [] => false | _ => true end
  end.

(** Lists and dicts cannot be members of a set. *)
Definition hashable (v : pyobj) : bool :=
  match v with
  | PyList _ | PyDict _ => false
  | _ => true
  end.

(** [v == s] for a string literal [s]. *)
Definition eq_str (v : pyobj) (s : string) : bool :=
  match v with
  | PyStr t => String.eqb t s
  | _ => false
  end.

(** Key lookup in a dict kept as an association list. *)
Fixpoint assoc (key : string) (d : list (string * pyobj)) : option pyobj :=
  match d with
  | [] => None
  | (k, v) :: r => if String.eqb k key then Some v else assoc key r
  end.

Inductive exn : Type :=
| ValueError (msg : string)
| KeyError (key : string)
| TypeError (msg : string)
| AttributeError (msg : string)
| IndexError
| JSONDecodeError
| ValidationError
| APIError (msg : string)
| PyMongoError (msg : string).

(** ** Schemas (recipe_schema.py) *)

Record Ingredient : Type := {
  ingredient : string;
  quantity : string }.

(** A request whose liked and excluded lists are both given as lists.
    A list that is left out stays [None], the validators not being run
    on a default; [generate_recipe] then saves [None] and raises a
    [TypeError] at l.144.  Such a request is outside this record. *)
Record RecipeRequest : Type := {
  user_id : string;
  available_ingredients : list string;
  liked_ingredients : list string;
  excluded_ingredients : list string }.

Record DebugInfo : Type := {
  matched_with_database : list string;
  matched_via_llm : list string;
  final_liked_ingredients : list string;
  final_excluded_ingredients : list string;
  raw_llm_response : string }.

Record RecipeResponseWithDebug : Type := {
  title : string;
  ingredients : list Ingredient;
  instructions : list string;
  estimated_cooking_time : string;
  difficulty_level : string;
  debug_info : DebugInfo }.

(** The membership test of [RecipeRequest.validate_ingredients]: every
    entry of a liked or excluded list is, ignoring case, one of the
    available ingredients. *)
Definition validate_ingredients (available ingredients : list string) : bool :=
  forallb (fun i => bool_decide (Str.lower i ∈ map Str.lower available)) ingredients.

Definition request_accepted (r : RecipeRequest) : bool :=
  validate_ingredients (available_ingredients r) (liked_ingredients r)
  && validate_ingredients (available_ingredients r) (excluded_ingredients r).

(** ** The world a request runs in *)

Record ChatRequest : Type := {
  messages : list (string * string);
  model : string;
  temperature : Z;
  max_tokens : Z;
  top_p : Z }.

(** A completion either raises (transport error, timeout, refusal by the
    endpoint) or carries its choices; the content of a choice may be
    [None]. *)
Inductive ChatOutcome : Type :=
| ChatRaises (e : exn)
| ChatCompletion (choices : list (option string)).

Inductive DbOp : Type := Ping | FindOne | UpdateOne | InsertOne.

Inductive level : Type := INFO | WARNING | ERROR.

(** One constructor per logging call of recipe_ai.py and db_manager.py,
    carrying the values the message interpolates. *)
Inductive event : Type :=
| DbConnectionConfirmed
| SavingPreference (user : string)
| UpdatingPreference (user : string)
| CreatingPreference (user : string)
| DbOperationFailed (msg : string)
| PreferencesSaved
| AvailableIngredients (l : list string)
| LikedIngredients (l : list string)
| ExcludedIngredients (l : list string)
| ConflictDetected (msg : string)
| LlmRawResponse (ing reply : string)
| LlmValidationFailed (ing : string) (e : exn)
| CheckingBeforeLlm (ing : string)
| NotRecognized (ing : string)
| ValidIngredients (l : list string)
| IngredientCategories (l : list pyobj)
| MatchedFromDatabase (l : list string)
| MatchedViaLlm (l : list string)
| NoCoreIngredients (l : list pyobj)
| RawLlmResponse (text : string)
| ErrorGeneratingRecipes (e : exn).

Record World : Type := {
  log : list (level * event);
  calls : list ChatRequest;
  preferences : gmap string (list string * list string) }.

Definition initial_world : World :=
  {| log := []; calls := []; preferences := ∅ |}.

(** ** Computations that log, call out and may raise *)

Inductive outcome (A : Type) : Type :=
| Return (a : A)
| Raise (e : exn).
Arguments Return {A} a.
Arguments Raise {A} e.

Definition M (A : Type) : Type := World -> outcome A * World.

Definition ret {A} (a : A) : M A := fun w => (Return a, w).

Definition raise {A} (e : exn) : M A := fun w => (Raise e, w).

Definition bind {A B} (m : M A) (k : A -> M B) : M B :=
  fun w => match m w with
           | (Return a, w') => k a w'
           | (Raise e, w') => (Raise e, w')
           end.

(** [try: m  except Exception as e: h e] *)
Definition try_except {A} (m : M A) (h : exn -> M A) : M A :=
  fun w => match m w with
           | (Return a, w') => (Return a, w')
           | (Raise e, w') => h e w'
           end.

(** The three ways a run changes its world. *)
Definition logged (entries : list (level * event)) (w : World) : World :=
  {| log := (log w ++ entries)%list; calls := calls w;
     preferences := preferences w |}.

Definition called (req : ChatRequest) (w : World) : World :=
  {| log := log w; calls := (calls w ++ [req])%list;
     preferences := preferences w |}.

Definition stored (user : string) (liked excluded : list string) (w : World) : World :=
  {| log := log w; calls := calls w;
     preferences := <[user := (liked, excluded)]> (preferences w) |}.

Definition logger (l : level) (e : event) : M unit :=
  fun w => (Return tt, logged [(l, e)] w).

#[global] Instance M_ret : MRet M := @ret.
#[global] Instance M_bind : MBind M := fun A B k m => bind m k.

(** [for x in l: acc = body acc x], leaving at the first exception. *)
Fixpoint for_each {A B} (body : B -> A -> M B) (l : list A) (acc : B) : M B :=
  match l with
  | [] => ret acc
  | x :: r => acc' ← body acc x; for_each body r acc'
  end.

(** [[f x for x in l]], leaving at the first exception. *)
Fixpoint comprehension {A B} (f : A -> M B) (l : list A) : M (list B) :=
  match l with
  | [] => ret []
  | x :: r => y ← f x; ys ← comprehension f r; ret (y :: ys)
  end.

(** ** The service (recipe_ai.py) *)

(** The double quote, for the JSON the prompts and replies spell out. *)
Definition dq : string := String "034"%char EmptyString.

Definition quoted (s : string) : string := dq ++ s ++ dq.

(** [CORE_CATEGORIES], l.30. *)
Definition CORE_CATEGORIES : gset string :=
  {[ "protein"; "vegetables"; "fruits"; "carbs" ]}.

(** The dict [is_valid_ingredient] returns: keys "ingredient" and
    "category". *)
Record Resolution : Type := {
  res_ingredient : string;
  res_category : pyobj }.

(** The four accumulators of the resolution loop, l.158-161.  The set
    [ingredient_categories] is kept as the sequence of the values added to
    it; the code reads it through [intersection] only. *)
Record Resolved : Type := {
  valid_ingredients : list string;
  matched_db : list string;
  matched_llm : list string;
  ingredient_categories : list pyobj }.

Definition no_ingredients : Resolved :=
  {| valid_ingredients := []; matched_db := []; matched_llm := [];
     ingredient_categories := [] |}.

(** [ingredient_categories.intersection(CORE_CATEGORIES)] is non-empty. *)
Definition meets_core (categories : list pyobj) : bool :=
  existsb (fun v => match v with
                    | PyStr s => bool_decide (s ∈ CORE_CATEGORIES)
                    | _ => false
                    end) categories.

Definition not_enough_msg : string :=
  "Not enough valid ingredients. Provide at least 3 food ingredients.".

Definition no_core_msg : string :=
  "At least one ingredient should be a vegetable, carb, protein, or fruit.".

Definition conflict_msg (names : list string) : string :=
  "Conflicting preferences detected. These ingredients cannot be both liked and excluded: "
  ++ Str.join ", " names.

(** [for recipe in recipes_data]: a list yields its items, a dict its
    keys, a string its characters; nothing else is iterable. *)
Definition iterate (v : pyobj) : M (list pyobj) :=
  match v with
  | PyList l => ret l
  | PyDict d => ret (map (fun kv => PyStr (fst kv)) d)
  | PyStr s => ret (map (fun c => PyStr (String c EmptyString)) (list_ascii_of_string s))
  | _ => raise (TypeError "object is not iterable")
  end.

(** [v[key]] for a string key. *)
Definition subscript (v : pyobj) (key : string) : M pyobj :=
  match v with
  | PyDict d =>
      match assoc key d with
      | Some x => ret x
      | None => raise (KeyError key)
      end
  | PyStr _ => raise (TypeError "string indices must be integers")
  | PyList _ => raise (TypeError "list indices must be integers or slices")
  | _ => raise (TypeError "object is not subscriptable")
  end.

(** [v.upper()] *)
Definition call_upper (v : pyobj) : M string :=
  match v with
  | PyStr s => ret (Str.upper s)
  | _ => raise (AttributeError "object has no attribute 'upper'")
  end.

(** Pydantic's validation of a [str] field and of a [List[...]] field. *)
Definition as_str (v : option pyobj) : option string :=
  match v with
  | Some (PyStr s) => Some s
  | _ => None
  end.

Definition as_list {A} (item : pyobj -> option A) (v : option pyobj) : option (list A) :=
  match v with
  | Some (PyList l) => mapM item l
  | _ => None
  end.

Definition as_Ingredient (v : pyobj) : option Ingredient :=
  match v with
  | PyDict d =>
      i ← as_str (assoc "ingredient" d);
      q ← as_str (assoc "quantity" d);
      Some {| ingredient := i; quantity := q |}
  | _ => None
  end.

Definition as_recipe (d : list (string * pyobj)) (debug : DebugInfo)
  : option RecipeResponseWithDebug :=
  t ← as_str (assoc "title" d);
  ings ← as_list as_Ingredient (assoc "ingredients" d);
  steps ← as_list (fun v => as_str (Some v)) (assoc "instructions" d);
  time ← as_str (assoc "estimated_cooking_time" d);
  level ← as_str (assoc "difficulty_level" d);
  Some {| title := t; ingredients := ings; instructions := steps;
          estimated_cooking_time := time; difficulty_level := level;
          debug_info := debug |}.

(** [RecipeResponseWithDebug( **recipe, debug_info=debug)], l.217-223. *)
Definition new_RecipeResponseWithDebug (debug : DebugInfo) (recipe : pyobj)
  : M RecipeResponseWithDebug :=
  match recipe with
  | PyDict d =>
      match assoc "debug_info" d with
      | Some _ => raise (TypeError "got multiple values for keyword argument 'debug_info'")
      | None =>
          match as_recipe d debug with
          | Some r => ret r
          | None => raise ValidationError
          end
      end
  | _ => raise (TypeError "argument after ** must be a mapping")
  end.

(** [response.choices[0].message.content.strip()] *)
Definition stripped_content (choices : list (option string)) : M string :=
  match choices with
  | [] => raise IndexError
  | None :: _ => raise (AttributeError "'NoneType' object has no attribute 'strip'")
  | Some s :: _ => ret (Str.strip s)
  end.

Section Service.

(** [WordNetLemmatizer().lemmatize], from nltk. *)
Variable lemmatize : string -> string.

(** [json.loads]; [None] stands for [JSONDecodeError]. *)
Variable json_loads : string -> option pyobj.

(** How the f-string of l.62 renders the set [CORE_CATEGORIES]; the order
    of its elements is not fixed by the language. *)
Variable core_categories_repr : string.

(** The rows (Ingredient, Category) of ingredients_table.csv as
    [pd.read_csv] returns them; [None] is a missing cell. *)
Variable ingredients_table : list (option string * option string).

(** The chat endpoint: what the [n]-th call of a run answers. *)
Variable client : nat -> ChatRequest -> ChatOutcome.

(** The database driver: the message of the [PyMongoError] an operation
    raises, if it does. *)
Variable db_fault : DbOp -> option string.

(** [normalize_ingredient], l.36-46. *)
Definition normalize_ingredient (ingredient : string) : string :=
  lemmatize (Str.remove_spaces (Str.lower ingredient)).

(** The preprocessing of l.26-27: [.str.lower().str.replace] on both
    columns; a missing cell stays missing. *)
Definition preprocess (cell : option string) : option string :=
  option_map (fun s => Str.remove_spaces (Str.lower s)) cell.

Definition ingredient_df : list (option string * option string) :=
  map (fun row => (preprocess (fst row), preprocess (snd row))) ingredients_table.

(** [ingredient_df["Ingredient"].values] *)
Definition Ingredient_column : list (option string) := map fst ingredient_df.

Definition cell_value (cell : option string) : pyobj :=
  match cell with
  | Some s => PyStr s
  | None => PyFloat PrimFloat.nan
  end.

(** [get_ingredient_category], l.111-122. *)
Definition get_ingredient_category (ingredient : string) : pyobj :=
  let category_row :=
    filter (fun row => fst row = Some ingredient) ingredient_df in
  match category_row with
  | [] => PyNone
  | row :: _ => cell_value (snd row)
  end.

(** [client.chat.completions.create(...)]: the request is recorded, the
    endpoint answers or raises. *)
Definition chat_completions_create (req : ChatRequest) : M (list (option string)) :=
  fun w =>
    match client (length (calls w)) req with
    | ChatRaises e => (Raise e, called req w)
    | ChatCompletion choices => (Return choices, called req w)
    end.

Definition loads (text : string) : M pyobj :=
  match json_loads text with
  | Some v => ret v
  | None => raise JSONDecodeError
  end.

Definition ingredient_prompt (ingredient : string) : string :=
  "Is '" ++ ingredient ++ "' a food ingredient? Reply only with YES or NO. "
  ++ "If YES, specify category from " ++ core_categories_repr
  ++ ". If none, return 'None'. "
  ++ "Strictly output JSON: {" ++ quoted "valid" ++ ": " ++ quoted "YES/NO"
  ++ ", " ++ quoted "category" ++ ": " ++ quoted "core_category_or_None" ++ "}.".

Definition ingredient_request (ingredient : string) : ChatRequest :=
  {| messages := [("system", ingredient_prompt ingredient)];
     model := "gpt-4o-mini"; temperature := 0; max_tokens := 20; top_p := 1 |}.

(** [call_llm_for_ingredient], l.49-80. *)
Definition call_llm_for_ingredient (ingredient : string) : M pyobj :=
  try_except
    (choices ← chat_completions_create (ingredient_request ingredient);
     reply ← stripped_content choices;
     logger INFO (LlmRawResponse ingredient reply);;
     loads reply)
    (fun e =>
       logger ERROR (LlmValidationFailed ingredient e);;
       ret PyNone).

(** [is_valid_ingredient], l.83-108. *)
Definition is_valid_ingredient (ingredient : string) : M (option Resolution) :=
  let normalized_ingredient := normalize_ingredient ingredient in
  let category := get_ingredient_category normalized_ingredient in
  if truthy category then
    ret (Some {| res_ingredient := normalized_ingredient; res_category := category |})
  else
    logger INFO (CheckingBeforeLlm normalized_ingredient);;
    llm_result ← call_llm_for_ingredient normalized_ingredient;
    if truthy llm_result then
      valid ← subscript llm_result "valid";
      answer ← call_upper valid;
      if String.eqb answer "YES" then
        category ← subscript llm_result "category";
        ret (Some {| res_ingredient := normalized_ingredient;
                     res_category := if eq_str category "None" then PyNone
                                     else category |})
      else ret None
    else ret None.

(** The database operations of db_manager.py. *)
Definition db_guard (op : DbOp) : M unit :=
  match db_fault op with
  | Some msg => raise (PyMongoError msg)
  | None => ret tt
  end.

Definition stored_preference (user : string) : M (option (list string * list string)) :=
  fun w => (Return (preferences w !! user), w).

Definition store_preference (user : string) (liked excluded : list string) : M unit :=
  fun w => (Return tt, stored user liked excluded w).

Definition find_one (user : string) : M (option (list string * list string)) :=
  db_guard FindOne;; stored_preference user.

Definition write_one (op : DbOp) (user : string) (liked excluded : list string) : M unit :=
  db_guard op;; store_preference user liked excluded.

(** [save_preference], db_manager.py l.23-56. *)
Definition save_preference (user : string) (liked excluded : list string) : M unit :=
  try_except
    (logger INFO (SavingPreference user);;
     existing_preference ← find_one user;
     match existing_preference with
     | Some _ =>
         logger INFO (UpdatingPreference user);;
         write_one UpdateOne user liked excluded
     | None =>
         logger INFO (CreatingPreference user);;
         write_one InsertOne user liked excluded
     end)
    (fun e =>
       match e with
       | PyMongoError msg => logger ERROR (DbOperationFailed msg);; raise e
       | _ => raise e
       end).

(** The body of the resolution loop, l.164-178. *)
Definition resolve_one (acc : Resolved) (ing : string) : M Resolved :=
  result ← is_valid_ingredient ing;
  match result with
  | Some r =>
      let valid := (valid_ingredients acc ++ [res_ingredient r])%list in
      let category := res_category r in
      categories ←
        (if truthy category then
           if hashable category then ret (ingredient_categories acc ++ [category])%list
           else raise (TypeError "unhashable type")
         else ret (ingredient_categories acc));
      if bool_decide (Some (res_ingredient r) ∈ Ingredient_column) then
        ret {| valid_ingredients := valid;
               matched_db := (matched_db acc ++ [res_ingredient r])%list;
               matched_llm := matched_llm acc;
               ingredient_categories := categories |}
      else
        ret {| valid_ingredients := valid;
               matched_db := matched_db acc;
               matched_llm := (matched_llm acc ++ [res_ingredient r])%list;
               ingredient_categories := categories |}
  | None =>
      logger WARNING (NotRecognized ing);;
      ret acc
  end.

(** The resolution loop, l.158-178. *)
Definition resolve_all (available : list string) : M Resolved :=
  for_each resolve_one available no_ingredients.

(** The calls of [is_valid_ingredient] in a run of the loop over
    [available] that ends normally: [results] holds what each call
    returned, the first made in the world [w], each next one in the
    world its predecessor left - after the warning of l.178 when that
    one returned [None]; [w'] is the world at the end. *)
Fixpoint classified (available : list string) (w : World)
    (results : list (option Resolution)) (w' : World) : Prop :=
  match available, results with
  | [], [] => w' = w
  | ing :: rest, r :: rs =>
      exists w1,
        is_valid_ingredient ing w = (Return r, w1) /\
        classified rest
          (match r with
           | Some _ => w1
           | None => logged [(WARNING, NotRecognized ing)] w1
           end) rs w'
  | _, _ => False
  end.

(** The canonical forms of the tokens whose call returned a resolution,
    one for each such token, in order. *)
Fixpoint kept (available : list string) (results : list (option Resolution))
  : list string :=
  match available, results with
  | ing :: rest, Some _ :: rs => normalize_ingredient ing :: kept rest rs
  | _ :: rest, None :: rs => kept rest rs
  | _, _ => []
  end.

(** The conflict gate, l.151-156.  The order in which a Python set is
    iterated is not fixed; the names are joined in the order of
    [elements]. *)
Definition conflicting_ingredients (liked excluded : list string) : gset string :=
  list_to_set liked ∩ list_to_set excluded.

Definition check_conflict (liked excluded : list string) : M unit :=
  match elements (conflicting_ingredients liked excluded) with
  | [] => ret tt
  | names =>
      let error_msg := conflict_msg names in
      logger ERROR (ConflictDetected error_msg);;
      raise (ValueError error_msg)
  end.

(** The minimum-count and coverage gates, l.185-190. *)
Definition check_minimum (acc : Resolved) : M unit :=
  if (length (valid_ingredients acc) <? 3)%nat then
    raise (ValueError not_enough_msg)
  else ret tt.

Definition check_coverage (acc : Resolved) : M unit :=
  if negb (meets_core (ingredient_categories acc)) then
    logger ERROR (NoCoreIngredients (ingredient_categories acc));;
    raise (ValueError no_core_msg)
  else ret tt.

Definition recipe_prompt (valid liked excluded : list string) : string :=
  "Generate up to 5 recipes using these ingredients: " ++ Str.join ", " valid ++ ". "
  ++ "Give preference to: " ++ Str.join ", " liked ++ ". "
  ++ "Exclude: " ++ Str.join ", " excluded ++ ". "
  ++ "Ensure the recipes make culinary sense. "
  ++ "Each recipe must be in JSON format with the following keys: "
  ++ "'title', 'ingredients' (list of objects with 'ingredient' and 'quantity'), "
  ++ "'instructions' (list), 'estimated_cooking_time', 'difficulty_level'. "
  ++ "Return only a valid JSON list, no extra text.".

Definition recipe_request (valid liked excluded : list string) : ChatRequest :=
  {| messages := [("system", recipe_prompt valid liked excluded)];
     model := "gpt-4o-mini"; temperature := 1; max_tokens := 4096; top_p := 1 |}.

Definition debug_of (acc : Resolved) (response_text : string) : DebugInfo :=
  {| matched_with_database := matched_db acc;
     matched_via_llm := matched_llm acc;
     final_liked_ingredients := [];
     final_excluded_ingredients := [];
     raw_llm_response := response_text |}.

(** [response_text.strip("```json").strip("```")], l.214. *)
Definition unfence (response_text : string) : string :=
  Str.strip_chars "```" (Str.strip_chars "```json" response_text).

(** The synthesis, l.192-224. *)
Definition synthesize (acc : Resolved) (liked excluded : list string)
  : M (list RecipeResponseWithDebug) :=
  choices ← chat_completions_create
              (recipe_request (valid_ingredients acc) liked excluded);
  response_text ← stripped_content choices;
  logger INFO (RawLlmResponse response_text);;
  recipes_data ← loads (unfence response_text);
  recipes ← iterate recipes_data;
  comprehension (new_RecipeResponseWithDebug (debug_of acc response_text)) recipes.

(** What l.158-224 do once the conflict gate is passed. *)
Definition resolve_check_synthesize (available liked excluded : list string)
  : M (list RecipeResponseWithDebug) :=
  acc ← resolve_all available;
  logger INFO (ValidIngredients (valid_ingredients acc));;
  logger INFO (IngredientCategories (ingredient_categories acc));;
  logger INFO (MatchedFromDatabase (matched_db acc));;
  logger INFO (MatchedViaLlm (matched_llm acc));;
  check_minimum acc;;
  check_coverage acc;;
  synthesize acc liked excluded.

(** The handler of l.225-227: log the error, raise it again. *)
Definition log_and_reraise {A} (e : exn) : M A :=
  logger ERROR (ErrorGeneratingRecipes e);;
  raise e.

(** [generate_recipe], l.125-227. *)
Definition generate_recipe (request : RecipeRequest) : M (list RecipeResponseWithDebug) :=
  try_except
    (db_guard Ping;;
     logger INFO DbConnectionConfirmed;;
     save_preference (user_id request) (liked_ingredients request)
                     (excluded_ingredients request);;
     logger INFO PreferencesSaved;;
     let available := map normalize_ingredient (available_ingredients request) in
     let liked := map normalize_ingredient (liked_ingredients request) in
     let excluded := map normalize_ingredient (excluded_ingredients request) in
     logger INFO (AvailableIngredients available);;
     logger INFO (LikedIngredients liked);;
     logger INFO (ExcludedIngredients excluded);;
     check_conflict liked excluded;;
     resolve_check_synthesize available liked excluded)
    log_and_reraise.

(** The world in which the conflict gate is reached, when the database
    answered: l.136-149 pinged, saved the preferences as received and
    logged the three normalized lists. *)
Definition entry_world (request : RecipeRequest) (w : World) : World :=
  let user := user_id request in
  let saving := match preferences w !! user with
                | Some _ => UpdatingPreference user
                | None => CreatingPreference user
                end in
  {| log := (log w ++
             [(INFO, DbConnectionConfirmed); (INFO, SavingPreference user);
              (INFO, saving); (INFO, PreferencesSaved);
              (INFO, AvailableIngredients
                       (map normalize_ingredient (available_ingredients request)));
              (INFO, LikedIngredients
                       (map normalize_ingredient (liked_ingredients request)));
              (INFO, ExcludedIngredients
                       (map normalize_ingredient (excluded_ingredients request)))])%list;
     calls := calls w;
     preferences := <[user := (liked_ingredients request, excluded_ingredients request)]>
                      (preferences w) |}.

(** The world in which the two later gates are reached, after the four
    messages of l.180-183. *)
Definition gates_world (acc : Resolved) (w : World) : World :=
  logged [(INFO, ValidIngredients (valid_ingredients acc));
          (INFO, IngredientCategories (ingredient_categories acc));
          (INFO, MatchedFromDatabase (matched_db acc));
          (INFO, MatchedViaLlm (matched_llm acc))] w.

End Service.

(** The database raises on no operation. *)
Definition db_answers (db_fault : DbOp -> option string) : Prop :=
  forall op, db_fault op = None.

(** The fields [RecipeResponse] requires of a recipe entry. *)
Definition required_fields : list string :=
  ["title"; "ingredients"; "instructions"; "estimated_cooking_time";
   "difficulty_level"].

(** A recipe entry that is an object without one of the required
    fields. *)
Definition missing_field (recipe : pyobj) : Prop :=
  exists d f, recipe = PyDict d /\ f ∈ required_fields /\ assoc f d = None.

(** No category of the sequence is a core category. *)
Definition core_free (categories : list pyobj) : Prop :=
  forall s, PyStr s ∈ categories -> s ∉ CORE_CATEGORIES.

(** ** Reference collaborators

    A lemmatizer driven by a lexicon (a word outside it is returned as it
    is, as WordNet's does) and a reader for the JSON texts used below:
    objects, arrays, strings with the one-letter escapes, integers and
    the literals.  Fractions, exponents and \u escapes are left out: the
    reader refuses them. *)

Definition lemmatize_with (lexicon : list (string * string)) (word : string) : string :=
  match list_find (fun entry => fst entry = word) lexicon with
  | Some (_, entry) => snd entry
  | None => word
  end.

Definition kitchen_lexicon : list (string * string) :=
  [("tomatoes", "tomato"); ("onions", "onion"); ("peas", "pea");
   ("leaves", "leaf"); ("cloves", "clove")].

Module Json.

Definition is_ws (c : ascii) : bool :=
  match nat_of_ascii c with
  | 9 | 10 | 13 | 32 => true
  | _ => false
  end.

Fixpoint skip_ws (s : string) : string :=
  match s with
  | String c r => if is_ws c then skip_ws r else s
  | EmptyString => EmptyString
  end.

Definition unescape (c : ascii) : option ascii :=
  match nat_of_ascii c with
  | 34 => Some "034"%char
  | 92 => Some "\"%char
  | 47 => Some "/"%char
  | 98 => Some "008"%char
  | 102 => Some "012"%char
  | 110 => Some "010"%char
  | 114 => Some "013"%char
  | 116 => Some "009"%char
  | _ => None
  end.

(** The body of a string literal, up to and including its closing quote. *)
Fixpoint chars (s : string) : option (string * string) :=
  match s with
  | EmptyString => None
  | String c r =>
      match nat_of_ascii c with
      | 34 => Some (EmptyString, r)
      | 92 =>
          match r with
          | String e r' =>
              match unescape e, chars r' with
              | Some x, Some (t, rest) => Some (String x t, rest)
              | _, _ => None
              end
          | EmptyString => None
          end
      | n =>
          if (n <? 32)%nat then None
          else match chars r with
               | Some (t, rest) => Some (String c t, rest)
               | None => None
               end
      end
  end.

Definition digit (c : ascii) : option Z :=
  let n := nat_of_ascii c in
  if (48 <=? n)%nat && (n <=? 57)%nat then Some (Z.of_nat n - 48)%Z else None.

Fixpoint digits (acc : Z) (s : string) : Z * string :=
  match s with
  | String c r =>
      match digit c with
      | Some d => digits (10 * acc + d)%Z r
      | None => (acc, s)
      end
  | EmptyString => (acc, s)
  end.

(** An integer: 0, or a non-zero digit followed by digits; a fraction or
    an exponent after it is refused. *)
Definition natural (s : string) : option (Z * string) :=
  match s with
  | String c r =>
      match digit c with
      | Some d =>
          let '(n, rest) := if (d =? 0)%Z then (0%Z, r) else digits d r in
          match rest with
          | String "."%char _ | String "e"%char _ | String "E"%char _ => None
          | _ => Some (n, rest)
          end
      | None => None
      end
  | EmptyString => None
  end.

Definition literal (word s : string) : option string :=
  if String.prefix word s
  then Some (String.substring (String.length word) (String.length s - String.length word) s)
  else None.

Definition atom (s : string) : option (pyobj * string) :=
  match literal "null" s, literal "true" s, literal "false" s,
        literal "NaN" s, literal "Infinity" s, literal "-Infinity" s with
  | Some r, _, _, _, _, _ => Some (PyNone, r)
  | _, Some r, _, _, _, _ => Some (PyBool true, r)
  | _, _, Some r, _, _, _ => Some (PyBool false, r)
  | _, _, _, Some r, _, _ => Some (PyFloat PrimFloat.nan, r)
  | _, _, _, _, Some r, _ => Some (PyFloat PrimFloat.infinity, r)
  | _, _, _, _, _, Some r => Some (PyFloat PrimFloat.neg_infinity, r)
  | _, _, _, _, _, _ =>
      match s with
      | String "-"%char r =>
          match natural r with
          | Some (n, rest) => Some (PyInt (- n), rest)
          | None => None
          end
      | _ =>
          match natural s with
          | Some (n, rest) => Some (PyInt n, rest)
          | None => None
          end
      end
  end.

(** [d[k] = v]: a key already there keeps its place and takes the new
    value. *)
Fixpoint dict_set (k : string) (v : pyobj) (d : list (string * pyobj))
  : list (string * pyobj) :=
  match d with
  | [] => [(k, v)]
  | (k', v') :: r =>
      if String.eqb k' k then (k', v) :: r else (k', v') :: dict_set k v r
  end.

Fixpoint value (fuel : nat) (s : string) : option (pyobj * string) :=
  match fuel with
  | O => None
  | S fuel =>
      match skip_ws s with
      | String "["%char r =>
          match skip_ws r with
          | String "]"%char r' => Some (PyList [], r')
          | _ => items fuel [] r
          end
      | String "{"%char r =>
          match skip_ws r with
          | String "}"%char r' => Some (PyDict [], r')
          | _ => members fuel [] r
          end
      | String "034"%char r =>
          match chars r with
          | Some (t, rest) => Some (PyStr t, rest)
          | None => None
          end
      | other => atom other
      end
  end
with items (fuel : nat) (acc : list pyobj) (s : string) : option (pyobj * string) :=
  match fuel with
  | O => None
  | S fuel =>
      match value fuel s with
      | Some (v, r) =>
          match skip_ws r with
          | String ","%char r' => items fuel (acc ++ [v])%list r'
          | String "]"%char r' => Some (PyList (acc ++ [v])%list, r')
          | _ => None
          end
      | None => None
      end
  end
with members (fuel : nat) (acc : list (string * pyobj)) (s : string)
  : option (pyobj * string) :=
  match fuel with
  | O => None
  | S fuel =>
      match skip_ws s with
      | String "034"%char r =>
          match chars r with
          | Some (k, r1) =>
              match skip_ws r1 with
              | String ":"%char r2 =>
                  match value fuel r2 with
                  | Some (v, r3) =>
                      match skip_ws r3 with
                      | String ","%char r4 => members fuel (dict_set k v acc) r4
                      | String "}"%char r4 => Some (PyDict (dict_set k v acc), r4)
                      | _ => None
                      end
                  | None => None
                  end
              | _ => None
              end
          | None => None
          end
      | _ => None
      end
  end.

(** A whole text is one value between optional white space. *)
Definition loads (text : string) : option pyobj :=
  match value (S (String.length text)) text with
  | Some (v, rest) =>
      match skip_ws rest with
      | EmptyString => Some v
      | _ => None
      end
  | None => None
  end.

End Json.

(** ** A kitchen to run the service in *)

Module Kitchen.

Definition table : list (option string * option string) :=
  [(Some "Chicken", Some "Protein"); (Some "Onion", Some "Vegetables");
   (Some "Garlic", Some "Vegetables"); (Some "Butter", Some "Dairy");
   (Some "Salt", Some " "); (Some "Water", None)].

Definition lemmatize : string -> string := lemmatize_with kitchen_lexicon.

Definition core_repr : string := "{'protein', 'vegetables', 'fruits', 'carbs'}".

Definition db_up : DbOp -> option string := fun _ => None.

Definition db_down : DbOp -> option string :=
  fun _ => Some "connection refused".

(** An endpoint that plays a script, and times out once it is over. *)
Definition scripted (script : list ChatOutcome) : nat -> ChatRequest -> ChatOutcome :=
  fun n _ => nth n script (ChatRaises (APIError "Request timed out.")).

Definition says (text : string) : ChatOutcome := ChatCompletion [Some text].


Definition request (available liked excluded : list string) : RecipeRequest :=
  {| user_id := "u1"; available_ingredients := available;
     liked_ingredients := liked; excluded_ingredients := excluded |}.

(** [{"valid": ..., "category": ...}] *)
Definition verdict (valid category : string) : string :=
  "{" ++ quoted "valid" ++ ": " ++ quoted valid ++ ", "
  ++ quoted "category" ++ ": " ++ quoted category ++ "}".

Definition one_recipe : string :=
  "[{" ++ quoted "title" ++ ": " ++ quoted "Roast chicken" ++ ", "
  ++ quoted "ingredients" ++ ": [{" ++ quoted "ingredient" ++ ": " ++ quoted "chicken"
  ++ ", " ++ quoted "quantity" ++ ": " ++ quoted "1" ++ "}], "
  ++ quoted "instructions" ++ ": [" ++ quoted "Roast." ++ "], "
  ++ quoted "estimated_cooking_time" ++ ": " ++ quoted "60 minutes" ++ ", "
  ++ quoted "difficulty_level" ++ ": " ++ quoted "Easy" ++ "}]".

(** A batch of two entries, the second without its title. *)
Definition untitled_recipe : string :=
  "[{" ++ quoted "title" ++ ": " ++ quoted "Soup" ++ ", "
  ++ quoted "ingredients" ++ ": [], " ++ quoted "instructions" ++ ": [], "
  ++ quoted "estimated_cooking_time" ++ ": " ++ quoted "5 minutes" ++ ", "
  ++ quoted "difficulty_level" ++ ": " ++ quoted "Easy" ++ "}, {"
  ++ quoted "ingredients" ++ ": [], " ++ quoted "instructions" ++ ": [], "
  ++ quoted "estimated_cooking_time" ++ ": " ++ quoted "5 minutes" ++ ", "
  ++ quoted "difficulty_level" ++ ": " ++ quoted "Easy" ++ "}]".

(** The requests of the scenarios below; each passes the validators of
    [RecipeRequest]. *)
Definition plain_request : RecipeRequest :=
  request ["chicken"; "Onions"; "garlic"] ["chicken"] [].

Definition conflicting_request : RecipeRequest :=
  request ["chicken"; "onion"; "garlic"] ["Chicken"] ["chicken"].

Definition short_request : RecipeRequest :=
  request ["chicken"; "rock"] [] [].

Definition bland_request : RecipeRequest :=
  request ["butter"; "salt"; "water"] [] [].

Definition repeated_request : RecipeRequest :=
  request ["chicken"; "Chicken"; "onion"] [] [].

Definition quinoa_request : RecipeRequest :=
  request ["chicken"; "onion"; "garlic"; "quinoa"] [] [].

(** [generate_recipe] in this kitchen, against a scripted endpoint. *)
Definition run (db : DbOp -> option string) (script : list ChatOutcome)
    (r : RecipeRequest) : outcome (list RecipeResponseWithDebug) * World :=
  generate_recipe lemmatize Json.loads core_repr table (scripted script) db r
    initial_world.

Definition resolve (script : list ChatOutcome) (ing : string)
  : outcome (option Resolution) * World :=
  is_valid_ingredient lemmatize Json.loads core_repr table (scripted script) ing
    initial_world.

End Kitchen.

(** ** Strings that differ by case and blanks only *)

(** [same_up_to blank s t]: [s] and [t] are the same string once the
    characters [blank] accepts are dropped and letter case is ignored. *)
Inductive same_up_to (blank : ascii -> bool) : string -> string -> Prop :=
| same_end : same_up_to blank EmptyString EmptyString
| same_blank_l c s t :
    blank c = true -> same_up_to blank s t -> same_up_to blank (String c s) t
| same_blank_r c s t :
    blank c = true -> same_up_to blank s t -> same_up_to blank s (String c t)
| same_letter c d s t :
    Str.lower_char c = Str.lower_char d -> same_up_to blank s t ->
    same_up_to blank (String c s) (String d t).

Definition is_blank (c : ascii) : bool := Ascii.eqb c " "%char.

(** A string of ASCII characters. *)
Definition ascii_only (s : string) : bool :=
  forallb (fun c => (N_of_ascii c <? 0x80)%N) (list_ascii_of_string s).

(** The letters A-Z lowered, byte by byte. *)
Fixpoint lower_ascii (s : string) : string :=
  match s with
  | EmptyString => EmptyString
  | String c r => String (Str.lower_char c) (lower_ascii r)
  end.



(** ** Settings (core/settings.py) *)

Module Settings.

(** What [os.getenv] gave for the three required variables; [None] is an
    unset variable. *)
Record Env : Type := {
  MONGO_URI : option string;
  MONGO_DB_NAME : option string;
  GITHUB_TOKEN : option string }.

(** [not value]: unset, or set to the empty string. *)
Definition absent (value : option string) : bool :=
  match value with
  | None => true
  | Some s => String.eqb s EmptyString
  end.

(** The list built by l.24-30. *)
Definition missing_vars (env : Env) : list string :=
  ((if absent (MONGO_URI env) then ["MONGO_URI"] else []) ++
   (if absent (MONGO_DB_NAME env) then ["MONGO_DB_NAME"] else []) ++
   (if absent (GITHUB_TOKEN env) then ["GITHUB_TOKEN"] else []))%list.

(** [Settings.__init__], l.17-33. *)
Definition init (env : Env) : outcome unit :=
  match missing_vars env with
  | [] => Return tt
  | names => Raise (ValueError ("Missing environment variables: " ++ Str.join ", " names))
  end.

End Settings.

(** ** The validators of [RecipeRequest] (schemas/recipe_schema.py) *)

Module Schema.

(** [default_empty_list], l.20-26. *)
Definition default_empty_list (ingredients : pyobj) : pyobj :=
  match ingredients with
  | PyNone => PyList []
  | _ => ingredients
  end.

Definition must_be_available (ingredient : string) : string :=
  "'" ++ ingredient ++ "' must be in available_ingredients".

(** The loop of l.44-46 over the raw entries: only a string has a
    [lower]. *)
Fixpoint check_entries (available : list string) (entries : list pyobj) : outcome unit :=
  match entries with
  | [] => Return tt
  | PyStr i :: rest =>
      if bool_decide (Str.lower i ∈ map Str.lower available)
      then check_entries available rest
      else Raise (ValueError (must_be_available i))
  | _ :: _ => Raise (AttributeError "object has no attribute 'lower'")
  end.

(** [validate_ingredients], l.28-47, on the raw value of the field;
    [available] is what [info.data.get] returns. *)
Definition validate_ingredients (available : list string) (ingredients : pyobj)
  : outcome pyobj :=
  match ingredients with
  | PyList entries =>
      match check_entries available entries with
      | Return _ => Return ingredients
      | Raise e => Raise e
      end
  | _ => Raise (ValueError "Ingredients must be a list")
  end.

End Schema.

(** ** The preference store (core/db_manager.py) and its endpoints
       (main.py)

    The collection is the sequence of its documents in insertion order;
    nothing makes [user_id] unique in it, and every operation acts on the
    first document that matches.  The messages of db_manager.py and of
    main.py go to one journal. *)

Module Db.

Inductive op : Type := OpPing | OpFindOne | OpUpdateOne | OpInsertOne | OpDeleteOne.

Record Document : Type := {
  _id : nat;
  user_id : string;
  liked_ingredients : list string;
  excluded_ingredients : list string }.

(** The dict [get_preference] returns: the document with its [_id]
    turned into a string. *)
Record Preference : Type := {
  id_str : string;
  of_user : string;
  liked : list string;
  excluded : list string }.

Inductive event : Type :=
| Saving (user : string)
| Updating (user : string)
| Creating (user : string)
| OperationFailed (msg : string)
| Retrieving (user : string)
| Found (user : string)
| NotFound (user : string)
| UnexpectedInGet (msg : string)
| AttemptingDelete (user : string)
| NothingToDelete (user : string)
| Deleted (user : string)
| NoneDeleted (user : string)
| UnexpectedInDelete (msg : string)
| ReceivedSave
| ReceivedGet (user : string)
| ReceivedDelete (user : string)
| ConnectionConfirmed
| SavedOk
| FoundAndReturned
| NoPreferencesForUser
| DeletedOk
| NothingDeleted
| ErrorInSave (msg : string)
| ErrorInGet (msg : string)
| ErrorInDelete (msg : string).

Record Store : Type := {
  journal : list (level * event);
  collection : list Document;
  next_id : nat }.

Definition empty_store : Store :=
  {| journal := []; collection := []; next_id := 0 |}.

(** What an endpoint may raise: a Python exception of the layers below,
    or FastAPI's [HTTPException]. *)
Inductive raised : Type :=
| Py (e : exn)
| HTTPException (status_code : nat) (detail : string).

Inductive result (A : Type) : Type :=
| Done (a : A)
| Thrown (r : raised).
Arguments Done {A} a.
Arguments Thrown {A} r.

Definition D (A : Type) : Type := Store -> result A * Store.

Definition unit_D {A} (a : A) : D A := fun s => (Done a, s).

Definition throw {A} (r : raised) : D A := fun s => (Thrown r, s).

Definition bind_D {A B} (m : D A) (k : A -> D B) : D B :=
  fun s => match m s with
           | (Done a, s') => k a s'
           | (Thrown r, s') => (Thrown r, s')
           end.

(** [try: m  except ...: h r]; a handler may decline what it does not
    catch by throwing it again. *)
Definition catch {A} (m : D A) (h : raised -> D A) : D A :=
  fun s => match m s with
           | (Done a, s') => (Done a, s')
           | (Thrown r, s') => h r s'
           end.

Definition note (l : level) (e : event) : D unit :=
  fun s => (Done tt,
            {| journal := (journal s ++ [(l, e)])%list;
               collection := collection s; next_id := next_id s |}).

#[global] Instance D_ret : MRet D := @unit_D.
#[global] Instance D_bind : MBind D := fun A B k m => bind_D m k.

(** The first document of a user, as [find_one] picks it. *)
Definition first_of (user : string) (docs : list Document) : option Document :=
  List.find (fun d => bool_decide (user_id d = user)) docs.

(** [$set] of the two lists on the first document of a user. *)
Fixpoint set_first (user : string) (liked excluded : list string)
    (docs : list Document) : list Document :=
  match docs with
  | [] => []
  | d :: rest =>
      if bool_decide (user_id d = user)
      then {| _id := _id d; user_id := user_id d;
              liked_ingredients := liked; excluded_ingredients := excluded |} :: rest
      else d :: set_first user liked excluded rest
  end.

(** The collection without the first document of a user. *)
Fixpoint drop_first (user : string) (docs : list Document) : list Document :=
  match docs with
  | [] => []
  | d :: rest =>
      if bool_decide (user_id d = user) then rest
      else d :: drop_first user rest
  end.

Section Driver.

(** The exception an operation raises, if it does: a [PyMongoError] of
    the driver or any other.  An operation that raises has had no effect
    on the collection. *)
Variable fault : op -> option exn.

(** [str] of an [ObjectId], and of what an endpoint caught. *)
Variable str_ObjectId : nat -> string.
Variable str_raised : raised -> string.

Definition guard (o : op) : D unit :=
  match fault o with
  | Some e => throw (Py e)
  | None => mret tt
  end.

Definition command_ping : D unit := guard OpPing.

(** The effect of each operation on the collection. *)
Definition read_first (user : string) : D (option Document) :=
  fun s => (Done (first_of user (collection s)), s).

Definition write_first (user : string) (liked excluded : list string) : D unit :=
  fun s => (Done tt,
            {| journal := journal s;
               collection := set_first user liked excluded (collection s);
               next_id := next_id s |}).

Definition append_new (user : string) (liked excluded : list string) : D unit :=
  fun s => (Done tt,
            {| journal := journal s;
               collection := (collection s ++
                              [{| _id := next_id s; user_id := user;
                                  liked_ingredients := liked;
                                  excluded_ingredients := excluded |}])%list;
               next_id := S (next_id s) |}).

Definition remove_first (user : string) : D nat :=
  fun s => (Done (match first_of user (collection s) with
                  | Some _ => 1
                  | None => 0
                  end),
            {| journal := journal s;
               collection := drop_first user (collection s);
               next_id := next_id s |}).

Definition find_one (user : string) : D (option Document) :=
  guard OpFindOne;; read_first user.

Definition update_one (user : string) (liked excluded : list string) : D unit :=
  guard OpUpdateOne;; write_first user liked excluded.

Definition insert_one (user : string) (liked excluded : list string) : D unit :=
  guard OpInsertOne;; append_new user liked excluded.

(** [delete_one], returning [deleted_count]. *)
Definition delete_one (user : string) : D nat :=
  guard OpDeleteOne;; remove_first user.

(** [except PyMongoError as e: logger.error(...); raise] *)
Definition on_mongo_error {A} (r : raised) : D A :=
  match r with
  | Py (PyMongoError msg) => note ERROR (OperationFailed msg);; throw r
  | _ => throw r
  end.

(** The two clauses of [get_preference] and [delete_preference]:
    [PyMongoError] first, then any other [Exception]. *)
Definition on_any_error {A} (unexpected : string -> event) (r : raised) : D A :=
  match r with
  | Py (PyMongoError msg) => note ERROR (OperationFailed msg);; throw r
  | _ => note ERROR (unexpected (str_raised r));; throw r
  end.

(** [save_preference], l.23-56. *)
Definition save_preference (user : string) (liked excluded : list string) : D unit :=
  catch
    (note INFO (Saving user);;
     existing_preference ← find_one user;
     match existing_preference with
     | Some _ =>
         note INFO (Updating user);;
         update_one user liked excluded
     | None =>
         note INFO (Creating user);;
         insert_one user liked excluded
     end)
    on_mongo_error.

(** [get_preference], l.58-89. *)
Definition get_preference (user : string) : D (option Preference) :=
  catch
    (note INFO (Retrieving user);;
     preference ← find_one user;
     match preference with
     | Some d =>
         note INFO (Found user);;
         mret (Some {| id_str := str_ObjectId (_id d); of_user := user_id d;
                       liked := liked_ingredients d;
                       excluded := excluded_ingredients d |})
     | None =>
         note INFO (NotFound user);;
         mret None
     end)
    (on_any_error UnexpectedInGet).

Definition nothing_to_delete : string := "No preference found to delete.".
Definition deleted_successfully : string := "Preference deleted successfully.".
Definition none_deleted : string := "No preference was deleted.".

(** [delete_preference], l.91-128; the result is the message of the
    dict it returns. *)
Definition delete_preference (user : string) : D string :=
  catch
    (note INFO (AttemptingDelete user);;
     existing_preference ← find_one user;
     match existing_preference with
     | None =>
         note WARNING (NothingToDelete user);;
         mret nothing_to_delete
     | Some _ =>
         deleted_count ← delete_one user;
         if (0 <? deleted_count)%nat then
           note INFO (Deleted user);;
           mret deleted_successfully
         else
           note WARNING (NoneDeleted user);;
           mret none_deleted
     end)
    (on_any_error UnexpectedInDelete).

(** [needle in text] *)
Fixpoint contains (needle text : string) : bool :=
  String.prefix needle text ||
  match text with
  | EmptyString => false
  | String _ rest => contains needle rest
  end.

(** The [except Exception] clause of an endpoint: whatever was raised in
    the [try], an [HTTPException] included, becomes a 500. *)
Definition to_500 {A} (about : string) (logged_as : string -> event) (r : raised) : D A :=
  note ERROR (logged_as (str_raised r));;
  throw (HTTPException 500 (about ++ str_raised r)).

(** [save_user_preferences], main.py l.56-76; the result is the message
    of the dict it returns. *)
Definition save_user_preferences (user : string) (liked excluded : list string)
  : D string :=
  note INFO ReceivedSave;;
  catch
    (command_ping;;
     note INFO ConnectionConfirmed;;
     save_preference user liked excluded;;
     note INFO SavedOk;;
     mret "Preferences saved successfully")
    (to_500 "Error saving preferences: " ErrorInSave).

(** [get_user_preferences], main.py l.78-99. *)
Definition get_user_preferences (user : string) : D Preference :=
  note INFO (ReceivedGet user);;
  catch
    (command_ping;;
     note INFO ConnectionConfirmed;;
     preferences ← get_preference user;
     match preferences with
     | Some p =>
         note INFO FoundAndReturned;;
         mret p
     | None =>
         note WARNING NoPreferencesForUser;;
         throw (HTTPException 404 "Preferences not found")
     end)
    (to_500 "Error retrieving preferences: " ErrorInGet).

(** [delete_user_preferences], main.py l.101-122. *)
Definition delete_user_preferences (user : string) : D string :=
  note INFO (ReceivedDelete user);;
  catch
    (command_ping;;
     note INFO ConnectionConfirmed;;
     response ← delete_preference user;
     if contains "successfully" response then
       note INFO DeletedOk;;
       mret response
     else
       note WARNING NothingDeleted;;
       throw (HTTPException 404 response))
    (to_500 "Error deleting preferences: " ErrorInDelete).

End Driver.

(** The collection seen as the map the pipeline uses: a user's entry is
    the pair of lists of the user's first document. *)
Fixpoint view (docs : list Document) : gmap string (list string * list string) :=
  match docs with
  | [] => ∅
  | d :: rest =>
      <[user_id d := (liked_ingredients d, excluded_ingredients d)]> (view rest)
  end.

(** No two documents for one user. *)
Definition one_per_user (docs : list Document) : Prop :=
  NoDup (map user_id docs).

(** The driver raises on no operation. *)
Definition answers (fault : op -> option exn) : Prop :=
  forall o, fault o = None.

End Db.

(** ** Start-up (main.py, [lifespan]) *)

Module Lifespan.

Inductive event : Type :=
| Starting
| Connected
| ConnectFailed (msg : string).

(** The journal, the seconds slept and the pings sent so far. *)
Record Boot : Type := {
  journal : list (level * event);
  slept : nat;
  pings : nat }.

Definition cold : Boot := {| journal := []; slept := 0; pings := 0 |}.

Section Connect.

(** What the [n]-th ping of the process answers: the exception it
    raises, if it does; and [str] of an exception. *)
Variable ping_at : nat -> option exn.
Variable str_exn : exn -> string.

Definition note (l : level) (e : event) (b : Boot) : Boot :=
  {| journal := (journal b ++ [(l, e)])%list; slept := slept b; pings := pings b |}.

Definition pinged (b : Boot) : Boot :=
  {| journal := journal b; slept := slept b; pings := S (pings b) |}.

Definition sleep (seconds : nat) (b : Boot) : Boot :=
  {| journal := journal b; slept := slept b + seconds; pings := pings b |}.

(** The loop of l.38-48, [retries] being its counter. *)
Fixpoint connect (retries : nat) (b : Boot) : outcome unit * Boot :=
  match retries with
  | O => (Return tt, b)
  | S retries' =>
      match ping_at (pings b) with
      | None => (Return tt, note INFO Connected (pinged b))
      | Some e =>
          let b1 := note ERROR (ConnectFailed (str_exn e)) (pinged b) in
          if (retries' =? 0)%nat then (Raise e, b1)
          else connect retries' (sleep 5 b1)
      end
  end.

(** [lifespan] up to its [yield], l.36-49. *)
Definition startup (b : Boot) : outcome unit * Boot :=
  connect 3 (note INFO Starting b).

End Connect.

End Lifespan.

(** ** The recipe endpoint (main.py, [generate_recipe_endpoint]) *)

Module Api.

Inductive event : Type :=
| ReceivedRequest
| NowGenerating
| Generated (count : nat)
| ErrorInEndpoint (msg : string).

(** The world of the service and the journal of main.py. *)
Record Served : Type := {
  world : World;
  access : list (level * event) }.

Section Endpoint.

Variable lemmatize : string -> string.
Variable json_loads : string -> option pyobj.
Variable core_categories_repr : string.
Variable ingredients_table : list (option string * option string).
Variable client : nat -> ChatRequest -> ChatOutcome.
Variable db_fault : DbOp -> option string.

(** [str(e)] *)
Variable str_exn : exn -> string.

(** [generate_recipe_endpoint], main.py l.124-142. *)
Definition generate_recipe_endpoint (request : RecipeRequest) (s : Served)
  : Db.result (list RecipeResponseWithDebug) * Served :=
  let received := (access s ++ [(INFO, ReceivedRequest); (INFO, NowGenerating)])%list in
  match generate_recipe lemmatize json_loads core_categories_repr
          ingredients_table client db_fault request (world s) with
  | (Return recipes, w) =>
      (Db.Done recipes,
       {| world := w;
          access := (received ++ [(INFO, Generated (length recipes))])%list |})
  | (Raise e, w) =>
      (Db.Thrown (Db.HTTPException 500 ("Error generating recipe: " ++ str_exn e)),
       {| world := w;
          access := (received ++ [(ERROR, ErrorInEndpoint (str_exn e))])%list |})
  end.

End Endpoint.

End Api.

(** ** A shelf to run the store on *)

Module Shelf.

(** [str(e)] for the exceptions of the model. *)
Definition str_exn (e : exn) : string :=
  match e with
  | ValueError msg | TypeError msg | AttributeError msg | APIError msg
  | PyMongoError msg => msg
  | KeyError key => "'" ++ key ++ "'"
  | IndexError => "list index out of range"
  | JSONDecodeError => "Expecting value: line 1 column 1 (char 0)"
  | ValidationError => "1 validation error for RecipeResponse"
  end.

(** [str] of what an endpoint caught; an [HTTPException] prints its
    status and its detail. *)
Definition str_raised (r : Db.raised) : string :=
  match r with
  | Db.Py e => str_exn e
  | Db.HTTPException status detail => pretty status ++ ": " ++ detail
  end.

Definition str_ObjectId (id : nat) : string := "oid-" ++ pretty id.

Definition up : Db.op -> option exn := fun _ => None.

(** A driver that reads but cannot write. *)
Definition read_only : Db.op -> option exn :=
  fun o => match o with
           | Db.OpUpdateOne | Db.OpInsertOne | Db.OpDeleteOne =>
               Some (PyMongoError "not primary")
           | _ => None
           end.

Definition ann : Db.Document :=
  {| Db._id := 0; Db.user_id := "ann";
     Db.liked_ingredients := ["chicken"]; Db.excluded_ingredients := ["garlic"] |}.

Definition bob : Db.Document :=
  {| Db._id := 1; Db.user_id := "bob";
     Db.liked_ingredients := []; Db.excluded_ingredients := ["onion"] |}.

Definition two_users : Db.Store :=
  {| Db.journal := []; Db.collection := [ann; bob]; Db.next_id := 2 |}.

(** A database that answers from the third ping on. *)
Definition slow_start : nat -> option exn :=
  fun n => if (n <? 2)%nat then Some (PyMongoError "connection refused") else None.

End Shelf.

(** ** What a computation leaves alone *)

(** [m] never changes the part [f] of the world, whether it returns or
    raises. *)
Definition preserves {X A} (f : World -> X) (m : M A) : Prop :=
  forall w, f (snd (m w)) = f w.

(** [m] sends at most [n] requests to the chat endpoint. *)
Definition sends_at_most (n : nat) {A} (m : M A) : Prop :=
  forall w, length (calls (snd (m w))) <= length (calls w) + n.

(** Every character of [s] satisfies [p]. *)
Definition all_chars (p : ascii -> bool) (s : string) : bool :=
  forallb p (list_ascii_of_string s).

(** The characters [strip] removes for the argument "```json". *)
Definition fence_char (c : ascii) : bool := Str.mem_char c "```json".

(** * Properties *)

(** ** Normalization *)

Lemma lower_blank c : is_blank c = true -> Str.lower_char c = " "%char.
Proof.
  unfold is_blank. intros H. apply Ascii.eqb_eq in H. subst c. reflexivity.
Qed.

(** What the decoder, the lower-case mapping and the encoder do with an
    ASCII character. *)
Lemma lower_ascii_char (a : ascii) :
  (N_of_ascii a <? 0x80)%N = true ->
  Unicode.lead (N_of_ascii a) = None /\
  Unicode.plain (N_of_ascii a) = N_of_ascii a /\
  (N_of_ascii a =? 0x3A3)%N = false /\
  Unicode.to_lower (N_of_ascii a) = [N_of_ascii (Str.lower_char a)] /\
  Unicode.encode_one (N_of_ascii (Str.lower_char a)) = [Str.lower_char a].
Proof.
  destruct a as [[] [] [] [] [] [] [] []]; intros H;
    first [discriminate H | repeat split; vm_compute; reflexivity].
Qed.

Lemma encode_cons (c : N) (x : ascii) (cs : list N) :
  Unicode.encode_one c = [x] ->
  Unicode.encode (c :: cs) = String x (Unicode.encode cs).
Proof. intros H. unfold Unicode.encode. cbn [flat_map]. rewrite H. reflexivity. Qed.

Lemma lower_from_ascii_only (s : string) (before : list N) :
  ascii_only s = true ->
  Unicode.encode (Unicode.lower_from before (Unicode.decode_from None s))
  = lower_ascii s.
Proof.
  unfold ascii_only. revert before. induction s as [| a r IH]; intros before H.
  - reflexivity.
  - cbn [list_ascii_of_string forallb] in H. apply andb_true_iff in H as [Ha Hr].
    destruct (lower_ascii_char a Ha) as (Hlead & Hplain & Hsigma & Hlower & Hencode).
    change (Unicode.decode_from None (String a r)) with
      (match Unicode.lead (N_of_ascii a) with
       | Some q => Unicode.decode_from (Some q) r
       | None => Unicode.plain (N_of_ascii a) :: Unicode.decode_from None r
       end).
    rewrite Hlead, Hplain. cbn [Unicode.lower_from].
    rewrite Hsigma, Hlower. cbn [app lower_ascii].
    rewrite (encode_cons _ _ _ Hencode). f_equal. apply IH, Hr.
Qed.

(** On an ASCII string [str.lower] lowers the letters A-Z and nothing
    else. *)
Lemma lower_of_ascii_only (s : string) :
  ascii_only s = true -> Str.lower s = lower_ascii s.
Proof. apply lower_from_ascii_only. Qed.

Lemma remove_spaces_lower_cons c s :
  Str.remove_spaces (lower_ascii (String c s)) =
  if Ascii.eqb (Str.lower_char c) " "%char
  then Str.remove_spaces (lower_ascii s)
  else String (Str.lower_char c) (Str.remove_spaces (lower_ascii s)).
Proof. reflexivity. Qed.

Lemma same_up_to_blank_lower_ascii s t :
  same_up_to is_blank s t ->
  Str.remove_spaces (lower_ascii s) = Str.remove_spaces (lower_ascii t).
Proof.
  induction 1 as [| c s t Hc _ IH | c s t Hc _ IH | c d s t Hcd _ IH].
  - reflexivity.
  - rewrite remove_spaces_lower_cons, (lower_blank c Hc). exact IH.
  - rewrite (remove_spaces_lower_cons c t), (lower_blank c Hc). exact IH.
  - rewrite !remove_spaces_lower_cons, Hcd, IH. reflexivity.
Qed.

Lemma same_up_to_blank_skeleton s t :
  ascii_only s = true -> ascii_only t = true ->
  same_up_to is_blank s t ->
  Str.remove_spaces (Str.lower s) = Str.remove_spaces (Str.lower t).
Proof.
  intros Hs Ht H.
  rewrite (lower_of_ascii_only s Hs), (lower_of_ascii_only t Ht).
  apply same_up_to_blank_lower_ascii, H.
Qed.




(** ** Running a computation *)

Lemma run_bind {A B} (m : M A) (k : A -> M B) (w : World) :
  (m ≫= k) w =
  match m w with
  | (Return a, w') => k a w'
  | (Raise e, w') => (Raise e, w')
  end.
Proof. reflexivity. Qed.

Lemma bind_returns {A B} (m : M A) (k : A -> M B) w a w' :
  m w = (Return a, w') -> (m ≫= k) w = k a w'.
Proof. intros H. rewrite run_bind, H. reflexivity. Qed.

Lemma bind_raises {A B} (m : M A) (k : A -> M B) w e w' :
  m w = (Raise e, w') -> (m ≫= k) w = (Raise e, w').
Proof. intros H. rewrite run_bind, H. reflexivity. Qed.

Lemma bind_returned {A B} (m : M A) (k : A -> M B) w b w' :
  (m ≫= k) w = (Return b, w') ->
  exists a w1, m w = (Return a, w1) /\ k a w1 = (Return b, w').
Proof.
  rewrite run_bind. destruct (m w) as [[a | e] w1]; intros H.
  - exists a, w1. split; [reflexivity | exact H].
  - discriminate H.
Qed.

Lemma logged_logged a b w : logged b (logged a w) = logged (a ++ b) w.
Proof. unfold logged. simpl. rewrite <- app_assoc. reflexivity. Qed.

Lemma calls_logged es w : calls (logged es w) = calls w.
Proof. reflexivity. Qed.

(** ** The service, step by step *)

Section Facts.

Context (lemmatize : string -> string)
        (json_loads : string -> option pyobj)
        (core_categories_repr : string)
        (ingredients_table : list (option string * option string))
        (client : nat -> ChatRequest -> ChatOutcome)
        (db_fault : DbOp -> option string).

Local Abbreviation normalize := (normalize_ingredient lemmatize).
Local Abbreviation category_of :=
  (get_ingredient_category ingredients_table).
Local Abbreviation column := (Ingredient_column ingredients_table).
Local Abbreviation ask_llm :=
  (call_llm_for_ingredient json_loads core_categories_repr client).
Local Abbreviation is_valid :=
  (is_valid_ingredient lemmatize json_loads core_categories_repr
     ingredients_table client).
Local Abbreviation resolve_step :=
  (resolve_one lemmatize json_loads core_categories_repr ingredients_table client).
Local Abbreviation resolve :=
  (resolve_all lemmatize json_loads core_categories_repr ingredients_table client).
Local Abbreviation synth := (synthesize json_loads client).
Local Abbreviation pipeline :=
  (resolve_check_synthesize lemmatize json_loads core_categories_repr
     ingredients_table client).
Local Abbreviation generate :=
  (generate_recipe lemmatize json_loads core_categories_repr
     ingredients_table client db_fault).
Local Abbreviation entry := (entry_world lemmatize).
Local Abbreviation question := (ingredient_request core_categories_repr).

(** What one classification call does, for each answer of the endpoint:
    it never raises. *)
Lemma call_llm_for_ingredient_run (n : string) (w : World) :
  ask_llm n w =
  match client (length (calls w)) (question n) with
  | ChatRaises e =>
      (Return PyNone,
       logged [(ERROR, LlmValidationFailed n e)] (called (question n) w))
  | ChatCompletion [] =>
      (Return PyNone,
       logged [(ERROR, LlmValidationFailed n IndexError)] (called (question n) w))
  | ChatCompletion (None :: _) =>
      (Return PyNone,
       logged [(ERROR, LlmValidationFailed n
                         (AttributeError "'NoneType' object has no attribute 'strip'"))]
              (called (question n) w))
  | ChatCompletion (Some s :: _) =>
      match json_loads (Str.strip s) with
      | Some v =>
          (Return v,
           logged [(INFO, LlmRawResponse n (Str.strip s))] (called (question n) w))
      | None =>
          (Return PyNone,
           logged [(INFO, LlmRawResponse n (Str.strip s));
                   (ERROR, LlmValidationFailed n JSONDecodeError)]
                  (called (question n) w))
      end
  end.
Proof.
  unfold call_llm_for_ingredient, try_except, chat_completions_create.
  rewrite run_bind.
  destruct (client (length (calls w)) (question n)) as [e | [| [s |] rest]];
    try reflexivity.
  rewrite run_bind. cbn [stripped_content ret]. rewrite run_bind.
  cbn [logger]. unfold loads.
  destruct (json_loads (Str.strip s)) as [v |]; [reflexivity |].
  cbn [raise]. rewrite run_bind. unfold logger, logged, ret. cbn.
  rewrite <- app_assoc. reflexivity.
Qed.

Lemma call_llm_for_ingredient_total (n : string) (w : World) :
  exists v w', ask_llm n w = (Return v, w') /\
               calls w' = (calls w ++ [question n])%list.
Proof.
  rewrite call_llm_for_ingredient_run.
  destruct (client (length (calls w)) (question n)) as [e | [| [s |] rest]];
    try (eexists _, _; split; reflexivity).
  destruct (json_loads (Str.strip s)); eexists _, _; split; reflexivity.
Qed.

(** The dataset path: a truthy category in the table settles the
    ingredient, and the world is left as it was. *)
Lemma is_valid_ingredient_dataset (ing : string) (w : World) :
  truthy (category_of (normalize ing)) = true ->
  is_valid ing w =
  (Return (Some {| res_ingredient := normalize ing;
                   res_category := category_of (normalize ing) |}), w).
Proof.
  intros H. unfold is_valid_ingredient. rewrite H. reflexivity.
Qed.

(** The fallback path: the endpoint is asked exactly once. *)
Lemma is_valid_ingredient_fallback_calls (ing : string) (w : World) :
  truthy (category_of (normalize ing)) = false ->
  calls (snd (is_valid ing w)) = (calls w ++ [question (normalize ing)])%list.
Proof.
  intros H. unfold is_valid_ingredient. rewrite H.
  rewrite run_bind. cbn [logger]. rewrite run_bind.
  destruct (call_llm_for_ingredient_total (normalize ing)
              (logged [(INFO, CheckingBeforeLlm (normalize ing))] w))
    as (v & w' & Hrun & Hcalls).
  rewrite Hrun. rewrite calls_logged in Hcalls.
  destruct (truthy v); [| exact Hcalls].
  rewrite run_bind.
  destruct (subscript v "valid" w') as [[x | e] w1] eqn:Hsub.
  - assert (w1 = w') as ->.
    { destruct v as [| | | | | |d]; try discriminate Hsub.
      simpl in Hsub. destruct (assoc "valid" d); inversion Hsub; reflexivity. }
    rewrite run_bind.
    destruct x as [| | | |s| |]; try exact Hcalls.
    cbn [call_upper ret].
    destruct (String.eqb (Str.upper s) "YES"); [| exact Hcalls].
    rewrite run_bind.
    destruct v as [| | | | | |d]; try discriminate Hsub.
    simpl. destruct (assoc "category" d); exact Hcalls.
  - assert (w1 = w') as ->.
    { destruct v as [| | | | | |d]; simpl in Hsub; try (inversion Hsub; reflexivity).
      destruct (assoc "valid" d); inversion Hsub; reflexivity. }
    exact Hcalls.
Qed.

(** Whatever the path, a resolution names the normalized ingredient. *)
Lemma is_valid_ingredient_names (ing : string) (w : World) r w' :
  is_valid ing w = (Return (Some r), w') -> res_ingredient r = normalize ing.
Proof.
  unfold is_valid_ingredient.
  destruct (truthy (category_of (normalize ing))).
  - intros H. inversion H. reflexivity.
  - intros H. apply bind_returned in H as (u & w1 & _ & H).
    apply bind_returned in H as (v & w2 & _ & H).
    destruct (truthy v); [| discriminate H].
    apply bind_returned in H as (x & w3 & _ & H).
    apply bind_returned in H as (answer & w4 & _ & H).
    destruct (String.eqb answer "YES"); [| discriminate H].
    apply bind_returned in H as (c & w5 & _ & H).
    inversion H. reflexivity.
Qed.

(** One turn of the resolution loop that ends normally either leaves the
    accumulators alone (the ingredient was not recognized) or appends the
    normalized ingredient to the valid list and to exactly one of the two
    provenance lists, chosen by membership in the Ingredient column. *)
Lemma resolve_one_returned (acc : Resolved) (ing : string) (w : World) acc' w' :
  resolve_step acc ing w = (Return acc', w') ->
  (exists w1, is_valid ing w = (Return None, w1) /\ acc' = acc /\
              w' = logged [(WARNING, NotRecognized ing)] w1) \/
  exists r,
    is_valid ing w = (Return (Some r), w') /\
    valid_ingredients acc' = (valid_ingredients acc ++ [normalize ing])%list /\
    matched_db acc' =
      (matched_db acc ++ filter (fun x => Some x ∈ column) [normalize ing])%list /\
    matched_llm acc' =
      (matched_llm acc ++ filter (fun x => Some x ∉ column) [normalize ing])%list /\
    ingredient_categories acc' =
      (ingredient_categories acc ++
       if truthy (res_category r) then [res_category r] else [])%list.
Proof.
  unfold resolve_one. rewrite run_bind.
  destruct (is_valid ing w) as [[[r |] | e] w1] eqn:Hvalid; [| | discriminate].
  - pose proof (is_valid_ingredient_names _ _ _ _ Hvalid) as Hname.
    rewrite Hname. intros H. right. exists r.
    rewrite run_bind in H.
    destruct (truthy (res_category r)).
    + destruct (hashable (res_category r)); [| discriminate H].
      cbn [ret] in H. case_bool_decide as Hin; inversion H; subst;
        cbn [valid_ingredients matched_db matched_llm ingredient_categories].
      * rewrite filter_cons_True, filter_cons_False by tauto.
        rewrite app_nil_r. done.
      * rewrite filter_cons_False, filter_cons_True by tauto.
        rewrite app_nil_r. done.
    + cbn [ret] in H. case_bool_decide as Hin; inversion H; subst;
        cbn [valid_ingredients matched_db matched_llm ingredient_categories].
      * rewrite filter_cons_True, filter_cons_False by tauto.
        rewrite !app_nil_r. done.
      * rewrite filter_cons_False, filter_cons_True by tauto.
        rewrite !app_nil_r. done.
  - rewrite run_bind. cbn [logger ret]. intros H. inversion H. left.
    exists w1. done.
Qed.

(** The loop as a whole: the valid list grows by a subsequence of the
    normalized inputs, and the provenance lists split that subsequence by
    membership in the Ingredient column. *)
Lemma for_each_resolve_one (l : list string) (acc0 : Resolved) (w : World) acc w' :
  for_each resolve_step l acc0 w = (Return acc, w') ->
  exists vs,
    vs `sublist_of` map normalize l /\
    valid_ingredients acc = (valid_ingredients acc0 ++ vs)%list /\
    matched_db acc = (matched_db acc0 ++ filter (fun x => Some x ∈ column) vs)%list /\
    matched_llm acc = (matched_llm acc0 ++ filter (fun x => Some x ∉ column) vs)%list.
Proof.
  revert acc0 w. induction l as [| ing l IH]; intros acc0 w Hrun; simpl in Hrun.
  - inversion Hrun. subst. exists []. rewrite !app_nil_r. done.
  - apply bind_returned in Hrun as (acc1 & w1 & Hone & Hrest).
    apply IH in Hrest as (vs & Hsub & Hv & Hd & Hl).
    apply resolve_one_returned in Hone
      as [(_ & _ & -> & _) | (r & _ & Hv1 & Hd1 & Hl1 & _)].
    + exists vs. split; [| done]. simpl. by apply sublist_cons.
    + exists (normalize ing :: vs). split; [simpl; by apply sublist_skip |].
      rewrite Hv, Hv1, Hd, Hd1, Hl, Hl1, <- !app_assoc.
      change (normalize ing :: vs) with ([normalize ing] ++ vs)%list.
      rewrite !filter_app. done.
Qed.

Lemma resolve_all_returned (available : list string) (w : World) acc w' :
  resolve available w = (Return acc, w') ->
  valid_ingredients acc `sublist_of` map normalize available /\
  matched_db acc = filter (fun x => Some x ∈ column) (valid_ingredients acc) /\
  matched_llm acc = filter (fun x => Some x ∉ column) (valid_ingredients acc).
Proof.
  intros H. apply for_each_resolve_one in H as (vs & Hsub & Hv & Hd & Hl).
  simpl in Hv, Hd, Hl. subst vs. done.
Qed.

(** ** From the entry of [generate_recipe] to its gates *)

Lemma save_preference_run (user : string) (liked excluded : list string) (w : World) :
  db_answers db_fault ->
  save_preference db_fault user liked excluded w =
  (Return tt,
   stored user liked excluded
     (logged [(INFO, SavingPreference user);
              (INFO, match preferences w !! user with
                     | Some _ => UpdatingPreference user
                     | None => CreatingPreference user
                     end)] w)).
Proof.
  intros Hdb. unfold save_preference, try_except, find_one, write_one, db_guard.
  rewrite !Hdb.
  repeat first [rewrite run_bind | progress cbn [logger ret stored_preference]].
  cbn [preferences logged].
  destruct (preferences w !! user) as [p |];
    repeat first [rewrite run_bind | progress cbn [logger ret store_preference]];
    rewrite logged_logged; reflexivity.
Qed.

(** With the database answering, the run reaches the conflict gate in
    [entry_world]. *)
Lemma generate_recipe_entry (request : RecipeRequest) (w : World) :
  db_answers db_fault ->
  generate request w =
  try_except
    (check_conflict (map normalize (liked_ingredients request))
                    (map normalize (excluded_ingredients request));;
     pipeline (map normalize (available_ingredients request))
              (map normalize (liked_ingredients request))
              (map normalize (excluded_ingredients request)))
    log_and_reraise (entry request w).
Proof.
  intros Hdb. unfold generate_recipe, try_except.
  rewrite run_bind. unfold db_guard at 1. rewrite Hdb. cbn [ret].
  rewrite run_bind. cbn [logger]. rewrite run_bind.
  rewrite (save_preference_run _ _ _ _ Hdb).
  rewrite run_bind. cbn [logger]. rewrite run_bind. cbn [logger].
  rewrite run_bind. cbn [logger]. rewrite run_bind. cbn [logger].
  match goal with
  | |- context [(check_conflict ?a ?b ≫= ?k) ?w1] =>
      replace w1 with (entry request w); [reflexivity |]
  end.
  unfold entry_world, logged, stored. cbn.
  rewrite <- !app_assoc. reflexivity.
Qed.

(** A database that does not answer the ping ends the request there. *)
Lemma generate_recipe_no_ping (request : RecipeRequest) (w : World) msg :
  db_fault Ping = Some msg ->
  generate request w =
  (Raise (PyMongoError msg),
   logged [(ERROR, ErrorGeneratingRecipes (PyMongoError msg))] w).
Proof.
  intros Hdb. unfold generate_recipe, try_except.
  rewrite run_bind. unfold db_guard at 1. rewrite Hdb. reflexivity.
Qed.

Lemma check_conflict_passes (liked excluded : list string) (w : World) :
  (forall x, x ∈ liked -> x ∉ excluded) ->
  check_conflict liked excluded w = (Return tt, w).
Proof.
  intros Hdisjoint. unfold check_conflict.
  assert (conflicting_ingredients liked excluded = ∅) as ->.
  { unfold conflicting_ingredients. apply set_eq. intros x.
    rewrite elem_of_intersection, !elem_of_list_to_set.
    split; [intros [H1 H2]; exfalso; exact (Hdisjoint x H1 H2) | set_solver]. }
  rewrite elements_empty. reflexivity.
Qed.

Lemma check_conflict_rejects (liked excluded : list string) (w : World) x :
  x ∈ liked -> x ∈ excluded ->
  let names := elements (conflicting_ingredients liked excluded) in
  x ∈ names /\
  check_conflict liked excluded w =
  (Raise (ValueError (conflict_msg names)),
   logged [(ERROR, ConflictDetected (conflict_msg names))] w).
Proof.
  intros Hl He names.
  assert (Hx : x ∈ names).
  { apply elem_of_elements. unfold conflicting_ingredients.
    rewrite elem_of_intersection, !elem_of_list_to_set. done. }
  split; [exact Hx |].
  unfold check_conflict. fold names.
  destruct names as [| y ys]; [inversion Hx |]. reflexivity.
Qed.

(** Once the loop has ended normally, what is left is the four messages,
    the two gates and the synthesis. *)
Lemma resolve_check_synthesize_resolved (available liked excluded : list string)
    (w : World) acc w2 :
  resolve available w = (Return acc, w2) ->
  pipeline available liked excluded w =
  (check_minimum acc;; check_coverage acc;; synth acc liked excluded)
    (gates_world acc w2).
Proof.
  intros H. unfold resolve_check_synthesize.
  rewrite (bind_returns _ _ _ _ _ H).
  rewrite run_bind. cbn [logger]. rewrite run_bind. cbn [logger].
  rewrite run_bind. cbn [logger]. rewrite run_bind. cbn [logger].
  rewrite !logged_logged. reflexivity.
Qed.

Lemma resolve_check_synthesize_raised (available liked excluded : list string)
    (w : World) e w2 :
  resolve available w = (Raise e, w2) ->
  pipeline available liked excluded w = (Raise e, w2).
Proof.
  intros H. unfold resolve_check_synthesize.
  apply (bind_raises _ _ _ _ _ H).
Qed.

Lemma meets_core_false (categories : list pyobj) :
  meets_core categories = false <-> core_free categories.
Proof.
  unfold meets_core, core_free. split.
  - intros H s Hs Hcore.
    assert (existsb (fun v => match v with
                              | PyStr s => bool_decide (s ∈ CORE_CATEGORIES)
                              | _ => false
                              end) categories = true) as Htrue.
    { apply existsb_exists. exists (PyStr s). split.
      - apply list_elem_of_In, Hs.
      - apply bool_decide_eq_true, Hcore. }
    rewrite H in Htrue. discriminate.
  - intros H. apply not_true_is_false. intros Htrue.
    apply existsb_exists in Htrue as (v & Hv & Hcore).
    destruct v as [| | | | s | |]; try discriminate.
    apply bool_decide_eq_true in Hcore.
    apply (H s); [apply list_elem_of_In, Hv | exact Hcore].
Qed.

Lemma try_except_raised {A} (m : M A) (w : World) e w' :
  m w = (Raise e, w') ->
  try_except m log_and_reraise w =
  (Raise e, logged [(ERROR, ErrorGeneratingRecipes e)] w').
Proof. intros H. unfold try_except. rewrite H. reflexivity. Qed.

Lemma try_except_outcome {A} (m : M A) (w : World) :
  fst (try_except m log_and_reraise w) = fst (m w).
Proof. unfold try_except. destruct (m w) as [[a | e] w']; reflexivity. Qed.

(** With the database answering and no conflict, a run whose loop ends
    normally goes on to the two gates and the synthesis. *)
Lemma generate_recipe_resolved (request : RecipeRequest) (w : World) acc w2 :
  db_answers db_fault ->
  (forall x, x ∈ map normalize (liked_ingredients request) ->
             x ∉ map normalize (excluded_ingredients request)) ->
  resolve (map normalize (available_ingredients request)) (entry request w)
    = (Return acc, w2) ->
  generate request w =
  try_except
    (check_minimum acc;; check_coverage acc;;
     synth acc (map normalize (liked_ingredients request))
               (map normalize (excluded_ingredients request)))
    log_and_reraise (gates_world acc w2).
Proof.
  intros Hdb Hdisjoint Hres.
  rewrite (generate_recipe_entry _ _ Hdb). unfold try_except.
  rewrite run_bind, (check_conflict_passes _ _ _ Hdisjoint).
  rewrite (resolve_check_synthesize_resolved _ _ _ _ _ _ Hres).
  reflexivity.
Qed.

(** An exception that leaves the loop leaves the request. *)
Lemma generate_recipe_resolution_raised (request : RecipeRequest) (w : World) e w2 :
  db_answers db_fault ->
  (forall x, x ∈ map normalize (liked_ingredients request) ->
             x ∉ map normalize (excluded_ingredients request)) ->
  resolve (map normalize (available_ingredients request)) (entry request w)
    = (Raise e, w2) ->
  generate request w =
  (Raise e, logged [(ERROR, ErrorGeneratingRecipes e)] w2).
Proof.
  intros Hdb Hdisjoint Hres.
  rewrite (generate_recipe_entry _ _ Hdb).
  apply try_except_raised.
  rewrite run_bind, (check_conflict_passes _ _ _ Hdisjoint).
  apply resolve_check_synthesize_raised, Hres.
Qed.

Lemma check_minimum_run (acc : Resolved) (w : World) :
  check_minimum acc w =
  if (length (valid_ingredients acc) <? 3)%nat
  then (Raise (ValueError not_enough_msg), w)
  else (Return tt, w).
Proof.
  unfold check_minimum.
  destruct (length (valid_ingredients acc) <? 3)%nat; reflexivity.
Qed.

Lemma check_coverage_run (acc : Resolved) (w : World) :
  check_coverage acc w =
  if meets_core (ingredient_categories acc)
  then (Return tt, w)
  else (Raise (ValueError no_core_msg),
        logged [(ERROR, NoCoreIngredients (ingredient_categories acc))] w).
Proof.
  unfold check_coverage.
  destruct (meets_core (ingredient_categories acc)); reflexivity.
Qed.

Lemma string_app_cons (x : ascii) (a b : string) :
  (String x a ++ b = String x (a ++ b))%string.
Proof. reflexivity. Qed.

Lemma string_app_assoc (a b c : string) : ((a ++ b) ++ c = a ++ b ++ c)%string.
Proof.
  induction a as [| x a IH]; [reflexivity |].
  rewrite !string_app_cons, IH. reflexivity.
Qed.

Lemma string_app_nil_r (a : string) : (a ++ EmptyString = a)%string.
Proof.
  induction a as [| x a IH]; [reflexivity |].
  rewrite string_app_cons, IH. reflexivity.
Qed.

(** A joined list spells out each of its members. *)
Lemma join_spells (sep : string) (l : list string) (x : string) :
  x ∈ l -> exists pre post, Str.join sep l = (pre ++ x ++ post)%string.
Proof.
  induction l as [| y l IH]; intros Hx; [inversion Hx |].
  apply elem_of_cons in Hx as [-> | Hx].
  - exists EmptyString. destruct l as [| z l].
    + exists EmptyString. simpl. rewrite string_app_nil_r. reflexivity.
    + exists (sep ++ Str.join sep (z :: l))%string. reflexivity.
  - destruct (IH Hx) as (pre & post & Hjoin).
    destruct l as [| z l]; [inversion Hx |].
    exists (y ++ sep ++ pre)%string, post.
    change (Str.join sep (y :: z :: l))
      with (y ++ sep ++ Str.join sep (z :: l))%string.
    rewrite Hjoin, !string_app_assoc. reflexivity.
Qed.

(** C2: when the database answers, a request whose liked and excluded
    lists share a canonical ingredient [x] fails with the conflict
    [ValueError]; its message lists exactly the shared canonical
    ingredients, each once, and so spells out [x]; the failure comes
    before any resolution: the world is the entry world plus the two
    error messages, and no call has gone to the endpoint. *)
Theorem generate_recipe_conflict (request : RecipeRequest) (w : World) (x : string) :
  db_answers db_fault ->
  x ∈ map normalize (liked_ingredients request) ->
  x ∈ map normalize (excluded_ingredients request) ->
  exists names,
    (forall y, y ∈ names <->
               y ∈ map normalize (liked_ingredients request) /\
               y ∈ map normalize (excluded_ingredients request)) /\
    NoDup names /\
    (exists pre post, conflict_msg names = (pre ++ x ++ post)%string) /\
    generate request w =
      (Raise (ValueError (conflict_msg names)),
       logged [(ERROR, ConflictDetected (conflict_msg names));
               (ERROR, ErrorGeneratingRecipes (ValueError (conflict_msg names)))]
              (entry request w)) /\
    calls (snd (generate request w)) = calls w.
Proof.
  intros Hdb Hl He.
  set (liked := map normalize (liked_ingredients request)) in *.
  set (excluded := map normalize (excluded_ingredients request)) in *.
  exists (elements (conflicting_ingredients liked excluded)).
  destruct (check_conflict_rejects liked excluded (entry request w) x Hl He)
    as [Hx Hrun].
  assert (Hgen : generate request w =
      (Raise (ValueError (conflict_msg (elements (conflicting_ingredients liked excluded)))),
       logged [(ERROR, ConflictDetected
                         (conflict_msg (elements (conflicting_ingredients liked excluded))));
               (ERROR, ErrorGeneratingRecipes
                         (ValueError (conflict_msg
                            (elements (conflicting_ingredients liked excluded)))))]
              (entry request w))).
  { rewrite (generate_recipe_entry _ _ Hdb). fold liked excluded.
    rewrite (try_except_raised _ _ _ _ (bind_raises _ _ _ _ _ Hrun)).
    rewrite logged_logged. reflexivity. }
  split; [| split; [| split; [| split]]].
  - intros y. rewrite elem_of_elements. unfold conflicting_ingredients.
    rewrite elem_of_intersection, !elem_of_list_to_set. reflexivity.
  - apply NoDup_elements.
  - destruct (join_spells ", " _ x Hx) as (pre & post & Hjoin).
    unfold conflict_msg. rewrite Hjoin. eexists _, post.
    rewrite <- string_app_assoc. reflexivity.
  - exact Hgen.
  - rewrite Hgen. reflexivity.
Qed.

(** C3: once the loop has resolved the ingredients (database answering,
    no conflict), fewer than 3 entries in the valid list make the request
    fail with the [ValueError] whose message asks for at least 3, before
    anything else is done; 3 or more let it through to the coverage gate
    and the synthesis.  Only resolved ingredients are in the valid list. *)
Theorem generate_recipe_minimum_count (request : RecipeRequest) (w : World) acc w2 :
  db_answers db_fault ->
  (forall x, x ∈ map normalize (liked_ingredients request) ->
             x ∉ map normalize (excluded_ingredients request)) ->
  resolve (map normalize (available_ingredients request)) (entry request w)
    = (Return acc, w2) ->
  (length (valid_ingredients acc) < 3 ->
     generate request w =
     (Raise (ValueError not_enough_msg),
      logged [(ERROR, ErrorGeneratingRecipes (ValueError not_enough_msg))]
             (gates_world acc w2))) /\
  (3 <= length (valid_ingredients acc) ->
     generate request w =
     try_except
       (check_coverage acc;;
        synth acc (map normalize (liked_ingredients request))
                  (map normalize (excluded_ingredients request)))
       log_and_reraise (gates_world acc w2)) /\
  (exists pre post, not_enough_msg = (pre ++ "at least 3" ++ post)%string).
Proof.
  intros Hdb Hdisjoint Hres.
  rewrite (generate_recipe_resolved _ _ _ _ Hdb Hdisjoint Hres).
  split; [| split].
  - intros Hlt. apply try_except_raised, bind_raises.
    rewrite check_minimum_run.
    destruct (Nat.ltb_spec (length (valid_ingredients acc)) 3); [reflexivity | lia].
  - intros Hge. unfold try_except. rewrite run_bind, check_minimum_run.
    destruct (Nat.ltb_spec (length (valid_ingredients acc)) 3); [lia | reflexivity].
  - exists "Not enough valid ingredients. Provide ", " food ingredients.".
    reflexivity.
Qed.

(** C4: once the loop has resolved the ingredients (database answering,
    no conflict), if no category it collected is one of protein,
    vegetables, fruits, carbs, then a valid list of 3 or more makes the
    request fail with the coverage [ValueError], no call going to the
    endpoint for a synthesis; with fewer than 3 the minimum-count error
    comes first. *)
Theorem generate_recipe_coverage (request : RecipeRequest) (w : World) acc w2 :
  db_answers db_fault ->
  (forall x, x ∈ map normalize (liked_ingredients request) ->
             x ∉ map normalize (excluded_ingredients request)) ->
  resolve (map normalize (available_ingredients request)) (entry request w)
    = (Return acc, w2) ->
  core_free (ingredient_categories acc) ->
  (3 <= length (valid_ingredients acc) ->
     generate request w =
     (Raise (ValueError no_core_msg),
      logged [(ERROR, NoCoreIngredients (ingredient_categories acc));
              (ERROR, ErrorGeneratingRecipes (ValueError no_core_msg))]
             (gates_world acc w2)) /\
     calls (snd (generate request w)) = calls w2) /\
  (length (valid_ingredients acc) < 3 ->
     fst (generate request w) = Raise (ValueError not_enough_msg)).
Proof.
  intros Hdb Hdisjoint Hres Hfree.
  rewrite (generate_recipe_resolved _ _ _ _ Hdb Hdisjoint Hres).
  apply meets_core_false in Hfree.
  split.
  - intros Hge.
    assert (Hrun : (check_minimum acc;; check_coverage acc;;
                    synth acc (map normalize (liked_ingredients request))
                              (map normalize (excluded_ingredients request)))
                     (gates_world acc w2) =
                   (Raise (ValueError no_core_msg),
                    logged [(ERROR, NoCoreIngredients (ingredient_categories acc))]
                           (gates_world acc w2))).
    { rewrite run_bind, check_minimum_run.
      destruct (Nat.ltb_spec (length (valid_ingredients acc)) 3); [lia |].
      rewrite run_bind, check_coverage_run, Hfree. reflexivity. }
    rewrite (try_except_raised _ _ _ _ Hrun), logged_logged.
    split; reflexivity.
  - intros Hlt. rewrite try_except_outcome, run_bind, check_minimum_run.
    destruct (Nat.ltb_spec (length (valid_ingredients acc)) 3); [reflexivity | lia].
Qed.

(** ** The synthesis *)

Lemma synthesize_run (acc : Resolved) (liked excluded : list string) (w : World) :
  synth acc liked excluded w =
  let req := recipe_request (valid_ingredients acc) liked excluded in
  match client (length (calls w)) req with
  | ChatRaises e => (Raise e, called req w)
  | ChatCompletion [] => (Raise IndexError, called req w)
  | ChatCompletion (None :: _) =>
      (Raise (AttributeError "'NoneType' object has no attribute 'strip'"),
       called req w)
  | ChatCompletion (Some s :: _) =>
      let w1 := logged [(INFO, RawLlmResponse (Str.strip s))] (called req w) in
      match json_loads (unfence (Str.strip s)) with
      | None => (Raise JSONDecodeError, w1)
      | Some v =>
          (iterate v ≫=
           comprehension (new_RecipeResponseWithDebug (debug_of acc (Str.strip s)))) w1
      end
  end.
Proof.
  unfold synthesize, chat_completions_create. cbv zeta. rewrite run_bind.
  destruct (client _ _) as [e | [| [s |] rest]]; try reflexivity.
  rewrite run_bind. cbn [stripped_content ret]. rewrite run_bind. cbn [logger].
  rewrite run_bind. unfold loads.
  destruct (json_loads (unfence (Str.strip s))); reflexivity.
Qed.

(** A comprehension that returns has converted every item. *)
Lemma comprehension_returned {A B} (f : A -> M B) (l : list A) (w : World) ys w' :
  comprehension f l w = (Return ys, w') ->
  Forall2 (fun x y => exists w1 w2, f x w1 = (Return y, w2)) l ys.
Proof.
  revert w ys. induction l as [| x l IH]; intros w ys H; simpl in H.
  - inversion H. constructor.
  - apply bind_returned in H as (y & w1 & Hx & H).
    apply bind_returned in H as (ys' & w2 & Hl & H).
    inversion H. subst. constructor; [eauto | eapply IH, Hl].
Qed.

Lemma comprehension_first_raises {A B} (f : A -> M B) x (l : list A) (w : World) e w' :
  f x w = (Raise e, w') -> comprehension f (x :: l) w = (Raise e, w').
Proof. intros H. simpl. apply (bind_raises _ _ _ _ _ H). Qed.

Lemma as_recipe_fields d debug r :
  as_recipe d debug = Some r ->
  forall f, f ∈ required_fields -> assoc f d <> None.
Proof.
  unfold as_recipe, required_fields. intros H f Hf.
  repeat (apply elem_of_cons in Hf as [-> | Hf];
          [intros E; rewrite E in H; simplify_option_eq |]).
  inversion Hf.
Qed.

(** An entry without a required field is refused, in any world. *)
Lemma new_RecipeResponseWithDebug_missing debug (recipe : pyobj) (w : World) y w' :
  missing_field recipe ->
  new_RecipeResponseWithDebug debug recipe w <> (Return y, w').
Proof.
  intros (d & f & -> & Hf & Hnone) H. simpl in H.
  destruct (assoc "debug_info" d); [discriminate H |].
  destruct (as_recipe d debug) as [r |] eqn:Hr; [| discriminate H].
  exact (as_recipe_fields _ _ _ Hr f Hf Hnone).
Qed.

(** What becomes of a payload that is not a list: an empty object and an
    empty string give an empty batch, anything else a [TypeError]. *)
Lemma batch_of_non_list debug (v : pyobj) (w : World) :
  (forall l, v <> PyList l) ->
  let run := (iterate v ≫= comprehension (new_RecipeResponseWithDebug debug)) w in
  ((v = PyDict [] \/ v = PyStr EmptyString) /\ run = (Return [], w)) \/
  (v <> PyDict [] /\ v <> PyStr EmptyString /\
   exists msg, run = (Raise (TypeError msg), w)).
Proof.
  intros Hlist run. subst run.
  destruct v as [| b | z | f | s | l | d].
  - right. split; [discriminate | split; [discriminate | eexists; reflexivity]].
  - right. split; [discriminate | split; [discriminate | eexists; reflexivity]].
  - right. split; [discriminate | split; [discriminate | eexists; reflexivity]].
  - right. split; [discriminate | split; [discriminate | eexists; reflexivity]].
  - destruct s as [| c s].
    + left. split; [right; reflexivity | reflexivity].
    + right. split; [discriminate | split; [discriminate |]].
      eexists. rewrite run_bind. cbn [iterate ret list_ascii_of_string map].
      apply comprehension_first_raises. reflexivity.
  - exfalso. eapply Hlist. reflexivity.
  - destruct d as [| [k x] d].
    + left. split; [left; reflexivity | reflexivity].
    + right. split; [discriminate | split; [discriminate |]].
      eexists. rewrite run_bind. cbn [iterate ret map fst].
      apply comprehension_first_raises. reflexivity.
Qed.

Lemma Forall2_member {A B} (P : A -> B -> Prop) (l : list A) (k : list B) x :
  Forall2 P l k -> x ∈ l -> exists y, P x y.
Proof.
  induction 1 as [| a b l k Hab _ IH]; intros Hx; [inversion Hx |].
  apply elem_of_cons in Hx as [-> | Hx]; [eauto | apply IH, Hx].
Qed.

(** With the database answering, no conflict, and both gates passed, all
    that is left of the run is the synthesis. *)
Lemma generate_recipe_synthesis (request : RecipeRequest) (w : World) acc w2 :
  db_answers db_fault ->
  (forall x, x ∈ map normalize (liked_ingredients request) ->
             x ∉ map normalize (excluded_ingredients request)) ->
  resolve (map normalize (available_ingredients request)) (entry request w)
    = (Return acc, w2) ->
  3 <= length (valid_ingredients acc) ->
  meets_core (ingredient_categories acc) = true ->
  generate request w =
  try_except
    (synth acc (map normalize (liked_ingredients request))
               (map normalize (excluded_ingredients request)))
    log_and_reraise (gates_world acc w2).
Proof.
  intros Hdb Hdisjoint Hres Hge Hcore.
  rewrite (generate_recipe_resolved _ _ _ _ Hdb Hdisjoint Hres).
  unfold try_except. rewrite run_bind, check_minimum_run.
  destruct (Nat.ltb_spec (length (valid_ingredients acc)) 3); [lia |].
  rewrite run_bind, check_coverage_run, Hcore. reflexivity.
Qed.

(** C5 (amended): in a run that reaches the synthesis and whose
    generation call is answered with a text, (1) a text that, fences
    stripped, is not JSON fails the request with [JSONDecodeError];
    (2) a JSON value that is neither a list nor an empty object nor an
    empty string fails it with a [TypeError]; (3) a list with an entry
    missing a required field fails it; (4) a request that returns
    recipes returns one for every entry of the list - or none for an
    empty object or an empty string. *)
Theorem generate_recipe_all_or_nothing
    (request : RecipeRequest) (w : World) acc w2 (s : string) rest :
  db_answers db_fault ->
  (forall x, x ∈ map normalize (liked_ingredients request) ->
             x ∉ map normalize (excluded_ingredients request)) ->
  resolve (map normalize (available_ingredients request)) (entry request w)
    = (Return acc, w2) ->
  3 <= length (valid_ingredients acc) ->
  meets_core (ingredient_categories acc) = true ->
  client (length (calls w2))
         (recipe_request (valid_ingredients acc)
            (map normalize (liked_ingredients request))
            (map normalize (excluded_ingredients request)))
    = ChatCompletion (Some s :: rest) ->
  let payload := json_loads (unfence (Str.strip s)) in
  (payload = None -> fst (generate request w) = Raise JSONDecodeError) /\
  (forall v, payload = Some v ->
     (forall l, v <> PyList l) -> v <> PyDict [] -> v <> PyStr EmptyString ->
     exists msg, fst (generate request w) = Raise (TypeError msg)) /\
  (forall l item, payload = Some (PyList l) -> item ∈ l -> missing_field item ->
     exists e, fst (generate request w) = Raise e) /\
  (forall recipes, fst (generate request w) = Return recipes ->
     exists v, payload = Some v /\
       ((exists l, v = PyList l /\ length recipes = length l) \/
        ((v = PyDict [] \/ v = PyStr EmptyString) /\ recipes = []))).
Proof.
  intros Hdb Hdisjoint Hres Hge Hcore Hreply payload.
  rewrite (generate_recipe_synthesis _ _ _ _ Hdb Hdisjoint Hres Hge Hcore).
  rewrite try_except_outcome, synthesize_run. cbv zeta.
  change (calls (gates_world acc w2)) with (calls w2). rewrite Hreply.
  fold payload.
  set (w1 := logged _ (called _ _)).
  set (debug := debug_of acc (Str.strip s)).
  split; [| split; [| split]].
  - intros ->. reflexivity.
  - intros v -> Hlist Hdict Hstr.
    destruct (batch_of_non_list debug v w1 Hlist)
      as [[[? | ?] _] | (_ & _ & msg & ->)]; [done | done |].
    exists msg. reflexivity.
  - intros l item -> Hitem Hmissing. rewrite run_bind. cbn [iterate ret].
    destruct (comprehension (new_RecipeResponseWithDebug debug) l w1)
      as [[ys | e] w3] eqn:Hrun; [| exists e; reflexivity].
    exfalso. apply comprehension_returned in Hrun.
    destruct (Forall2_member _ _ _ _ Hrun Hitem) as (y & wa & wb & Hy).
    exact (new_RecipeResponseWithDebug_missing _ _ _ _ _ Hmissing Hy).
  - intros recipes Hret.
    destruct payload as [v |]; [| discriminate Hret].
    exists v. split; [reflexivity |].
    destruct v as [| b | z | f | t | l | d].
    6: { left. exists l. split; [reflexivity |].
         rewrite run_bind in Hret. cbn [iterate ret] in Hret.
         destruct (comprehension (new_RecipeResponseWithDebug debug) l w1)
           as [[ys | e] w3] eqn:Hrun; [| discriminate Hret].
         inversion Hret. subst ys. apply comprehension_returned in Hrun.
         symmetry. exact (Forall2_length _ _ _ Hrun). }
    all: right.
    all: match goal with
         | _ : context [iterate ?v] |- _ =>
             destruct (batch_of_non_list debug v w1 ltac:(discriminate))
               as [[Hv Hrun] | (_ & _ & msg & Hrun)];
             rewrite Hrun in Hret;
             [inversion Hret; split; [exact Hv | reflexivity] | discriminate Hret]
         end.
Qed.

(** ** The valid list and the provenance lists *)

(** The loop keeps the canonical form of a token exactly when the call
    of [is_valid_ingredient] for that token returned a resolution. *)
Lemma for_each_resolve_one_classified (l : list string) (acc0 : Resolved)
    (w : World) acc w' :
  for_each resolve_step l acc0 w = (Return acc, w') ->
  exists results,
    classified lemmatize json_loads core_categories_repr ingredients_table client
      l w results w' /\
    valid_ingredients acc = (valid_ingredients acc0 ++ kept lemmatize l results)%list.
Proof.
  revert acc0 w. induction l as [| ing l IH]; intros acc0 w Hrun; simpl in Hrun.
  - inversion Hrun. subst. exists []. split; [reflexivity |].
    cbn [kept]. rewrite app_nil_r. reflexivity.
  - apply bind_returned in Hrun as (acc1 & w1 & Hone & Hrest).
    apply IH in Hrest as (results & Htrace & Hvalid).
    apply resolve_one_returned in Hone
      as [(wn & Hnone & -> & ->) | (r & Hsome & Hv1 & _)].
    + exists (None :: results). split.
      * cbn [classified]. exists wn. split; [exact Hnone | exact Htrace].
      * cbn [kept]. exact Hvalid.
    + exists (Some r :: results). split.
      * cbn [classified]. exists w1. split; [exact Hsome | exact Htrace].
      * cbn [kept]. rewrite Hvalid, Hv1, <- app_assoc. reflexivity.
Qed.

(** C6 (amended): the valid list the loop hands to the synthesis holds,
    in order, the canonical form of each token of the list the loop runs
    over for which [is_valid_ingredient] returned a resolution, one
    entry for each such token and nothing else; so it is a subsequence
    of the canonical forms of that list.  Nothing removes duplicates;
    the list is free of them when these canonical forms are pairwise
    distinct. *)
Theorem valid_ingredients_subsequence (available : list string) (w : World) acc w' :
  resolve available w = (Return acc, w') ->
  exists results,
    classified lemmatize json_loads core_categories_repr ingredients_table client
      available w results w' /\
    valid_ingredients acc = kept lemmatize available results /\
    valid_ingredients acc `sublist_of` map normalize available /\
    (NoDup (map normalize available) -> NoDup (valid_ingredients acc)).
Proof.
  intros H.
  destruct (for_each_resolve_one_classified _ _ _ _ _ H) as (results & Htrace & Hvalid).
  apply resolve_all_returned in H as (Hsub & _ & _).
  exists results. split; [exact Htrace |]. split; [exact Hvalid |].
  split; [exact Hsub |].
  intros Hnodup. eapply sublist_NoDup; eassumption.
Qed.

(** The first row of the table that carries an ingredient decides its
    category. *)
Lemma first_row (df : list (option string * option string)) (n : string) :
  (filter (fun row => fst row = Some n) df = [] /\ Some n ∉ map fst df) \/
  exists cell rows, filter (fun row => fst row = Some n) df = (Some n, cell) :: rows /\
                    (Some n, cell) ∈ df.
Proof.
  induction df as [| [i c] df IH].
  - left. split; [reflexivity | apply not_elem_of_nil].
  - destruct (decide (i = Some n)) as [-> | Hne].
    + right. exists c, (filter (fun row => fst row = Some n) df).
      split; [apply filter_cons_True; reflexivity | left].
    + rewrite filter_cons_False by exact Hne.
      destruct IH as [[Hnil Hnot] | (cell & rows & Hf & Hin)].
      * left. split; [exact Hnil |]. simpl. rewrite elem_of_cons.
        intros [Heq | Hin]; [congruence | exact (Hnot Hin)].
      * right. exists cell, rows. split; [exact Hf | right; exact Hin].
Qed.

Lemma get_ingredient_category_row (n : string) :
  (category_of n = PyNone /\ Some n ∉ column) \/
  exists cell, category_of n = cell_value cell /\
               (Some n, cell) ∈ ingredient_df ingredients_table.
Proof.
  unfold get_ingredient_category, Ingredient_column.
  destruct (first_row (ingredient_df ingredients_table) n)
    as [[Hnil Hnot] | (cell & rows & Hf & Hin)].
  - left. rewrite Hnil. split; [reflexivity | exact Hnot].
  - right. exists cell. rewrite Hf. split; [reflexivity | exact Hin].
Qed.

(** C7 (amended): for a canonical ingredient whose first row in the
    table carries a truthy category (a non-empty string, or a missing
    cell), resolution returns that category, leaves the world as it was -
    no call goes to the endpoint, nothing is logged - and returns the
    same record in every world. *)
Theorem is_valid_ingredient_dataset_path (ing : string) (w : World) :
  truthy (category_of (normalize ing)) = true ->
  (exists cell, (Some (normalize ing), cell) ∈ ingredient_df ingredients_table /\
                category_of (normalize ing) = cell_value cell) /\
  is_valid ing w =
    (Return (Some {| res_ingredient := normalize ing;
                     res_category := category_of (normalize ing) |}), w) /\
  (forall w2, fst (is_valid ing w2) = fst (is_valid ing w)).
Proof.
  intros Htruthy. split; [| split].
  - destruct (get_ingredient_category_row (normalize ing))
      as [[Hnone _] | (cell & Hcat & Hin)].
    + rewrite Hnone in Htruthy. discriminate Htruthy.
    + exists cell. split; [exact Hin | exact Hcat].
  - apply is_valid_ingredient_dataset, Htruthy.
  - intros w2. rewrite !is_valid_ingredient_dataset by exact Htruthy. reflexivity.
Qed.

(** Where the category of a resolution comes from: the table, or the
    reply of the endpoint. *)
Lemma is_valid_ingredient_returned (ing : string) (w : World) r w' :
  is_valid ing w = (Return (Some r), w') ->
  res_ingredient r = normalize ing /\
  ((truthy (category_of (normalize ing)) = true /\
    res_category r = category_of (normalize ing) /\ w' = w) \/
   (truthy (category_of (normalize ing)) = false /\
    exists d answer c,
      ask_llm (normalize ing) (logged [(INFO, CheckingBeforeLlm (normalize ing))] w)
        = (Return (PyDict d), w') /\
      assoc "valid" d = Some (PyStr answer) /\ Str.upper answer = "YES" /\
      assoc "category" d = Some c /\
      res_category r = if eq_str c "None" then PyNone else c)).
Proof.
  intros H. split; [exact (is_valid_ingredient_names _ _ _ _ H) |].
  unfold is_valid_ingredient in H.
  destruct (truthy (category_of (normalize ing))) eqn:Htruthy.
  - left. inversion H. done.
  - right. split; [reflexivity |].
    rewrite run_bind in H. cbn [logger] in H.
    apply bind_returned in H as (v & w1 & Hask & H).
    destruct (truthy v); [| discriminate H].
    apply bind_returned in H as (x & w2 & Hvalid & H).
    apply bind_returned in H as (answer & w3 & Hupper & H).
    destruct (String.eqb answer "YES") eqn:Hyes; [| discriminate H].
    apply bind_returned in H as (c & w4 & Hcat & H).
    destruct v as [| | | | | | d]; try discriminate Hvalid.
    simpl in Hvalid, Hcat.
    destruct (assoc "valid" d) as [x' |] eqn:Ev; [| discriminate Hvalid].
    destruct (assoc "category" d) as [c' |] eqn:Ec; [| discriminate Hcat].
    inversion Hvalid. inversion Hcat. subst.
    destruct x as [| | | | s | |]; try discriminate Hupper.
    inversion Hupper. subst. inversion H. subst.
    exists d, s, c. apply String.eqb_eq in Hyes. done.
Qed.

(** The rows before the first one that carries an ingredient. *)
Lemma first_row_split (df : list (option string * option string)) (n : string) :
  filter (fun row => fst row = Some n) df = [] \/
  exists before cell after rows,
    df = (before ++ (Some n, cell) :: after)%list /\
    (forall row, row ∈ before -> fst row <> Some n) /\
    filter (fun row => fst row = Some n) df = (Some n, cell) :: rows.
Proof.
  induction df as [| [i c] df IH].
  - left. reflexivity.
  - destruct (decide (i = Some n)) as [-> | Hne].
    + right. exists [], c, df, (filter (fun row => fst row = Some n) df).
      split; [reflexivity |]. split; [intros row Hrow; inversion Hrow |].
      apply filter_cons_True. reflexivity.
    + rewrite filter_cons_False by exact Hne.
      destruct IH as [Hnil | (before & cell & after & rows & -> & Hbefore & Hf)].
      * left. exact Hnil.
      * right. exists ((i, c) :: before), cell, after, rows.
        split; [reflexivity |]. split; [| exact Hf].
        intros row Hrow. apply elem_of_cons in Hrow as [-> | Hrow].
        -- exact Hne.
        -- exact (Hbefore row Hrow).
Qed.

Lemma is_valid_ingredient_same_form (ing ing2 : string) (w : World) :
  normalize ing2 = normalize ing -> is_valid ing2 w = is_valid ing w.
Proof. intros H. unfold is_valid_ingredient. rewrite H. reflexivity. Qed.

(** C9 (amended): the category of a resolved ingredient is whatever the
    table or the endpoint gave; it is not checked against the
    enumeration.  When the table has a truthy category for the canonical
    form, the category is [get_ingredient_category] of that form: the
    cell of the first row that carries it (a string, or NaN for a
    missing cell); the world is left alone, and every token of that
    canonical form gets the same resolution in every world.  Otherwise
    it is the category field of the reply, with the string None turned
    into [None]. *)
Theorem is_valid_ingredient_category (ing : string) (w : World) r w' :
  is_valid ing w = (Return (Some r), w') ->
  res_ingredient r = normalize ing /\
  ((truthy (category_of (normalize ing)) = true /\
    res_category r = category_of (normalize ing) /\
    (exists before cell after,
       ingredient_df ingredients_table
         = (before ++ (Some (normalize ing), cell) :: after)%list /\
       (forall row, row ∈ before -> fst row <> Some (normalize ing)) /\
       res_category r = cell_value cell) /\
    w' = w /\
    forall ing2 w2, normalize ing2 = normalize ing ->
      fst (is_valid ing2 w2) = Return (Some r)) \/
   (truthy (category_of (normalize ing)) = false /\
    exists d answer c,
      ask_llm (normalize ing) (logged [(INFO, CheckingBeforeLlm (normalize ing))] w)
        = (Return (PyDict d), w') /\
      assoc "valid" d = Some (PyStr answer) /\ Str.upper answer = "YES" /\
      assoc "category" d = Some c /\
      res_category r = if eq_str c "None" then PyNone else c)).
Proof.
  intros H.
  destruct (is_valid_ingredient_returned _ _ _ _ H)
    as [Hname [(Htruthy & Hcat & ->) | (Hfalsy & d & answer & c & Hrest)]].
  - split; [exact Hname |]. left.
    split; [exact Htruthy |]. split; [exact Hcat |]. split; [| split; [reflexivity |]].
    + rewrite Hcat. unfold get_ingredient_category in *.
      destruct (first_row_split (ingredient_df ingredients_table) (normalize ing))
        as [Hnil | (before & cell & after & rows & Hdf & Hbefore & Hf)].
      * rewrite Hnil in Htruthy. discriminate Htruthy.
      * exists before, cell, after. rewrite Hf.
        split; [exact Hdf |]. split; [exact Hbefore | reflexivity].
    + intros ing2 w2 Hsame. rewrite (is_valid_ingredient_same_form _ _ _ Hsame).
      rewrite is_valid_ingredient_dataset by exact Htruthy.
      rewrite is_valid_ingredient_dataset in H by exact Htruthy.
      inversion H. reflexivity.
  - split; [exact Hname |]. right. split; [exact Hfalsy |].
    exists d, answer, c. exact Hrest.
Qed.

(** A failed classification call - the endpoint raised, sent no choice or
    no content, or sent a text that is not JSON - is logged as an error;
    the ingredient is not recognized and the loop goes on with its
    accumulators untouched. *)
Lemma resolve_one_absorbs_failure (acc : Resolved) (ing : string) (w : World) :
  truthy (category_of (normalize ing)) = false ->
  match client (length (calls w)) (question (normalize ing)) with
  | ChatRaises _ | ChatCompletion [] | ChatCompletion (None :: _) => True
  | ChatCompletion (Some s :: _) => json_loads (Str.strip s) = None
  end ->
  exists entries e w',
    resolve_step acc ing w = (Return acc, w') /\
    calls w' = (calls w ++ [question (normalize ing)])%list /\
    log w' = (log w ++ entries ++
              [(ERROR, LlmValidationFailed (normalize ing) e);
               (WARNING, NotRecognized ing)])%list.
Proof.
  intros Htruthy Hfail.
  set (n := normalize ing) in *.
  set (w0 := logged [(INFO, CheckingBeforeLlm n)] w).
  assert (Hask : exists entries e,
             ask_llm n w0 =
             (Return PyNone,
              logged (entries ++ [(ERROR, LlmValidationFailed n e)])
                     (called (question n) w0))).
  { rewrite call_llm_for_ingredient_run.
    change (calls w0) with (calls w).
    destruct (client (length (calls w)) (question n)) as [e | [| [s |] rest]].
    - exists [], e. reflexivity.
    - exists [], IndexError. reflexivity.
    - rewrite Hfail.
      exists [(INFO, LlmRawResponse n (Str.strip s))], JSONDecodeError. reflexivity.
    - exists [], (AttributeError "'NoneType' object has no attribute 'strip'").
      reflexivity. }
  destruct Hask as (entries & e & Hask).
  exists ((INFO, CheckingBeforeLlm n) :: entries), e. eexists. split; [| split].
  - unfold resolve_one, is_valid_ingredient. fold n. rewrite Htruthy.
    rewrite run_bind, run_bind. cbn [logger]. fold w0.
    rewrite run_bind, Hask. cbn [truthy ret]. rewrite run_bind. cbn [logger ret].
    reflexivity.
  - reflexivity.
  - cbn. rewrite <- !app_assoc. reflexivity.
Qed.

(** A reply that is JSON but not an object is not absorbed: subscripting
    it raises, in [is_valid_ingredient] and so in the loop. *)
Lemma is_valid_ingredient_shape_raises (ing : string) (w : World) s rest v :
  truthy (category_of (normalize ing)) = false ->
  client (length (calls w)) (question (normalize ing))
    = ChatCompletion (Some s :: rest) ->
  json_loads (Str.strip s) = Some v ->
  truthy v = true ->
  (forall d, v <> PyDict d) ->
  exists msg w', is_valid ing w = (Raise (TypeError msg), w').
Proof.
  intros Hfalsy Hclient Hjson Htruthy Hshape.
  unfold is_valid_ingredient. rewrite Hfalsy.
  rewrite run_bind. cbn [logger]. rewrite run_bind.
  rewrite call_llm_for_ingredient_run.
  change (calls (logged _ w)) with (calls w).
  rewrite Hclient, Hjson, Htruthy, run_bind.
  destruct v as [| b | z | f | t | l | d];
    try (eexists _, _; reflexivity).
  exfalso. eapply Hshape. reflexivity.
Qed.

Lemma resolve_one_shape_raises (acc : Resolved) (ing : string) (w : World) s rest v :
  truthy (category_of (normalize ing)) = false ->
  client (length (calls w)) (question (normalize ing))
    = ChatCompletion (Some s :: rest) ->
  json_loads (Str.strip s) = Some v ->
  truthy v = true ->
  (forall d, v <> PyDict d) ->
  exists msg w', resolve_step acc ing w = (Raise (TypeError msg), w').
Proof.
  intros Hfalsy Hclient Hjson Htruthy Hshape.
  destruct (is_valid_ingredient_shape_raises ing w s rest v
              Hfalsy Hclient Hjson Htruthy Hshape) as (msg & w' & Hrun).
  exists msg, w'. unfold resolve_one. apply (bind_raises _ _ _ _ _ Hrun).
Qed.

Lemma new_RecipeResponseWithDebug_debug debug (item : pyobj) (w : World) y w' :
  new_RecipeResponseWithDebug debug item w = (Return y, w') ->
  debug_info y = debug.
Proof.
  destruct item as [| | | | | | d]; try discriminate. simpl.
  destruct (assoc "debug_info" d); [discriminate |].
  destruct (as_recipe d debug) as [r |] eqn:Hr; [| discriminate].
  intros H. inversion H. subst.
  unfold as_recipe in Hr. simplify_option_eq. reflexivity.
Qed.

(** Every recipe of a batch carries the provenance lists of the loop. *)
Lemma synthesize_returned (acc : Resolved) (liked excluded : list string)
    (w : World) recipes w' :
  synth acc liked excluded w = (Return recipes, w') ->
  forall recipe, recipe ∈ recipes ->
    matched_with_database (debug_info recipe) = matched_db acc /\
    matched_via_llm (debug_info recipe) = matched_llm acc.
Proof.
  rewrite synthesize_run. cbv zeta.
  destruct (client _ _) as [e | [| [s |] rest]]; try discriminate.
  destruct (json_loads _) as [v |]; [| discriminate].
  intros H. apply bind_returned in H as (items & w1 & _ & H).
  apply comprehension_returned in H.
  intros recipe Hin.
  assert (Hall : Forall (fun y => debug_info y = debug_of acc (Str.strip s)) recipes).
  { clear Hin. induction H as [| x y l k (wa & wb & Hxy) _ IH]; constructor.
    - exact (new_RecipeResponseWithDebug_debug _ _ _ _ _ Hxy).
    - exact IH. }
  rewrite Forall_forall in Hall. rewrite (Hall recipe Hin). split; reflexivity.
Qed.

(** A request that returns recipes went through the loop, both gates and
    the synthesis. *)
Lemma generate_recipe_returned (request : RecipeRequest) (w : World) recipes w' :
  generate request w = (Return recipes, w') ->
  exists w1 acc w2 w3,
    resolve (map normalize (available_ingredients request)) w1 = (Return acc, w2) /\
    3 <= length (valid_ingredients acc) /\
    meets_core (ingredient_categories acc) = true /\
    synth acc (map normalize (liked_ingredients request))
              (map normalize (excluded_ingredients request)) w3
      = (Return recipes, w').
Proof.
  unfold generate_recipe, try_except.
  match goal with
  | |- (let (_, _) := ?body in _) = _ -> _ =>
      destruct body as [[a | e] wz] eqn:Hbody; [| discriminate]
  end.
  intros H. inversion H. subst. clear H.
  do 8 (apply bind_returned in Hbody as (? & ? & _ & Hbody)).
  unfold resolve_check_synthesize in Hbody.
  apply bind_returned in Hbody as (acc & w2 & Hres & Hbody).
  do 4 (apply bind_returned in Hbody as (? & ? & _ & Hbody)).
  apply bind_returned in Hbody as (? & w3 & Hmin & Hbody).
  apply bind_returned in Hbody as (? & w4 & Hcov & Hbody).
  rewrite check_minimum_run in Hmin. rewrite check_coverage_run in Hcov.
  destruct (Nat.ltb_spec (length (valid_ingredients acc)) 3); [discriminate Hmin |].
  destruct (meets_core (ingredient_categories acc)) eqn:Hcore; [| discriminate Hcov].
  eexists _, acc, w2, w4. split; [exact Hres |]. split; [lia |].
  split; [exact Hcore | exact Hbody].
Qed.

(** C10: in the debug record of every recipe returned, a valid
    ingredient is listed in [matched_with_database] exactly when its
    canonical form is in the Ingredient column of the table, and in
    [matched_via_llm] exactly when it is not.  In particular an
    ingredient of the table whose category is falsy, once the endpoint
    has been asked and has validated it, goes to the database list. *)
Theorem provenance_by_table_membership (request : RecipeRequest) (w : World) :
  (forall recipes w',
     generate request w = (Return recipes, w') ->
     exists w1 acc w2,
       resolve (map normalize (available_ingredients request)) w1 = (Return acc, w2) /\
       forall recipe x, recipe ∈ recipes -> x ∈ valid_ingredients acc ->
         (x ∈ matched_with_database (debug_info recipe) <-> Some x ∈ column) /\
         (x ∈ matched_via_llm (debug_info recipe) <-> Some x ∉ column)) /\
  (forall ing acc0 w0 r acc1 w1,
     Some (normalize ing) ∈ column ->
     truthy (category_of (normalize ing)) = false ->
     is_valid ing w0 = (Return (Some r), w1) ->
     resolve_step acc0 ing w0 = (Return acc1, w1) ->
     calls w1 = (calls w0 ++ [question (normalize ing)])%list /\
     matched_db acc1 = (matched_db acc0 ++ [normalize ing])%list /\
     matched_llm acc1 = matched_llm acc0).
Proof.
  split.
  - intros recipes w' Hgen.
    apply generate_recipe_returned in Hgen as (w1 & acc & w2 & w3 & Hres & _ & _ & Hsyn).
    exists w1, acc, w2. split; [exact Hres |].
    intros recipe x Hrecipe Hx.
    destruct (synthesize_returned _ _ _ _ _ _ Hsyn recipe Hrecipe) as [-> ->].
    apply resolve_all_returned in Hres as (_ & -> & ->).
    rewrite !list_elem_of_filter. tauto.
  - intros ing acc0 w0 r acc1 w1 Hin Hfalsy Hvalid Hstep.
    split.
    + pose proof (is_valid_ingredient_fallback_calls ing w0 Hfalsy) as Hcalls.
      rewrite Hvalid in Hcalls. exact Hcalls.
    + apply resolve_one_returned in Hstep
        as [(wn & Hnone & _) | (r' & _ & _ & Hdb1 & Hllm1 & _)].
      * rewrite Hvalid in Hnone. discriminate Hnone.
      * rewrite Hdb1, Hllm1.
        rewrite filter_cons_True, filter_cons_False by tauto.
        rewrite app_nil_r. done.
Qed.

End Facts.

(** ** The scenarios, run in the kitchen *)

(** A decidable proposition about closed data, settled by evaluation. *)
Ltac decided := apply (bool_decide_unpack _); vm_compute; exact I.

(** The first conjunct of the goal is a run to evaluate: evaluate it,
    keep its equation as [H]. *)
Ltac evaluate_first H :=
  match goal with
  | |- ?A /\ _ => assert (H : A) by (vm_compute; reflexivity)
  end.

Lemma kitchen_db_answers : db_answers Kitchen.db_up.
Proof. intros op. reflexivity. Qed.

Lemma kitchen_requests_accepted :
  Forall (fun r => request_accepted r = true)
    [Kitchen.plain_request; Kitchen.conflicting_request; Kitchen.short_request;
     Kitchen.bland_request; Kitchen.repeated_request; Kitchen.quinoa_request].
Proof. repeat constructor. Qed.

Lemma generate_recipe_conflict_witness :
  exists names,
    NoDup names /\
    (exists pre post, conflict_msg names = (pre ++ "chicken" ++ post)%string) /\
    fst (Kitchen.run Kitchen.db_up [] Kitchen.conflicting_request)
      = Raise (ValueError (conflict_msg names)) /\
    calls (snd (Kitchen.run Kitchen.db_up [] Kitchen.conflicting_request)) = [].
Proof.
  destruct (generate_recipe_conflict Kitchen.lemmatize Json.loads Kitchen.core_repr
              Kitchen.table (Kitchen.scripted []) Kitchen.db_up
              Kitchen.conflicting_request initial_world "chicken")
    as (names & _ & Hnodup & Hspell & Hrun & Hcalls).
  - exact kitchen_db_answers.
  - decided.
  - decided.
  - exists names. unfold Kitchen.run. rewrite Hrun at 1. rewrite Hcalls.
    repeat split; assumption.
Defined.

Lemma generate_recipe_minimum_count_witness :
  (exists acc w2,
     resolve_all Kitchen.lemmatize Json.loads Kitchen.core_repr Kitchen.table
       (Kitchen.scripted [Kitchen.says (Kitchen.verdict "NO" "None")])
       (map (normalize_ingredient Kitchen.lemmatize)
            (available_ingredients Kitchen.short_request))
       (entry_world Kitchen.lemmatize Kitchen.short_request initial_world)
       = (Return acc, w2) /\
     valid_ingredients acc = ["chicken"] /\
     fst (Kitchen.run Kitchen.db_up [Kitchen.says (Kitchen.verdict "NO" "None")]
            Kitchen.short_request)
       = Raise (ValueError not_enough_msg)) /\
  (exists acc w2 recipes,
     resolve_all Kitchen.lemmatize Json.loads Kitchen.core_repr Kitchen.table
       (Kitchen.scripted [Kitchen.says Kitchen.one_recipe])
       (map (normalize_ingredient Kitchen.lemmatize)
            (available_ingredients Kitchen.plain_request))
       (entry_world Kitchen.lemmatize Kitchen.plain_request initial_world)
       = (Return acc, w2) /\
     valid_ingredients acc = ["chicken"; "onion"; "garlic"] /\
     fst (Kitchen.run Kitchen.db_up [Kitchen.says Kitchen.one_recipe]
            Kitchen.plain_request)
       = Return recipes).
Proof.
  split.
  - eexists _, _.
    evaluate_first Hres.
    split; [exact Hres |]. split; [reflexivity |].
    destruct (generate_recipe_minimum_count Kitchen.lemmatize Json.loads
                Kitchen.core_repr Kitchen.table
                (Kitchen.scripted [Kitchen.says (Kitchen.verdict "NO" "None")])
                Kitchen.db_up Kitchen.short_request initial_world _ _
                kitchen_db_answers ltac:(intros x Hx; inversion Hx) Hres)
      as (Hlt & _ & _).
    unfold Kitchen.run. rewrite Hlt; [reflexivity | vm_compute; lia].
  - eexists _, _, _.
    evaluate_first Hres.
    split; [exact Hres |]. split; [reflexivity |].
    destruct (generate_recipe_minimum_count Kitchen.lemmatize Json.loads
                Kitchen.core_repr Kitchen.table
                (Kitchen.scripted [Kitchen.says Kitchen.one_recipe])
                Kitchen.db_up Kitchen.plain_request initial_world _ _
                kitchen_db_answers ltac:(intros x Hx Hy; inversion Hy) Hres)
      as (_ & Hge & _).
    unfold Kitchen.run. rewrite Hge; [| vm_compute; lia].
    vm_compute. reflexivity.
Defined.

Lemma generate_recipe_coverage_witness :
  exists acc w2,
    resolve_all Kitchen.lemmatize Json.loads Kitchen.core_repr Kitchen.table
      (Kitchen.scripted [Kitchen.says (Kitchen.verdict "YES" "None")])
      (map (normalize_ingredient Kitchen.lemmatize)
           (available_ingredients Kitchen.bland_request))
      (entry_world Kitchen.lemmatize Kitchen.bland_request initial_world)
      = (Return acc, w2) /\
    valid_ingredients acc = ["butter"; "salt"; "water"] /\
    ingredient_categories acc = [PyStr "dairy"; PyFloat PrimFloat.nan] /\
    fst (Kitchen.run Kitchen.db_up [Kitchen.says (Kitchen.verdict "YES" "None")]
           Kitchen.bland_request)
      = Raise (ValueError no_core_msg).
Proof.
  eexists _, _.
  evaluate_first Hres.
  split; [exact Hres |]. split; [reflexivity |]. split; [reflexivity |].
  destruct (generate_recipe_coverage Kitchen.lemmatize Json.loads
              Kitchen.core_repr Kitchen.table
              (Kitchen.scripted [Kitchen.says (Kitchen.verdict "YES" "None")])
              Kitchen.db_up Kitchen.bland_request initial_world _ _
              kitchen_db_answers ltac:(intros x Hx; inversion Hx) Hres)
    as (Hge & _).
  - apply meets_core_false. vm_compute. reflexivity.
  - unfold Kitchen.run. destruct Hge as [Hrun _]; [vm_compute; lia |].
    rewrite Hrun. reflexivity.
Defined.

Lemma generate_recipe_all_or_nothing_witness :
  (exists acc w2,
     resolve_all Kitchen.lemmatize Json.loads Kitchen.core_repr Kitchen.table
       (Kitchen.scripted [Kitchen.says "Sorry, no recipes today."])
       (map (normalize_ingredient Kitchen.lemmatize)
            (available_ingredients Kitchen.plain_request))
       (entry_world Kitchen.lemmatize Kitchen.plain_request initial_world)
       = (Return acc, w2) /\
     Json.loads (unfence (Str.strip "Sorry, no recipes today.")) = None /\
     fst (Kitchen.run Kitchen.db_up [Kitchen.says "Sorry, no recipes today."]
            Kitchen.plain_request)
       = Raise JSONDecodeError) /\
  (exists first second e,
     Json.loads (unfence (Str.strip Kitchen.untitled_recipe))
       = Some (PyList [first; second]) /\
     missing_field second /\
     fst (Kitchen.run Kitchen.db_up [Kitchen.says Kitchen.untitled_recipe]
            Kitchen.plain_request)
       = Raise e).
Proof.
  split.
  - eexists _, _.
    evaluate_first Hres.
    split; [exact Hres |].
    assert (Hjson : Json.loads (unfence (Str.strip "Sorry, no recipes today.")) = None)
      by (vm_compute; reflexivity).
    split; [exact Hjson |].
    destruct (generate_recipe_all_or_nothing Kitchen.lemmatize Json.loads
                Kitchen.core_repr Kitchen.table
                (Kitchen.scripted [Kitchen.says "Sorry, no recipes today."])
                Kitchen.db_up Kitchen.plain_request initial_world _ _
                "Sorry, no recipes today." []
                kitchen_db_answers ltac:(intros x Hx Hy; inversion Hy) Hres)
      as (Hnone & _).
    + vm_compute. lia.
    + vm_compute. reflexivity.
    + vm_compute. reflexivity.
    + exact (Hnone Hjson).
  - eassert (Hres : resolve_all Kitchen.lemmatize Json.loads Kitchen.core_repr
                      Kitchen.table
                      (Kitchen.scripted [Kitchen.says Kitchen.untitled_recipe])
                      (map (normalize_ingredient Kitchen.lemmatize)
                           (available_ingredients Kitchen.plain_request))
                      (entry_world Kitchen.lemmatize Kitchen.plain_request
                         initial_world)
                    = (Return _, _)) by (vm_compute; reflexivity).
    eassert (Hjson : Json.loads (unfence (Str.strip Kitchen.untitled_recipe))
                     = Some (PyList [_; _])) by (vm_compute; reflexivity).
    match type of Hjson with
    | _ = Some (PyList [?a; ?b]) => exists a, b
    end.
    match goal with
    | |- exists e, _ /\ ?B /\ _ => assert (Hmissing : B)
    end.
    { eexists _, "title". split; [reflexivity |].
      split; [left | reflexivity]. }
    destruct (generate_recipe_all_or_nothing Kitchen.lemmatize Json.loads
                Kitchen.core_repr Kitchen.table
                (Kitchen.scripted [Kitchen.says Kitchen.untitled_recipe])
                Kitchen.db_up Kitchen.plain_request initial_world _ _
                Kitchen.untitled_recipe []
                kitchen_db_answers ltac:(intros x Hx Hy; inversion Hy) Hres)
      as (_ & _ & Hentry & _).
    + vm_compute. lia.
    + vm_compute. reflexivity.
    + vm_compute. reflexivity.
    + destruct (Hentry _ _ Hjson ltac:(right; left) Hmissing) as [e He].
      exists e. split; [exact Hjson |]. split; [exact Hmissing | exact He].
Defined.

(** C5 as stated fails: the reply [{}] holds no list, and the request
    returns an empty batch instead of failing. *)
Lemma empty_object_reply_returns_empty_batch :
  Json.loads (unfence (Str.strip "{}")) = Some (PyDict []) /\
  fst (Kitchen.run Kitchen.db_up [Kitchen.says "{}"] Kitchen.plain_request)
    = Return [].
Proof. split; vm_compute; reflexivity. Qed.

Lemma valid_ingredients_subsequence_witness :
  exists acc w',
    resolve_all Kitchen.lemmatize Json.loads Kitchen.core_repr Kitchen.table
      (Kitchen.scripted [Kitchen.says (Kitchen.verdict "NO" "None")])
      ["chicken"; "rock"; "onion"] initial_world = (Return acc, w') /\
    valid_ingredients acc = ["chicken"; "onion"] /\
    (exists results,
       classified Kitchen.lemmatize Json.loads Kitchen.core_repr Kitchen.table
         (Kitchen.scripted [Kitchen.says (Kitchen.verdict "NO" "None")])
         ["chicken"; "rock"; "onion"] initial_world results w' /\
       valid_ingredients acc
         = kept Kitchen.lemmatize ["chicken"; "rock"; "onion"] results) /\
    valid_ingredients acc `sublist_of` ["chicken"; "rock"; "onion"] /\
    NoDup (valid_ingredients acc).
Proof.
  eexists _, _.
  evaluate_first Hres.
  split; [exact Hres |]. split; [reflexivity |].
  destruct (valid_ingredients_subsequence Kitchen.lemmatize Json.loads
              Kitchen.core_repr Kitchen.table
              (Kitchen.scripted [Kitchen.says (Kitchen.verdict "NO" "None")])
              _ _ _ _ Hres) as (results & Htrace & Hkept & Hsub & Hnodup).
  split; [exists results; split; [exact Htrace | exact Hkept] |].
  split; [exact Hsub |].
  apply Hnodup. decided.
Defined.

(** C6 as stated fails: two tokens with one canonical form are both
    kept, and both go into the prompt of the synthesis. *)
Lemma repeated_token_resolved_twice :
  map (normalize_ingredient Kitchen.lemmatize)
      (available_ingredients Kitchen.repeated_request)
    = ["chicken"; "chicken"; "onion"] /\
  calls (snd (Kitchen.run Kitchen.db_up [Kitchen.says Kitchen.one_recipe]
                Kitchen.repeated_request))
    = [recipe_request ["chicken"; "chicken"; "onion"] [] []] /\
  ~ NoDup ["chicken"; "chicken"; "onion"].
Proof.
  split; [vm_compute; reflexivity |]. split; [vm_compute; reflexivity |].
  intros H. apply NoDup_cons in H as [Hnotin _]. apply Hnotin. left.
Qed.

Lemma is_valid_ingredient_dataset_path_witness :
  Kitchen.resolve [] " Chicken"
    = (Return (Some {| res_ingredient := "chicken";
                       res_category := PyStr "protein" |}), initial_world) /\
  forall w2,
    fst (is_valid_ingredient Kitchen.lemmatize Json.loads Kitchen.core_repr
           Kitchen.table (Kitchen.scripted []) " Chicken" w2)
    = fst (Kitchen.resolve [] " Chicken").
Proof.
  destruct (is_valid_ingredient_dataset_path Kitchen.lemmatize Json.loads
              Kitchen.core_repr Kitchen.table (Kitchen.scripted [])
              " Chicken" initial_world) as (_ & Hrun & Hsame).
  - vm_compute. reflexivity.
  - split; [exact Hrun | exact Hsame].
Defined.

(** C7 as stated fails: salt is in the table, with a blank category;
    resolving it asks the endpoint, and the category is the endpoint's. *)
Lemma blank_category_asks_endpoint :
  Some "salt" ∈ Ingredient_column Kitchen.table /\
  get_ingredient_category Kitchen.table "salt" = PyStr EmptyString /\
  fst (Kitchen.resolve [Kitchen.says (Kitchen.verdict "YES" "carbs")] "salt")
    = Return (Some {| res_ingredient := "salt"; res_category := PyStr "carbs" |}) /\
  calls (snd (Kitchen.resolve [Kitchen.says (Kitchen.verdict "YES" "carbs")] "salt"))
    = [ingredient_request Kitchen.core_repr "salt"].
Proof.
  split; [decided |].
  repeat split; vm_compute; reflexivity.
Qed.

Lemma is_valid_ingredient_category_witness :
  (exists r w',
     Kitchen.resolve [Kitchen.says (Kitchen.verdict "yes" "None")] "Quinoa"
       = (Return (Some r), w') /\
     res_ingredient r = "quinoa" /\ res_category r = PyNone) /\
  (exists cell,
     (Some "butter", cell) ∈ ingredient_df Kitchen.table /\
     cell_value cell = PyStr "dairy").
Proof.
  split.
  - eexists _, _.
    evaluate_first Hres.
    split; [exact Hres |].
    destruct (is_valid_ingredient_category Kitchen.lemmatize Json.loads
                Kitchen.core_repr Kitchen.table
                (Kitchen.scripted [Kitchen.says (Kitchen.verdict "yes" "None")])
                "Quinoa" initial_world _ _ Hres) as [Hname _].
    split; [exact Hname | reflexivity].
  - assert (Hres : Kitchen.resolve [] "Butter"
                   = (Return (Some {| res_ingredient := "butter";
                                      res_category := PyStr "dairy" |}),
                      initial_world))
      by (vm_compute; reflexivity).
    destruct (is_valid_ingredient_category Kitchen.lemmatize Json.loads
                Kitchen.core_repr Kitchen.table (Kitchen.scripted [])
                "Butter" initial_world _ _ Hres)
      as [_ [(_ & _ & (before & cell & after & Hdf & _ & Hcell) & _)
             | (Hfalsy & _)]].
    + exists cell. split; [| symmetry; exact Hcell].
      rewrite Hdf. apply elem_of_app. right. left.
    + vm_compute in Hfalsy. discriminate Hfalsy.
Defined.

(** C9 as stated fails: the endpoint may name any category, and so may
    the table; neither is checked against the enumeration. *)
Lemma category_outside_enumeration :
  fst (Kitchen.resolve [Kitchen.says (Kitchen.verdict "YES" "dairy")] "quinoa")
    = Return (Some {| res_ingredient := "quinoa"; res_category := PyStr "dairy" |}) /\
  fst (Kitchen.resolve [] "butter")
    = Return (Some {| res_ingredient := "butter"; res_category := PyStr "dairy" |}) /\
  "dairy" ∉ CORE_CATEGORIES.
Proof.
  split; [vm_compute; reflexivity |]. split; [vm_compute; reflexivity |].
  decided.
Qed.

Lemma provenance_by_table_membership_witness :
  (exists recipe w',
     Kitchen.run Kitchen.db_up
       [Kitchen.says (Kitchen.verdict "YES" "None");
        Kitchen.says (Kitchen.verdict "YES" "carbs");
        Kitchen.says Kitchen.one_recipe]
       (Kitchen.request ["salt"; "quinoa"; "chicken"] [] [])
       = (Return [recipe], w') /\
     matched_with_database (debug_info recipe) = ["salt"; "chicken"] /\
     matched_via_llm (debug_info recipe) = ["quinoa"] /\
     exists acc,
       forall x, x ∈ valid_ingredients acc ->
         (x ∈ matched_with_database (debug_info recipe) <->
          Some x ∈ Ingredient_column Kitchen.table) /\
         (x ∈ matched_via_llm (debug_info recipe) <->
          Some x ∉ Ingredient_column Kitchen.table)) /\
  (exists acc1 w1,
     resolve_one Kitchen.lemmatize Json.loads Kitchen.core_repr Kitchen.table
       (Kitchen.scripted [Kitchen.says (Kitchen.verdict "YES" "None")])
       no_ingredients "salt" initial_world = (Return acc1, w1) /\
     calls w1 = [ingredient_request Kitchen.core_repr "salt"] /\
     matched_db acc1 = ["salt"] /\ matched_llm acc1 = []).
Proof.
  pose proof (provenance_by_table_membership Kitchen.lemmatize Json.loads
                Kitchen.core_repr Kitchen.table) as Hthm.
  split.
  - eexists _, _.
    evaluate_first Hrun.
    split; [exact Hrun |]. split; [reflexivity |]. split; [reflexivity |].
    destruct (Hthm (Kitchen.scripted
                      [Kitchen.says (Kitchen.verdict "YES" "None");
                       Kitchen.says (Kitchen.verdict "YES" "carbs");
                       Kitchen.says Kitchen.one_recipe])
                   Kitchen.db_up
                   (Kitchen.request ["salt"; "quinoa"; "chicken"] [] [])
                   initial_world) as [Hdebug _].
    destruct (Hdebug _ _ Hrun) as (w1 & acc & w2 & _ & Hlists).
    exists acc. intros x Hx. apply Hlists; [left | exact Hx].
  - eexists _, _.
    evaluate_first Hres.
    split; [exact Hres |].
    destruct (Hthm (Kitchen.scripted [Kitchen.says (Kitchen.verdict "YES" "None")])
                   Kitchen.db_up Kitchen.plain_request initial_world)
      as [_ Hsalt].
    apply (Hsalt "salt" no_ingredients initial_world
                 {| res_ingredient := "salt"; res_category := PyNone |}).
    + decided.
    + vm_compute. reflexivity.
    + vm_compute. reflexivity.
    + exact Hres.
Defined.

(** ** A classification reply that ends the request *)

(** C1 fails on the code: the reply ["YES"], with its quotes, is JSON but
    not the object asked for; [is_valid_ingredient] subscripts it outside
    the [try] of [call_llm_for_ingredient], and the [TypeError] ends the
    whole request although three ingredients had resolved.  Without the
    quotes the same reply is not JSON: the failure is absorbed, quinoa is
    dropped and the recipes come back. *)
Theorem quoted_reply_aborts_request :
  fst (Kitchen.run Kitchen.db_up [Kitchen.says (quoted "YES")]
         Kitchen.quinoa_request)
    = Raise (TypeError "string indices must be integers") /\
  (exists recipes,
     fst (Kitchen.run Kitchen.db_up [Kitchen.says "YES"; Kitchen.says Kitchen.one_recipe]
            Kitchen.quinoa_request) = Return recipes /\
     length recipes = 1).
Proof.
  split; [vm_compute; reflexivity |].
  eexists. split; [vm_compute; reflexivity | reflexivity].
Qed.

(** ** The scenarios of the specification *)

(** A: three ingredients of the table, one synthesis call, one recipe. *)
Example scenario_all_from_dataset :
  exists recipe,
    fst (Kitchen.run Kitchen.db_up [Kitchen.says Kitchen.one_recipe]
           (Kitchen.request ["chicken"; "onion"; "garlic"] ["chicken"] []))
      = Return [recipe] /\
    matched_with_database (debug_info recipe) = ["chicken"; "onion"; "garlic"] /\
    matched_via_llm (debug_info recipe) = [] /\
    calls (snd (Kitchen.run Kitchen.db_up [Kitchen.says Kitchen.one_recipe]
                  (Kitchen.request ["chicken"; "onion"; "garlic"] ["chicken"] [])))
      = [recipe_request ["chicken"; "onion"; "garlic"] ["chicken"] []].
Proof.
  eexists. split; [vm_compute; reflexivity |].
  repeat split; vm_compute; reflexivity.
Qed.

(** B: chicken liked and excluded. *)
Example scenario_conflict :
  fst (Kitchen.run Kitchen.db_up []
         (Kitchen.request ["chicken"] ["chicken"] ["chicken"]))
    = Raise (ValueError (conflict_msg ["chicken"])).
Proof. vm_compute. reflexivity. Qed.

(** C: one ingredient, which the endpoint does not know. *)
Example scenario_too_few :
  fst (Kitchen.run Kitchen.db_up [Kitchen.says (Kitchen.verdict "NO" "None")]
         (Kitchen.request ["saltshaker"] [] []))
    = Raise (ValueError not_enough_msg).
Proof. vm_compute. reflexivity. Qed.

(** A fenced reply is unwrapped before it is parsed. *)
Example scenario_fenced_reply :
  exists recipes,
    fst (Kitchen.run Kitchen.db_up
           [Kitchen.says ("```json" ++ String "010"%char
                          (Kitchen.one_recipe ++ String "010"%char "```"))]
           Kitchen.plain_request) = Return recipes /\
    length recipes = 1.
Proof. eexists. split; [vm_compute; reflexivity | reflexivity]. Qed.

(** A database that is down ends the request before any gate. *)
Example scenario_database_down :
  Kitchen.run Kitchen.db_down [] Kitchen.conflicting_request
    = (Raise (PyMongoError "connection refused"),
       logged [(ERROR, ErrorGeneratingRecipes (PyMongoError "connection refused"))]
              initial_world).
Proof. exact (generate_recipe_no_ping _ _ _ _ _ _ _ _ _ eq_refl). Qed.

(** * Further properties *)

(** ** Settings *)

(** X1: [Settings()] succeeds exactly when the three variables are set
    and non-empty; otherwise it raises the [ValueError] whose message
    joins the missing names, which are exactly the unset or empty
    variables, in the order MONGO_URI, MONGO_DB_NAME, GITHUB_TOKEN. *)
Theorem settings_init_missing (env : Settings.Env) :
  (Settings.init env = Return tt <->
   Settings.absent (Settings.MONGO_URI env) = false /\
   Settings.absent (Settings.MONGO_DB_NAME env) = false /\
   Settings.absent (Settings.GITHUB_TOKEN env) = false) /\
  (Settings.init env <> Return tt ->
   Settings.init env =
   Raise (ValueError ("Missing environment variables: "
                      ++ Str.join ", " (Settings.missing_vars env)))) /\
  Settings.missing_vars env `sublist_of` ["MONGO_URI"; "MONGO_DB_NAME"; "GITHUB_TOKEN"] /\
  ("MONGO_URI" ∈ Settings.missing_vars env <->
     Settings.absent (Settings.MONGO_URI env) = true) /\
  ("MONGO_DB_NAME" ∈ Settings.missing_vars env <->
     Settings.absent (Settings.MONGO_DB_NAME env) = true) /\
  ("GITHUB_TOKEN" ∈ Settings.missing_vars env <->
     Settings.absent (Settings.GITHUB_TOKEN env) = true).
Proof.
  unfold Settings.init, Settings.missing_vars.
  destruct (Settings.absent (Settings.MONGO_URI env));
    destruct (Settings.absent (Settings.MONGO_DB_NAME env));
    destruct (Settings.absent (Settings.GITHUB_TOKEN env)); cbn [app].
  all: split; [split; [first [discriminate | intros _; repeat split; reflexivity]
                      | intros (H1 & H2 & H3); first [discriminate | reflexivity]] |].
  all: split; [intros H; first [reflexivity | exfalso; apply H; reflexivity] |].
  all: split; [repeat first [apply sublist_nil | apply sublist_skip | apply sublist_cons] |].
  all: repeat split; intros H;
    first [reflexivity | discriminate H
          | apply (bool_decide_unpack _); vm_compute; exact I
          | exfalso; revert H; apply (bool_decide_unpack _); vm_compute; exact I].
Qed.

(** ** The validators of the request *)

Lemma check_entries_ok (available entries : list string) :
  (forall i, i ∈ entries -> Str.lower i ∈ map Str.lower available) ->
  Schema.check_entries available (map PyStr entries) = Return tt.
Proof.
  induction entries as [| i rest IH]; intros Hall; [reflexivity |].
  cbn [map Schema.check_entries].
  rewrite bool_decide_eq_true_2 by (apply Hall; left).
  apply IH. intros j Hj. apply Hall. right. exact Hj.
Qed.

Lemma check_entries_first_offender (available before : list string) (i : string)
    (after : list pyobj) :
  (forall j, j ∈ before -> Str.lower j ∈ map Str.lower available) ->
  Str.lower i ∉ map Str.lower available ->
  Schema.check_entries available (map PyStr before ++ PyStr i :: after)
  = Raise (ValueError (Schema.must_be_available i)).
Proof.
  induction before as [| j rest IH]; intros Hall Hi.
  - cbn [map app Schema.check_entries].
    rewrite bool_decide_eq_false_2 by exact Hi. reflexivity.
  - cbn [map app Schema.check_entries].
    rewrite bool_decide_eq_true_2 by (apply Hall; left).
    apply IH; [| exact Hi]. intros k Hk. apply Hall. right. exact Hk.
Qed.

(** X2: [validate_ingredients] hands a list of strings back unchanged
    when each entry is, ignoring ASCII case, one of the available
    ingredients; at the first entry that is not, it raises the
    [ValueError] naming that entry as written, whatever follows it; a
    value that is not a list is refused as such. *)
Theorem validate_ingredients_accepts (available : list string) :
  (forall entries,
     (forall i, i ∈ entries -> Str.lower i ∈ map Str.lower available) ->
     Schema.validate_ingredients available (PyList (map PyStr entries))
     = Return (PyList (map PyStr entries))) /\
  (forall before i after,
     (forall j, j ∈ before -> Str.lower j ∈ map Str.lower available) ->
     Str.lower i ∉ map Str.lower available ->
     Schema.validate_ingredients available (PyList (map PyStr before ++ PyStr i :: after))
     = Raise (ValueError (Schema.must_be_available i))) /\
  (forall v, (forall l, v <> PyList l) ->
     Schema.validate_ingredients available v
     = Raise (ValueError "Ingredients must be a list")).
Proof.
  split; [| split].
  - intros entries Hall. unfold Schema.validate_ingredients.
    rewrite (check_entries_ok _ _ Hall). reflexivity.
  - intros before i after Hall Hi. unfold Schema.validate_ingredients.
    rewrite (check_entries_first_offender _ _ _ _ Hall Hi). reflexivity.
  - intros v Hv. destruct v; try reflexivity. exfalso. eapply Hv. reflexivity.
Qed.

Lemma validate_ingredients_accepts_witness :
  Schema.validate_ingredients ["Chicken"; "onion"] (PyList [PyStr "CHICKEN"])
    = Return (PyList [PyStr "CHICKEN"]) /\
  Schema.validate_ingredients ["Chicken"; "onion"]
    (PyList [PyStr "onion"; PyStr "Leek"; PyInt 3])
    = Raise (ValueError "'Leek' must be in available_ingredients") /\
  Schema.validate_ingredients ["Chicken"] (PyStr "Chicken")
    = Raise (ValueError "Ingredients must be a list").
Proof.
  destruct (validate_ingredients_accepts ["Chicken"; "onion"]) as (Hok & Hbad & Hlist).
  split; [| split].
  - apply (Hok ["CHICKEN"]). intros i Hi.
    apply list_elem_of_singleton in Hi as ->. left.
  - apply (Hbad ["onion"] "Leek" [PyInt 3]).
    + intros j Hj. apply list_elem_of_singleton in Hj as ->. right. left.
    + apply (bool_decide_unpack _). vm_compute. exact I.
  - apply (Hlist (PyStr "Chicken")). intros l. discriminate.
Defined.

(** ** Stripping the fences of a reply *)

Lemma lstrip_by_length p (s : string) :
  String.length (Str.lstrip_by p s) <= String.length s.
Proof.
  induction s as [| c r IH]; [reflexivity |].
  cbn [Str.lstrip_by]. destruct (p c); cbn [String.length]; lia.
Qed.

Lemma lstrip_by_fixed_head p (c : ascii) (r : string) :
  Str.lstrip_by p (String c r) = String c r -> p c = false.
Proof.
  cbn [Str.lstrip_by]. destruct (p c); [| reflexivity].
  intros H. pose proof (lstrip_by_length p r) as Hlen.
  rewrite H in Hlen. cbn [String.length] in Hlen. lia.
Qed.

Lemma rstrip_by_length p (s : string) :
  String.length (Str.rstrip_by p s) <= String.length s.
Proof.
  induction s as [| c r IH]; [reflexivity |].
  cbn [Str.rstrip_by]. destruct (Str.rstrip_by p r) as [| d r'].
  - destruct (p c); cbn [String.length]; lia.
  - cbn [String.length] in *. lia.
Qed.

Lemma lstrip_by_all p (pre s : string) :
  all_chars p pre = true ->
  Str.lstrip_by p (pre ++ s) = Str.lstrip_by p s.
Proof.
  unfold all_chars. induction pre as [| c r IH]; intros H; [reflexivity |].
  cbn [list_ascii_of_string forallb] in H. apply andb_true_iff in H as [Hc Hr].
  rewrite string_app_cons. cbn [Str.lstrip_by]. rewrite Hc. apply IH, Hr.
Qed.

Lemma rstrip_by_all p (post : string) :
  all_chars p post = true -> Str.rstrip_by p post = EmptyString.
Proof.
  unfold all_chars. induction post as [| c r IH]; intros H; [reflexivity |].
  cbn [list_ascii_of_string forallb] in H. apply andb_true_iff in H as [Hc Hr].
  cbn [Str.rstrip_by]. rewrite (IH Hr), Hc. reflexivity.
Qed.

Lemma rstrip_by_app_all p (s post : string) :
  all_chars p post = true ->
  Str.rstrip_by p (s ++ post) = Str.rstrip_by p s.
Proof.
  intros H. induction s as [| c r IH].
  - apply rstrip_by_all, H.
  - rewrite string_app_cons. cbn [Str.rstrip_by]. rewrite IH. reflexivity.
Qed.

(** A string that [strip_by] leaves alone is left alone by each side. *)
Lemma strip_by_fixed p (s : string) :
  Str.strip_by p s = s ->
  Str.lstrip_by p s = s /\ Str.rstrip_by p s = s.
Proof.
  unfold Str.strip_by. intros H.
  assert (Hl : Str.lstrip_by p s = s).
  { destruct s as [| c r]; [reflexivity |].
    cbn [Str.lstrip_by] in *. destruct (p c); [| reflexivity].
    pose proof (rstrip_by_length p (Str.lstrip_by p r)) as H1.
    pose proof (lstrip_by_length p r) as H2.
    rewrite H in H1. cbn [String.length] in H1. lia. }
  split; [exact Hl |]. rewrite Hl in H. exact H.
Qed.

Lemma rstrip_by_keeps_head p (c : ascii) (r : string) :
  p c = false ->
  exists r', Str.rstrip_by p (String c r) = String c r'.
Proof.
  intros Hc. cbn [Str.rstrip_by]. destruct (Str.rstrip_by p r) as [| d r'].
  - rewrite Hc. eexists. reflexivity.
  - eexists. reflexivity.
Qed.

Lemma rstrip_by_cons p (c : ascii) (r : string) :
  Str.rstrip_by p (String c r) =
  match Str.rstrip_by p r with
  | EmptyString => if p c then EmptyString else String c EmptyString
  | r' => String c r'
  end.
Proof. reflexivity. Qed.

Lemma rstrip_by_idempotent p (s : string) :
  Str.rstrip_by p (Str.rstrip_by p s) = Str.rstrip_by p s.
Proof.
  induction s as [| c r IH]; [reflexivity |].
  rewrite rstrip_by_cons. destruct (Str.rstrip_by p r) as [| d r'] eqn:Hr.
  - destruct (p c) eqn:Hc; [reflexivity |].
    rewrite rstrip_by_cons. cbn [Str.rstrip_by]. rewrite Hc. reflexivity.
  - rewrite rstrip_by_cons, IH. reflexivity.
Qed.

Lemma strip_by_idempotent p (s : string) :
  Str.strip_by p (Str.strip_by p s) = Str.strip_by p s.
Proof.
  unfold Str.strip_by.
  assert (Hhead : Str.lstrip_by p (Str.rstrip_by p (Str.lstrip_by p s))
                  = Str.rstrip_by p (Str.lstrip_by p s)).
  { destruct (Str.lstrip_by p s) as [| c r] eqn:Hl; [reflexivity |].
    assert (Hc : p c = false).
    { apply (lstrip_by_fixed_head p c r).
      rewrite <- Hl. clear. induction s as [| d t IH]; [reflexivity |].
      cbn [Str.lstrip_by]. destruct (p d) eqn:Hd; [exact IH |].
      cbn [Str.lstrip_by]. rewrite Hd. reflexivity. }
    destruct (rstrip_by_keeps_head p c r Hc) as [r' ->].
    cbn [Str.lstrip_by]. rewrite Hc. reflexivity. }
  rewrite Hhead. apply rstrip_by_idempotent.
Qed.

(** Stripping a smaller set of characters changes nothing in a string
    already stripped of a larger one. *)
Lemma strip_by_smaller_set (p q : ascii -> bool) (s : string) :
  (forall c, q c = true -> p c = true) ->
  Str.strip_by p s = s -> Str.strip_by q s = s.
Proof.
  intros Hqp Hs. apply strip_by_fixed in Hs as [Hl Hr].
  assert (Hnot : forall c, p c = false -> q c = false).
  { intros c Hc. destruct (q c) eqn:Hq; [| reflexivity].
    rewrite (Hqp c Hq) in Hc. discriminate. }
  unfold Str.strip_by.
  assert (Hl' : Str.lstrip_by q s = s).
  { destruct s as [| c r]; [reflexivity |].
    cbn [Str.lstrip_by]. rewrite (Hnot c (lstrip_by_fixed_head p c r Hl)). reflexivity. }
  rewrite Hl'. clear Hl Hl'.
  induction s as [| c r IH]; [reflexivity |].
  cbn [Str.rstrip_by] in *.
  destruct (Str.rstrip_by p r) as [| d r'] eqn:Hpr.
  - destruct (p c) eqn:Hc; [discriminate Hr |].
    inversion Hr. subst r. cbn [Str.rstrip_by]. rewrite (Hnot c Hc). reflexivity.
  - inversion Hr as [Hr']. rewrite Hr'. rewrite (IH Hr'). rewrite <- Hr'. reflexivity.
Qed.

Lemma fence_char_backtick (c : ascii) :
  Str.mem_char c "```" = true -> fence_char c = true.
Proof.
  unfold fence_char. cbn [Str.mem_char].
  destruct (Ascii.eqb c "`"); [reflexivity | discriminate].
Qed.

(** X3: the second [strip] of l.214 never changes anything; stripping
    again changes nothing; and a payload wrapped in any run of the
    characters of the first [strip] (the backtick, j, s, o, n) on either
    side comes back as it was, provided it does not itself begin or end
    with one of them. *)
Theorem unfence_fenced :
  (forall s, unfence s = Str.strip_chars "```json" s) /\
  (forall s, unfence (unfence s) = unfence s) /\
  (forall pre body post,
     all_chars fence_char pre = true ->
     all_chars fence_char post = true ->
     Str.strip_chars "```json" body = body ->
     unfence (pre ++ body ++ post) = body).
Proof.
  assert (H1 : forall s, unfence s = Str.strip_chars "```json" s).
  { intros s. unfold unfence, Str.strip_chars.
    apply (strip_by_smaller_set (fun c => Str.mem_char c "```json")).
    - exact fence_char_backtick.
    - apply strip_by_idempotent. }
  split; [exact H1 |]. split.
  - intros s. rewrite !H1. apply strip_by_idempotent.
  - intros pre body post Hpre Hpost Hbody. rewrite H1.
    unfold Str.strip_chars in *. fold fence_char in *.
    apply strip_by_fixed in Hbody as [Hl Hr].
    unfold Str.strip_by. rewrite (lstrip_by_all _ _ _ Hpre).
    destruct body as [| c r].
    + change (EmptyString ++ post)%string with post.
      assert (Hall : Str.lstrip_by fence_char post = EmptyString).
      { pose proof (lstrip_by_all fence_char post EmptyString Hpost) as H.
        rewrite string_app_nil_r in H. exact H. }
      rewrite Hall. reflexivity.
    + rewrite string_app_cons. cbn [Str.lstrip_by].
      rewrite (lstrip_by_fixed_head _ _ _ Hl).
      rewrite <- string_app_cons, (rstrip_by_app_all _ _ _ Hpost). exact Hr.
Qed.

Lemma unfence_fenced_witness :
  unfence ("```json" ++ String "010"%char "[1, 2]" ++ String "010"%char "```")
  = String "010"%char "[1, 2]" ++ String "010"%char EmptyString.
Proof.
  destruct unfence_fenced as (_ & _ & Hfence).
  apply (Hfence "```json" (String "010"%char "[1, 2]" ++ String "010"%char EmptyString)
                "```"); vm_compute; reflexivity.
Defined.

(** ** What the steps of the pipeline leave alone *)

Lemma preserves_ret {X A} (f : World -> X) (a : A) : preserves f (ret a).
Proof. intros w. reflexivity. Qed.

Lemma preserves_raise {X A} (f : World -> X) (e : exn) : preserves f (@raise A e).
Proof. intros w. reflexivity. Qed.

Lemma preserves_bind {X A B} (f : World -> X) (m : M A) (k : A -> M B) :
  preserves f m -> (forall a, preserves f (k a)) -> preserves f (m ≫= k).
Proof.
  intros Hm Hk w. rewrite run_bind. specialize (Hm w).
  destruct (m w) as [[a | e] w1]; cbn [snd] in *.
  - rewrite (Hk a w1). exact Hm.
  - exact Hm.
Qed.

Lemma preserves_try_except {X A} (f : World -> X) (m : M A) (h : exn -> M A) :
  preserves f m -> (forall e, preserves f (h e)) -> preserves f (try_except m h).
Proof.
  intros Hm Hh w. unfold try_except. specialize (Hm w).
  destruct (m w) as [[a | e] w1]; cbn [snd] in *.
  - exact Hm.
  - rewrite (Hh e w1). exact Hm.
Qed.

Lemma preserves_for_each {X A B} (f : World -> X) (body : B -> A -> M B)
    (l : list A) (acc : B) :
  (forall acc x, preserves f (body acc x)) -> preserves f (for_each body l acc).
Proof.
  intros Hbody. revert acc. induction l as [| x l IH]; intros acc.
  - apply preserves_ret.
  - cbn [for_each]. apply preserves_bind; [apply Hbody | exact IH].
Qed.

Lemma preserves_comprehension {X A B} (f : World -> X) (g : A -> M B) (l : list A) :
  (forall x, preserves f (g x)) -> preserves f (comprehension g l).
Proof.
  intros Hg. induction l as [| x l IH].
  - apply preserves_ret.
  - cbn [comprehension]. apply preserves_bind; [apply Hg |].
    intros y. apply preserves_bind; [exact IH |].
    intros ys. apply preserves_ret.
Qed.

(** One step of a proof that a computation leaves [f] alone, for an [f]
    that logging does not change. *)
Ltac frame :=
  repeat match goal with
         | |- preserves _ (_ ≫= _) => apply preserves_bind; [| intros ?]
         | |- preserves _ (try_except _ _) => apply preserves_try_except; [| intros ?]
         | |- preserves _ (ret _) => apply preserves_ret
         | |- preserves _ (raise _) => apply preserves_raise
         | |- preserves _ (logger _ _) => intros ?; reflexivity
         | |- preserves _ (if ?b then _ else _) => destruct b
         | |- preserves _ (match ?x with _ => _ end) => destruct x
         end.

Lemma sends_at_most_weaken {A} (a b : nat) (m : M A) :
  a <= b -> sends_at_most a m -> sends_at_most b m.
Proof. intros Hab Hm w. specialize (Hm w). lia. Qed.

Lemma sends_nothing {A} (m : M A) : preserves calls m -> sends_at_most 0 m.
Proof. intros Hm w. rewrite (Hm w). lia. Qed.

Lemma sends_at_most_bind {A B} (a b : nat) (m : M A) (k : A -> M B) :
  sends_at_most a m -> (forall x, sends_at_most b (k x)) ->
  sends_at_most (a + b) (m ≫= k).
Proof.
  intros Hm Hk w. rewrite run_bind. specialize (Hm w).
  destruct (m w) as [[x | e] w1]; cbn [snd] in *.
  - specialize (Hk x w1). lia.
  - lia.
Qed.

Lemma sends_at_most_try_except {A} (a : nat) (m : M A) (h : exn -> M A) :
  sends_at_most a m -> (forall e, preserves calls (h e)) ->
  sends_at_most a (try_except m h).
Proof.
  intros Hm Hh w. unfold try_except. specialize (Hm w).
  destruct (m w) as [[x | e] w1]; cbn [snd] in *.
  - exact Hm.
  - rewrite (Hh e w1). exact Hm.
Qed.

Lemma sends_at_most_for_each {A B} (body : B -> A -> M B) (l : list A) (acc : B) :
  (forall acc x, sends_at_most 1 (body acc x)) ->
  sends_at_most (length l) (for_each body l acc).
Proof.
  intros Hbody. revert acc. induction l as [| x l IH]; intros acc.
  - apply sends_nothing, preserves_ret.
  - cbn [for_each length]. apply (sends_at_most_bind 1 (length l)); [apply Hbody | exact IH].
Qed.

Section Frames.

Context (lemmatize : string -> string)
        (json_loads : string -> option pyobj)
        (core_categories_repr : string)
        (ingredients_table : list (option string * option string))
        (client : nat -> ChatRequest -> ChatOutcome)
        (db_fault : DbOp -> option string).

Local Abbreviation normalize := (normalize_ingredient lemmatize).
Local Abbreviation category_of := (get_ingredient_category ingredients_table).
Local Abbreviation column := (Ingredient_column ingredients_table).
Local Abbreviation ask_llm :=
  (call_llm_for_ingredient json_loads core_categories_repr client).
Local Abbreviation is_valid :=
  (is_valid_ingredient lemmatize json_loads core_categories_repr
     ingredients_table client).
Local Abbreviation resolve_step :=
  (resolve_one lemmatize json_loads core_categories_repr ingredients_table client).
Local Abbreviation resolve :=
  (resolve_all lemmatize json_loads core_categories_repr ingredients_table client).
Local Abbreviation synth := (synthesize json_loads client).
Local Abbreviation pipeline :=
  (resolve_check_synthesize lemmatize json_loads core_categories_repr
     ingredients_table client).
Local Abbreviation generate :=
  (generate_recipe lemmatize json_loads core_categories_repr
     ingredients_table client db_fault).
Local Abbreviation entry := (entry_world lemmatize).
Local Abbreviation question := (ingredient_request core_categories_repr).

Lemma subscript_pure {X} (f : World -> X) (v : pyobj) (key : string) :
  preserves f (subscript v key).
Proof. unfold subscript. frame. Qed.

Lemma call_upper_pure {X} (f : World -> X) (v : pyobj) : preserves f (call_upper v).
Proof. unfold call_upper. frame. Qed.

Lemma iterate_pure {X} (f : World -> X) (v : pyobj) : preserves f (iterate v).
Proof. unfold iterate. frame. Qed.

Lemma stripped_content_pure {X} (f : World -> X) choices :
  preserves f (stripped_content choices).
Proof. unfold stripped_content. frame. Qed.

Lemma loads_pure {X} (f : World -> X) (text : string) :
  preserves f (loads json_loads text).
Proof. unfold loads. frame. Qed.

Lemma new_RecipeResponseWithDebug_pure {X} (f : World -> X) debug (recipe : pyobj) :
  preserves f (new_RecipeResponseWithDebug debug recipe).
Proof. unfold new_RecipeResponseWithDebug. frame. Qed.

Lemma chat_keeps_preferences (req : ChatRequest) :
  preserves preferences (chat_completions_create client req).
Proof.
  intros w. unfold chat_completions_create.
  destruct (client (length (calls w)) req); reflexivity.
Qed.

Lemma chat_sends_one (req : ChatRequest) :
  sends_at_most 1 (chat_completions_create client req).
Proof.
  intros w. unfold chat_completions_create.
  destruct (client (length (calls w)) req); cbn [snd called calls];
    rewrite length_app; cbn [length]; lia.
Qed.

Lemma is_valid_ingredient_keeps_preferences (ing : string) :
  preserves preferences (is_valid ing).
Proof.
  unfold is_valid_ingredient, call_llm_for_ingredient. frame;
    first [apply chat_keeps_preferences | apply stripped_content_pure
          | apply loads_pure | apply subscript_pure | apply call_upper_pure].
Qed.

Lemma resolve_all_keeps_preferences (available : list string) :
  preserves preferences (resolve available).
Proof.
  apply preserves_for_each. intros acc ing. unfold resolve_one.
  apply preserves_bind; [apply is_valid_ingredient_keeps_preferences |].
  intros [r |]; frame.
Qed.

Lemma synthesize_keeps_preferences (acc : Resolved) (liked excluded : list string) :
  preserves preferences (synth acc liked excluded).
Proof.
  unfold synthesize. frame;
    first [apply chat_keeps_preferences | apply stripped_content_pure
          | apply loads_pure | apply iterate_pure
          | apply preserves_comprehension; intros;
            apply new_RecipeResponseWithDebug_pure].
Qed.

Lemma check_conflict_pure {X} (f : World -> X) (liked excluded : list string) :
  (forall es w, f (logged es w) = f w) ->
  preserves f (check_conflict liked excluded).
Proof.
  intros Hlog. unfold check_conflict.
  destruct (elements (conflicting_ingredients liked excluded)) as [| n names].
  - apply preserves_ret.
  - apply preserves_bind; [intros w; apply Hlog | intros; apply preserves_raise].
Qed.

Lemma resolve_check_synthesize_keeps_preferences (available liked excluded : list string) :
  preserves preferences (pipeline available liked excluded).
Proof.
  unfold resolve_check_synthesize, check_minimum, check_coverage.
  apply preserves_bind; [apply resolve_all_keeps_preferences |].
  intros acc. frame. apply synthesize_keeps_preferences.
Qed.

(** X4: with the database answering, the preferences of the request
    are in the store after [generate_recipe], as they were received (not
    normalized), whether the request returns recipes or fails at a gate,
    in the loop or in the synthesis; nothing after the save touches the
    store. *)
Theorem generate_recipe_saves_first (request : RecipeRequest) (w : World) :
  db_answers db_fault ->
  preferences (snd (generate request w)) =
  <[user_id request := (liked_ingredients request, excluded_ingredients request)]>
    (preferences w).
Proof.
  intros Hdb.
  rewrite (generate_recipe_entry lemmatize json_loads core_categories_repr
             ingredients_table client db_fault request w Hdb).
  assert (Hkeep : preserves preferences
            (try_except
               (check_conflict (map normalize (liked_ingredients request))
                               (map normalize (excluded_ingredients request));;
                pipeline (map normalize (available_ingredients request))
                         (map normalize (liked_ingredients request))
                         (map normalize (excluded_ingredients request)))
               log_and_reraise)).
  { apply preserves_try_except.
    - apply preserves_bind.
      + apply check_conflict_pure. reflexivity.
      + intros _. apply resolve_check_synthesize_keeps_preferences.
    - intros e. unfold log_and_reraise. frame. }
  rewrite (Hkeep (entry request w)). reflexivity.
Qed.

Lemma db_guard_pure {X} (f : World -> X) (op : DbOp) : preserves f (db_guard db_fault op).
Proof. unfold db_guard. frame. Qed.

Lemma save_preference_keeps_calls (user : string) (liked excluded : list string) :
  preserves calls (save_preference db_fault user liked excluded).
Proof.
  unfold save_preference, find_one, write_one.
  frame; first [apply db_guard_pure | intros ?; reflexivity].
Qed.

Lemma is_valid_ingredient_sends_one (ing : string) : sends_at_most 1 (is_valid ing).
Proof.
  unfold is_valid_ingredient.
  destruct (truthy (category_of (normalize ing))).
  - apply (sends_at_most_weaken 0); [lia | apply sends_nothing, preserves_ret].
  - apply (sends_at_most_bind 0 1); [apply sends_nothing; intros ?; reflexivity |].
    intros _. apply (sends_at_most_bind 1 0).
    + unfold call_llm_for_ingredient.
      apply sends_at_most_try_except; [| intros e; frame].
      apply (sends_at_most_bind 1 0); [apply chat_sends_one |].
      intros choices. apply sends_nothing.
      frame; first [apply stripped_content_pure | apply loads_pure].
    + intros v. apply sends_nothing.
      frame; first [apply subscript_pure | apply call_upper_pure].
Qed.

Lemma resolve_all_sends (available : list string) :
  sends_at_most (length available) (resolve available).
Proof.
  apply sends_at_most_for_each. intros acc ing. unfold resolve_one.
  apply (sends_at_most_bind 1 0); [apply is_valid_ingredient_sends_one |].
  intros [r |]; apply sends_nothing; frame.
Qed.

Lemma synthesize_sends_one (acc : Resolved) (liked excluded : list string) :
  sends_at_most 1 (synth acc liked excluded).
Proof.
  unfold synthesize. apply (sends_at_most_bind 1 0); [apply chat_sends_one |].
  intros choices. apply sends_nothing.
  frame; first [apply stripped_content_pure | apply loads_pure | apply iterate_pure
               | apply preserves_comprehension; intros;
                 apply new_RecipeResponseWithDebug_pure].
Qed.

(** X5: whatever its outcome, [generate_recipe] sends at most one
    request to the chat endpoint for each available ingredient, and one
    more for the synthesis. *)
Theorem generate_recipe_sends (request : RecipeRequest) (w : World) :
  length (calls (snd (generate request w)))
  <= length (calls w) + length (available_ingredients request) + 1.
Proof.
  assert (H : sends_at_most (length (available_ingredients request) + 1)
                (generate request)).
  { unfold generate_recipe.
    apply sends_at_most_try_except; [| intros e; unfold log_and_reraise; frame].
    apply (sends_at_most_bind 0); [apply sends_nothing, db_guard_pure |]. intros _.
    apply (sends_at_most_bind 0); [apply sends_nothing; intros ?; reflexivity |]. intros _.
    apply (sends_at_most_bind 0); [apply sends_nothing, save_preference_keeps_calls |].
    intros _.
    apply (sends_at_most_bind 0); [apply sends_nothing; intros ?; reflexivity |]. intros _.
    apply (sends_at_most_bind 0); [apply sends_nothing; intros ?; reflexivity |]. intros _.
    apply (sends_at_most_bind 0); [apply sends_nothing; intros ?; reflexivity |]. intros _.
    apply (sends_at_most_bind 0); [apply sends_nothing; intros ?; reflexivity |]. intros _.
    apply (sends_at_most_bind 0);
      [apply sends_nothing, check_conflict_pure; reflexivity |]. intros _.
    unfold resolve_check_synthesize.
    apply (sends_at_most_bind (length (available_ingredients request)) 1).
    - rewrite <- (length_map normalize). apply resolve_all_sends.
    - intros acc.
      apply (sends_at_most_bind 0); [apply sends_nothing; intros ?; reflexivity |]. intros _.
      apply (sends_at_most_bind 0); [apply sends_nothing; intros ?; reflexivity |]. intros _.
      apply (sends_at_most_bind 0); [apply sends_nothing; intros ?; reflexivity |]. intros _.
      apply (sends_at_most_bind 0); [apply sends_nothing; intros ?; reflexivity |]. intros _.
      apply (sends_at_most_bind 0);
        [apply sends_nothing; unfold check_minimum; frame |]. intros _.
      apply (sends_at_most_bind 0);
        [apply sends_nothing; unfold check_coverage; frame |]. intros _.
      apply synthesize_sends_one. }
  specialize (H w). lia.
Qed.

Lemma category_of_hashable (n : string) : hashable (category_of n) = true.
Proof.
  destruct (get_ingredient_category_row ingredients_table n)
    as [[-> _] | (cell & -> & _)]; [reflexivity |].
  destruct cell; reflexivity.
Qed.

Lemma category_of_truthy_in_column (n : string) :
  truthy (category_of n) = true -> Some n ∈ column.
Proof.
  intros Htruthy.
  destruct (get_ingredient_category_row ingredients_table n)
    as [[Hnone _] | (cell & _ & Hin)].
  - rewrite Hnone in Htruthy. discriminate Htruthy.
  - unfold Ingredient_column.
    apply (list_elem_of_fmap_2 fst) in Hin. exact Hin.
Qed.

Lemma for_each_resolve_one_dataset (l : list string) (acc0 : Resolved) (w : World) :
  (forall ing, ing ∈ l -> truthy (category_of (normalize ing)) = true) ->
  for_each resolve_step l acc0 w =
  (Return {| valid_ingredients := (valid_ingredients acc0 ++ map normalize l)%list;
             matched_db := (matched_db acc0 ++ map normalize l)%list;
             matched_llm := matched_llm acc0;
             ingredient_categories :=
               (ingredient_categories acc0
                ++ map (fun ing => category_of (normalize ing)) l)%list |}, w).
Proof.
  revert acc0. induction l as [| ing l IH]; intros acc0 Hall.
  - cbn [for_each map]. rewrite !app_nil_r. destruct acc0; reflexivity.
  - cbn [for_each]. rewrite run_bind.
    assert (Htruthy : truthy (category_of (normalize ing)) = true)
      by (apply Hall; left).
    unfold resolve_one at 1. rewrite run_bind.
    rewrite (is_valid_ingredient_dataset lemmatize json_loads core_categories_repr
               ingredients_table client ing w Htruthy).
    cbn [res_category res_ingredient]. rewrite Htruthy, category_of_hashable.
    rewrite run_bind. cbn [ret].
    rewrite bool_decide_eq_true_2 by (apply category_of_truthy_in_column, Htruthy).
    cbn [ret]. rewrite IH by (intros j Hj; apply Hall; right; exact Hj).
    cbn [valid_ingredients matched_db matched_llm ingredient_categories map].
    rewrite <- !app_assoc. reflexivity.
Qed.

(** X6: when every available ingredient has a truthy category in the
    table, the loop keeps all of them, in order and with their
    repetitions, lists them all as matched with the database, collects
    their categories, and leaves the world as it was: nothing is logged
    and no request goes to the endpoint. *)
Theorem resolve_all_from_dataset (available : list string) (w : World) :
  (forall ing, ing ∈ available -> truthy (category_of (normalize ing)) = true) ->
  resolve available w =
  (Return {| valid_ingredients := map normalize available;
             matched_db := map normalize available;
             matched_llm := [];
             ingredient_categories :=
               map (fun ing => category_of (normalize ing)) available |}, w).
Proof.
  intros Hall. unfold resolve_all.
  rewrite (for_each_resolve_one_dataset available no_ingredients w Hall).
  reflexivity.
Qed.

(** X7: the table is looked up by the lower-cased, space-free form of
    its entries, and the first row that carries a name decides: for a
    row (name, category) with no earlier row of the same form, the form
    of the name finds the form of the category (NaN for a missing
    cell). *)
Theorem get_ingredient_category_first_row
    (before after : list (option string * option string))
    (name : string) (category : option string) :
  ingredients_table = (before ++ (Some name, category) :: after)%list ->
  (forall row, row ∈ before ->
     preprocess (fst row) <> Some (Str.remove_spaces (Str.lower name))) ->
  category_of (Str.remove_spaces (Str.lower name)) = cell_value (preprocess category).
Proof.
  intros Htable Hbefore.
  assert (Hnil : filter (fun row : option string * option string =>
                           fst row = Some (Str.remove_spaces (Str.lower name)))
                   (map (fun row => (preprocess (fst row), preprocess (snd row))) before)
                 = []).
  { clear Htable. induction before as [| row rest IH]; [reflexivity |].
    cbn [map]. rewrite filter_cons_False.
    - apply IH. intros r Hr. apply Hbefore. right. exact Hr.
    - cbn [fst]. apply Hbefore. left. }
  unfold get_ingredient_category, ingredient_df.
  rewrite Htable, map_app, filter_app, Hnil.
  cbn [app map]. rewrite filter_cons_True by reflexivity.
  reflexivity.
Qed.

(** X8: with the database answering, a liked entry and an excluded
    entry, both of ASCII characters, that differ only by the case of
    letters and by spaces are one canonical ingredient: the request
    fails with the conflict [ValueError], which names that ingredient,
    and no request goes to the endpoint. *)
Theorem generate_recipe_conflict_up_to_case
    (request : RecipeRequest) (w : World) (a b : string) :
  db_answers db_fault ->
  a ∈ liked_ingredients request ->
  b ∈ excluded_ingredients request ->
  ascii_only a = true ->
  ascii_only b = true ->
  same_up_to is_blank a b ->
  exists names,
    normalize a ∈ names /\
    fst (generate request w) = Raise (ValueError (conflict_msg names)) /\
    calls (snd (generate request w)) = calls w.
Proof.
  intros Hdb Ha Hb Hascii_a Hascii_b Hsame.
  assert (Hnorm : normalize a = normalize b).
  { unfold normalize_ingredient. f_equal.
    apply same_up_to_blank_skeleton; assumption. }
  assert (Hl : normalize a ∈ map normalize (liked_ingredients request))
    by (apply list_elem_of_fmap_2, Ha).
  assert (He : normalize a ∈ map normalize (excluded_ingredients request))
    by (rewrite Hnorm; apply list_elem_of_fmap_2, Hb).
  destruct (check_conflict_rejects _ _ (entry request w) _ Hl He) as [Hin Hrun].
  eexists. split; [exact Hin |].
  rewrite (generate_recipe_entry lemmatize json_loads core_categories_repr
             ingredients_table client db_fault request w Hdb).
  rewrite (try_except_raised _ _ _ _ (bind_raises _ _ _ _ _ Hrun)).
  split; reflexivity.
Qed.

(** A save that returns has left the store and the log in one known
    state. *)
Lemma save_preference_returned (user : string) (liked excluded : list string)
    (w : World) u w1 :
  save_preference db_fault user liked excluded w = (Return u, w1) ->
  w1 = stored user liked excluded
         (logged [(INFO, SavingPreference user);
                  (INFO, match preferences w !! user with
                         | Some _ => UpdatingPreference user
                         | None => CreatingPreference user
                         end)] w).
Proof.
  unfold save_preference, try_except, find_one, write_one, db_guard.
  rewrite run_bind. cbn [logger]. rewrite run_bind, run_bind.
  destruct (db_fault FindOne) as [msg |]; [discriminate |].
  cbn [ret]. cbn [stored_preference preferences logged].
  destruct (preferences w !! user) as [p |].
  - rewrite run_bind. cbn [logger]. rewrite run_bind.
    destruct (db_fault UpdateOne) as [msg |]; [discriminate |].
    cbn [ret store_preference]. rewrite logged_logged.
    intros H. inversion H. reflexivity.
  - rewrite run_bind. cbn [logger]. rewrite run_bind.
    destruct (db_fault InsertOne) as [msg |]; [discriminate |].
    cbn [ret store_preference]. rewrite logged_logged.
    intros H. inversion H. reflexivity.
Qed.

(** A request that returns recipes, step by step: the ping was
    answered, the loop ran in the world [entry_world] and returned, both
    gates were passed, and the synthesis ran in the world the loop left,
    the four messages of l.180-183 added. *)
Lemma generate_recipe_returned_run (request : RecipeRequest) (w : World) recipes w' :
  generate request w = (Return recipes, w') ->
  db_fault Ping = None /\
  (forall x, x ∈ map normalize (liked_ingredients request) ->
             x ∉ map normalize (excluded_ingredients request)) /\
  exists acc w2,
    resolve (map normalize (available_ingredients request)) (entry request w)
      = (Return acc, w2) /\
    3 <= length (valid_ingredients acc) /\
    meets_core (ingredient_categories acc) = true /\
    synth acc (map normalize (liked_ingredients request))
              (map normalize (excluded_ingredients request)) (gates_world acc w2)
      = (Return recipes, w').
Proof.
  unfold generate_recipe, try_except.
  match goal with
  | |- (let (_, _) := ?body in _) = _ -> _ =>
      destruct body as [[a | e] wz] eqn:Hbody; [| discriminate]
  end.
  intros H. inversion H. subst. clear H.
  apply bind_returned in Hbody as (u0 & w0 & Hping & Hbody).
  assert (Hanswered : db_fault Ping = None /\ w0 = w).
  { unfold db_guard in Hping. destruct (db_fault Ping); [discriminate Hping |].
    inversion Hping. split; reflexivity. }
  destruct Hanswered as [Hanswered ->].
  split; [exact Hanswered |].
  apply bind_returned in Hbody as (u1 & w1 & Hlog1 & Hbody).
  cbn [logger] in Hlog1. inversion Hlog1. subst u1 w1. clear Hlog1.
  apply bind_returned in Hbody as (u2 & w2 & Hsave & Hbody).
  apply save_preference_returned in Hsave. subst w2.
  apply bind_returned in Hbody as (u3 & w3 & Hlog3 & Hbody).
  cbn [logger] in Hlog3. inversion Hlog3. subst u3 w3. clear Hlog3.
  cbv zeta in Hbody.
  apply bind_returned in Hbody as (u4 & w4 & Hlog4 & Hbody).
  cbn [logger] in Hlog4. inversion Hlog4. subst u4 w4. clear Hlog4.
  apply bind_returned in Hbody as (u5 & w5 & Hlog5 & Hbody).
  cbn [logger] in Hlog5. inversion Hlog5. subst u5 w5. clear Hlog5.
  apply bind_returned in Hbody as (u6 & w6 & Hlog6 & Hbody).
  cbn [logger] in Hlog6. inversion Hlog6. subst u6 w6. clear Hlog6.
  match type of Hbody with
  | (check_conflict _ _ ≫= _) ?w1 = _ =>
      replace w1 with (entry request w) in Hbody
  end.
  2: { unfold entry_world, logged, stored. cbn.
       rewrite <- !app_assoc. reflexivity. }
  apply bind_returned in Hbody as (u7 & w7 & Hconflict & Hbody).
  assert (Hdisjoint : (forall x, x ∈ map normalize (liked_ingredients request) ->
                                 x ∉ map normalize (excluded_ingredients request))
                      /\ w7 = entry request w).
  { unfold check_conflict in Hconflict.
    destruct (elements (conflicting_ingredients
                          (map normalize (liked_ingredients request))
                          (map normalize (excluded_ingredients request))))
      as [| y ys] eqn:Hnames; [| discriminate Hconflict].
    inversion Hconflict. split; [| reflexivity].
    intros c Hl He. apply elements_empty_inv in Hnames.
    assert (Hc : c ∈ conflicting_ingredients
                       (map normalize (liked_ingredients request))
                       (map normalize (excluded_ingredients request))).
    { unfold conflicting_ingredients.
      rewrite elem_of_intersection, !elem_of_list_to_set. done. }
    rewrite Hnames in Hc. exact (not_elem_of_empty c Hc). }
  destruct Hdisjoint as [Hdisjoint ->].
  split; [exact Hdisjoint |].
  unfold resolve_check_synthesize in Hbody.
  apply bind_returned in Hbody as (acc & wl & Hres & Hbody).
  rewrite run_bind in Hbody. cbn [logger] in Hbody.
  rewrite run_bind in Hbody. cbn [logger] in Hbody.
  rewrite run_bind in Hbody. cbn [logger] in Hbody.
  rewrite run_bind in Hbody. cbn [logger] in Hbody.
  rewrite !logged_logged in Hbody. cbn [app] in Hbody.
  fold (gates_world acc wl) in Hbody.
  rewrite run_bind, check_minimum_run in Hbody.
  destruct (Nat.ltb_spec (length (valid_ingredients acc)) 3); [discriminate Hbody |].
  rewrite run_bind, check_coverage_run in Hbody.
  destruct (meets_core (ingredient_categories acc)) eqn:Hcore; [| discriminate Hbody].
  exists acc, wl. split; [exact Hres |]. split; [lia |].
  split; [exact Hcore | exact Hbody].
Qed.

(** X9: recipes come back only from a request that went through
    everything: the database answered the ping, liked and excluded share
    no canonical ingredient, at least three ingredients were available,
    the loop, run on them in the world the save left, kept at least
    three and collected a core category, and the endpoint answered the
    synthesis request for the kept ingredients with a text that, fences
    stripped, is JSON. *)
Theorem generate_recipe_returned_only_if
    (request : RecipeRequest) (w : World) recipes w' :
  generate request w = (Return recipes, w') ->
  db_fault Ping = None /\
  (forall x, x ∈ map normalize (liked_ingredients request) ->
             x ∉ map normalize (excluded_ingredients request)) /\
  3 <= length (available_ingredients request) /\
  exists acc w2 s rest v,
    resolve (map normalize (available_ingredients request)) (entry request w)
      = (Return acc, w2) /\
    3 <= length (valid_ingredients acc) /\
    meets_core (ingredient_categories acc) = true /\
    client (length (calls w2))
           (recipe_request (valid_ingredients acc)
              (map normalize (liked_ingredients request))
              (map normalize (excluded_ingredients request)))
      = ChatCompletion (Some s :: rest) /\
    json_loads (unfence (Str.strip s)) = Some v.
Proof.
  intros Hgen.
  destruct (generate_recipe_returned_run request w recipes w' Hgen)
    as (Hping & Hdisjoint & acc & w2 & Hres & Hge & Hcore & Hsyn).
  split; [exact Hping |]. split; [exact Hdisjoint |]. split.
  - pose proof Hres as Hres'.
    apply (resolve_all_returned lemmatize json_loads core_categories_repr
             ingredients_table client) in Hres' as (Hsub & _ & _).
    apply sublist_length in Hsub. rewrite !length_map in Hsub. lia.
  - rewrite (synthesize_run json_loads client) in Hsyn. cbv zeta in Hsyn.
    change (calls (gates_world acc w2)) with (calls w2) in Hsyn.
    destruct (client (length (calls w2)) _) as [e | [| [s |] rest]] eqn:Hclient;
      try discriminate Hsyn.
    destruct (json_loads (unfence (Str.strip s))) as [v |] eqn:Hjson;
      [| discriminate Hsyn].
    exists acc, w2, s, rest, v. done.
Qed.

(** X10: all the recipes of one batch carry one and the same debug
    record: [matched_with_database] and [matched_via_llm] are the two
    provenance lists the loop of this run built, [raw_llm_response] is
    the text with which the endpoint answered the synthesis request of
    this run, stripped of its outer white space, and
    [final_liked_ingredients] and [final_excluded_ingredients] are
    empty. *)
Theorem generate_recipe_one_debug_record
    (request : RecipeRequest) (w : World) recipes w' :
  generate request w = (Return recipes, w') ->
  exists acc w2 s rest,
    resolve (map normalize (available_ingredients request)) (entry request w)
      = (Return acc, w2) /\
    client (length (calls w2))
           (recipe_request (valid_ingredients acc)
              (map normalize (liked_ingredients request))
              (map normalize (excluded_ingredients request)))
      = ChatCompletion (Some s :: rest) /\
    forall recipe, recipe ∈ recipes ->
      debug_info recipe =
      {| matched_with_database := matched_db acc;
         matched_via_llm := matched_llm acc;
         final_liked_ingredients := [];
         final_excluded_ingredients := [];
         raw_llm_response := Str.strip s |}.
Proof.
  intros Hgen.
  destruct (generate_recipe_returned_run request w recipes w' Hgen)
    as (_ & _ & acc & w2 & Hres & _ & _ & Hsyn).
  rewrite (synthesize_run json_loads client) in Hsyn. cbv zeta in Hsyn.
  change (calls (gates_world acc w2)) with (calls w2) in Hsyn.
  destruct (client (length (calls w2)) _) as [e | [| [s |] rest]] eqn:Hclient;
    try discriminate Hsyn.
  destruct (json_loads (unfence (Str.strip s))) as [v |]; [| discriminate Hsyn].
  apply bind_returned in Hsyn as (items & wi & _ & Hall).
  apply comprehension_returned in Hall.
  exists acc, w2, s, rest. split; [exact Hres |]. split; [exact Hclient |].
  clear Hgen. intros recipe Hin.
  induction Hall as [| x y l k (wa & wb & Hxy) _ IH]; [inversion Hin |].
  apply elem_of_cons in Hin as [-> | Hin]; [| exact (IH Hin)].
  exact (new_RecipeResponseWithDebug_debug _ _ _ _ _ Hxy).
Qed.

(** X11: [call_llm_for_ingredient] never raises and sends exactly one
    request, the question about the ingredient it was given.  What it
    returns is decided by the answer to that request: the parsed value,
    whatever its shape, when the first choice carries a text that,
    stripped of outer white space, is JSON; [None] in every other case -
    the endpoint raised, sent no choice, sent a choice without content,
    or sent a text that is not JSON.  The stored preferences are not
    touched. *)
Theorem call_llm_for_ingredient_absorbs (n : string) (w : World) :
  fst (ask_llm n w) =
  Return match client (length (calls w)) (question n) with
         | ChatCompletion (Some s :: _) =>
             match json_loads (Str.strip s) with
             | Some v => v
             | None => PyNone
             end
         | _ => PyNone
         end /\
  calls (snd (ask_llm n w)) = (calls w ++ [question n])%list /\
  preferences (snd (ask_llm n w)) = preferences w.
Proof.
  rewrite (call_llm_for_ingredient_run json_loads core_categories_repr client n w).
  destruct (client (length (calls w)) (question n)) as [e | [| [s |] rest]];
    try (repeat split; reflexivity).
  destruct (json_loads (Str.strip s)) as [v |]; repeat split; reflexivity.
Qed.

End Frames.

(** ** The preference store *)

Lemma run_bind_D {A B} (m : Db.D A) (k : A -> Db.D B) (s : Db.Store) :
  (m ≫= k) s =
  match m s with
  | (Db.Done a, s') => k a s'
  | (Db.Thrown r, s') => (Db.Thrown r, s')
  end.
Proof. reflexivity. Qed.

Lemma first_of_user (user : string) (docs : list Db.Document) d :
  Db.first_of user docs = Some d -> Db.user_id d = user /\ d ∈ docs.
Proof.
  unfold Db.first_of. intros H. apply find_some in H as [Hin Hd].
  split; [apply bool_decide_eq_true in Hd; exact Hd | apply list_elem_of_In, Hin].
Qed.

Lemma first_of_none (user : string) (docs : list Db.Document) :
  Db.first_of user docs = None <-> user ∉ map Db.user_id docs.
Proof.
  unfold Db.first_of. induction docs as [| d rest IH].
  - split; [intros _; apply not_elem_of_nil | reflexivity].
  - cbn [find map]. rewrite not_elem_of_cons. case_bool_decide as Hd.
    + split; [discriminate | intros [Hne _]; congruence].
    + rewrite IH. split; [intros H; split; [congruence | exact H] | tauto].
Qed.

Lemma first_of_set_first (user : string) liked excluded (docs : list Db.Document) d :
  Db.first_of user docs = Some d ->
  Db.first_of user (Db.set_first user liked excluded docs) =
  Some {| Db._id := Db._id d; Db.user_id := user;
          Db.liked_ingredients := liked; Db.excluded_ingredients := excluded |}.
Proof.
  unfold Db.first_of. induction docs as [| d' rest IH]; [discriminate |].
  cbn [find Db.set_first]. case_bool_decide as Hd.
  - intros H. inversion H. subst d'. cbn [find Db.user_id].
    rewrite bool_decide_eq_true_2 by exact Hd. rewrite Hd. reflexivity.
  - intros H. cbn [find]. rewrite bool_decide_eq_false_2 by exact Hd. exact (IH H).
Qed.

Lemma first_of_append (user : string) (docs : list Db.Document) d :
  Db.first_of user docs = None -> Db.user_id d = user ->
  Db.first_of user (docs ++ [d]) = Some d.
Proof.
  unfold Db.first_of. intros Hnone Hd. induction docs as [| d' rest IH].
  - cbn [app find]. rewrite bool_decide_eq_true_2 by exact Hd. reflexivity.
  - cbn [app find] in *. case_bool_decide; [discriminate Hnone | exact (IH Hnone)].
Qed.

Lemma first_of_set_first_other (user other : string) liked excluded
    (docs : list Db.Document) :
  other <> user ->
  Db.first_of other (Db.set_first user liked excluded docs) = Db.first_of other docs.
Proof.
  unfold Db.first_of. intros Hne. induction docs as [| d rest IH]; [reflexivity |].
  cbn [Db.set_first find]. case_bool_decide as Hd.
  - cbn [find Db.user_id]. rewrite !bool_decide_eq_false_2 by congruence. reflexivity.
  - cbn [find]. rewrite IH. reflexivity.
Qed.

Lemma first_of_append_other (user other : string) (docs : list Db.Document) d :
  other <> user -> Db.user_id d = user ->
  Db.first_of other (docs ++ [d]) = Db.first_of other docs.
Proof.
  unfold Db.first_of. intros Hne Hd. induction docs as [| d' rest IH].
  - cbn [app find]. rewrite bool_decide_eq_false_2 by congruence. reflexivity.
  - cbn [app find]. rewrite IH. reflexivity.
Qed.

Lemma first_of_drop_first_other (user other : string) (docs : list Db.Document) :
  other <> user ->
  Db.first_of other (Db.drop_first user docs) = Db.first_of other docs.
Proof.
  unfold Db.first_of. intros Hne. induction docs as [| d rest IH]; [reflexivity |].
  cbn [Db.drop_first find]. case_bool_decide as Hd.
  - rewrite bool_decide_eq_false_2 by congruence. reflexivity.
  - cbn [find]. rewrite IH. reflexivity.
Qed.

Lemma users_set_first (user : string) liked excluded (docs : list Db.Document) :
  map Db.user_id (Db.set_first user liked excluded docs) = map Db.user_id docs.
Proof.
  induction docs as [| d rest IH]; [reflexivity |].
  cbn [Db.set_first map]. case_bool_decide; cbn [map Db.user_id]; congruence.
Qed.

Lemma users_drop_first (user : string) (docs : list Db.Document) :
  map Db.user_id (Db.drop_first user docs) `sublist_of` map Db.user_id docs.
Proof.
  induction docs as [| d rest IH]; [constructor |].
  cbn [Db.drop_first map]. case_bool_decide.
  - apply sublist_cons. reflexivity.
  - cbn [map]. apply sublist_skip, IH.
Qed.

Lemma drop_first_gone (user : string) (docs : list Db.Document) :
  Db.one_per_user docs -> Db.first_of user (Db.drop_first user docs) = None.
Proof.
  unfold Db.one_per_user. intros Hnodup. apply first_of_none.
  induction docs as [| d rest IH]; [apply not_elem_of_nil |].
  cbn [map] in Hnodup. apply NoDup_cons in Hnodup as [Hd Hrest].
  cbn [Db.drop_first]. case_bool_decide as Hu.
  - rewrite <- Hu. exact Hd.
  - cbn [map]. rewrite not_elem_of_cons. split; [congruence | exact (IH Hrest)].
Qed.

Section StoreFacts.

Context (fault : Db.op -> option exn)
        (str_ObjectId : nat -> string)
        (str_raised : Db.raised -> string).

Local Abbreviation save := (Db.save_preference fault).
Local Abbreviation get := (Db.get_preference fault str_ObjectId str_raised).
Local Abbreviation delete := (Db.delete_preference fault str_raised).

(** Unfold the operations of the driver and run the binds. *)
Ltac run_store :=
  unfold Db.save_preference, Db.get_preference, Db.delete_preference,
    Db.find_one, Db.update_one, Db.insert_one, Db.delete_one, Db.command_ping,
    Db.on_mongo_error, Db.on_any_error, Db.catch, Db.guard;
  repeat first
    [ rewrite run_bind_D
    | progress cbn [Db.note Db.throw Db.unit_D Db.read_first Db.write_first
                    Db.append_new Db.remove_first mret Db.D_ret
                    Db.collection Db.journal Db.next_id fst snd] ].

(** What [save_preference] does, case by case. *)
Lemma save_preference_cases (user : string) (liked excluded : list string)
    (s : Db.Store) :
  (exists e,
     fst (save user liked excluded s) = Db.Thrown (Db.Py e) /\
     Db.collection (snd (save user liked excluded s)) = Db.collection s /\
     (exists o, fault o = Some e) /\
     exists entries,
       Forall (fun entry => fst entry = INFO) entries /\
       Db.journal (snd (save user liked excluded s)) =
       (Db.journal s ++ entries ++
        match e with
        | PyMongoError msg => [(ERROR, Db.OperationFailed msg)]
        | _ => []
        end)%list) \/
  (fst (save user liked excluded s) = Db.Done tt /\
   ((exists d, Db.first_of user (Db.collection s) = Some d /\
               Db.collection (snd (save user liked excluded s)) =
               Db.set_first user liked excluded (Db.collection s)) \/
    (Db.first_of user (Db.collection s) = None /\
     Db.collection (snd (save user liked excluded s)) =
     (Db.collection s ++
      [{| Db._id := Db.next_id s; Db.user_id := user;
          Db.liked_ingredients := liked;
          Db.excluded_ingredients := excluded |}])%list))).
Proof.
  run_store.
  destruct (fault Db.OpFindOne) as [e |] eqn:Hfind; run_store.
  - left. exists e.
    assert (Hfrom : exists o, fault o = Some e) by (eexists; exact Hfind).
    destruct e; run_store; (split; [reflexivity |]); (split; [reflexivity |]);
      (split; [exact Hfrom |]); exists [(INFO, Db.Saving user)];
      (split; [repeat constructor |]);
      rewrite <- ?app_assoc, ?app_nil_r; reflexivity.
  - destruct (Db.first_of user (Db.collection s)) as [d |] eqn:Hfirst; run_store.
    + destruct (fault Db.OpUpdateOne) as [e |] eqn:Hup; run_store.
      * left. exists e.
        assert (Hfrom : exists o, fault o = Some e) by (eexists; exact Hup).
        destruct e; run_store; (split; [reflexivity |]); (split; [reflexivity |]);
          (split; [exact Hfrom |]);
          exists [(INFO, Db.Saving user); (INFO, Db.Updating user)];
          (split; [repeat constructor |]);
          rewrite <- ?app_assoc, ?app_nil_r; reflexivity.
      * right. split; [reflexivity |]. left. exists d. split; reflexivity.
    + destruct (fault Db.OpInsertOne) as [e |] eqn:Hins; run_store.
      * left. exists e.
        assert (Hfrom : exists o, fault o = Some e) by (eexists; exact Hins).
        destruct e; run_store; (split; [reflexivity |]); (split; [reflexivity |]);
          (split; [exact Hfrom |]);
          exists [(INFO, Db.Saving user); (INFO, Db.Creating user)];
          (split; [repeat constructor |]);
          rewrite <- ?app_assoc, ?app_nil_r; reflexivity.
      * right. split; [reflexivity |]. right. split; reflexivity.
Qed.

Lemma get_preference_cases (user : string) (s : Db.Store) :
  Db.collection (snd (get user s)) = Db.collection s /\
  Db.next_id (snd (get user s)) = Db.next_id s /\
  match fault Db.OpFindOne with
  | Some e => fst (get user s) = Db.Thrown (Db.Py e)
  | None =>
      fst (get user s) =
      Db.Done (match Db.first_of user (Db.collection s) with
               | Some d => Some {| Db.id_str := str_ObjectId (Db._id d);
                                   Db.of_user := Db.user_id d;
                                   Db.liked := Db.liked_ingredients d;
                                   Db.excluded := Db.excluded_ingredients d |}
               | None => None
               end)
  end.
Proof.
  run_store.
  destruct (fault Db.OpFindOne) as [e |]; run_store; [destruct e; run_store; done |].
  destruct (Db.first_of user (Db.collection s)); run_store; done.
Qed.

Lemma delete_preference_cases (user : string) (s : Db.Store) :
  (exists e,
     fst (delete user s) = Db.Thrown (Db.Py e) /\
     Db.collection (snd (delete user s)) = Db.collection s) \/
  (Db.first_of user (Db.collection s) = None /\
   fst (delete user s) = Db.Done Db.nothing_to_delete /\
   Db.collection (snd (delete user s)) = Db.collection s) \/
  (exists d, Db.first_of user (Db.collection s) = Some d /\
   fst (delete user s) = Db.Done Db.deleted_successfully /\
   Db.collection (snd (delete user s)) = Db.drop_first user (Db.collection s)).
Proof.
  run_store.
  destruct (fault Db.OpFindOne) as [e |]; run_store.
  - left. exists e. destruct e; run_store; done.
  - destruct (Db.first_of user (Db.collection s)) as [d |] eqn:Hfirst; run_store.
    + destruct (fault Db.OpDeleteOne) as [e |]; run_store.
      * left. exists e. destruct e; run_store; done.
      * rewrite Hfirst. cbn [Nat.ltb Nat.leb]. run_store.
        right. right. exists d. done.
    + right. left. done.
Qed.


(** X13: saving or deleting the preferences of one user never changes
    the document [find_one] picks for another user, whether the
    operation succeeds or raises. *)
Theorem other_users_untouched (user other : string) (liked excluded : list string)
    (s : Db.Store) :
  other <> user ->
  Db.first_of other (Db.collection (snd (save user liked excluded s)))
    = Db.first_of other (Db.collection s) /\
  Db.first_of other (Db.collection (snd (delete user s)))
    = Db.first_of other (Db.collection s).
Proof.
  intros Hne. split.
  - destruct (save_preference_cases user liked excluded s)
      as [(e & _ & -> & _) | (_ & [(d & _ & ->) | (_ & ->)])].
    + reflexivity.
    + apply first_of_set_first_other, Hne.
    + apply (first_of_append_other user); [exact Hne | reflexivity].
  - destruct (delete_preference_cases user s)
      as [(msg & _ & ->) | [(_ & _ & ->) | (d & _ & _ & ->)]].
    + reflexivity.
    + reflexivity.
    + apply first_of_drop_first_other, Hne.
Qed.

(** X14: a collection with at most one document per user stays so under
    [save_preference] and [delete_preference]; the save adds a document
    only for a user who had none. *)
Theorem one_per_user_kept (user : string) (liked excluded : list string) (s : Db.Store) :
  Db.one_per_user (Db.collection s) ->
  Db.one_per_user (Db.collection (snd (save user liked excluded s))) /\
  Db.one_per_user (Db.collection (snd (delete user s))).
Proof.
  unfold Db.one_per_user. intros Hone. split.
  - destruct (save_preference_cases user liked excluded s)
      as [(e & _ & -> & _) | (_ & [(d & _ & ->) | (Hnone & ->)])].
    + exact Hone.
    + rewrite users_set_first. exact Hone.
    + rewrite map_app. cbn [map Db.user_id].
      apply NoDup_app. split; [exact Hone |]. split.
      * intros u Hu Hin. apply list_elem_of_singleton in Hin as ->.
        apply first_of_none in Hnone. exact (Hnone Hu).
      * apply NoDup_singleton.
  - destruct (delete_preference_cases user s)
      as [(msg & _ & ->) | [(_ & _ & ->) | (d & _ & _ & ->)]].
    + exact Hone.
    + exact Hone.
    + exact (sublist_NoDup _ _ Hone (users_drop_first user (Db.collection s))).
Qed.

(** X15: with at most one document per user, a delete that reports
    success leaves nothing for [get_preference] to find, and a delete
    for a user without a document changes nothing; in no run does
    [delete_preference] return its third message, "No preference was
    deleted.". *)
Theorem delete_then_get (user : string) (s : Db.Store) :
  Db.one_per_user (Db.collection s) ->
  (fst (delete user s) = Db.Done Db.deleted_successfully ->
   Db.first_of user (Db.collection (snd (delete user s))) = None /\
   (fault Db.OpFindOne = None ->
    fst (get user (snd (delete user s))) = Db.Done None)) /\
  (fst (delete user s) = Db.Done Db.nothing_to_delete ->
   Db.collection (snd (delete user s)) = Db.collection s) /\
  fst (delete user s) <> Db.Done Db.none_deleted.
Proof.
  intros Hone.
  destruct (delete_preference_cases user s)
    as [(msg & Hr & Hc) | [(Hnone & Hr & Hc) | (d & Hfirst & Hr & Hc)]];
    rewrite Hr.
  - repeat split; discriminate.
  - split; [discriminate |]. split; [intros _; exact Hc | discriminate].
  - split; [| split; discriminate].
    intros _. rewrite Hc.
    assert (Hgone : Db.first_of user (Db.drop_first user (Db.collection s)) = None)
      by (apply drop_first_gone, Hone).
    split; [exact Hgone |]. intros Hfind.
    destruct (get_preference_cases user (snd (delete user s))) as (_ & _ & Hget).
    rewrite Hfind, Hc, Hgone in Hget. exact Hget.
Qed.

(** X16: a save that raises has changed nothing in the collection:
    the one write of [save_preference] is its last operation.  What it
    raises is what the driver raised; a [PyMongoError] is reported by
    the last message of the journal, any other exception passes without
    a message at error level. *)
Theorem save_failure_changes_nothing (user : string) (liked excluded : list string)
    (s : Db.Store) r :
  fst (save user liked excluded s) = Db.Thrown r ->
  Db.collection (snd (save user liked excluded s)) = Db.collection s /\
  exists e entries,
    r = Db.Py e /\
    (exists o, fault o = Some e) /\
    Forall (fun entry => fst entry = INFO) entries /\
    Db.journal (snd (save user liked excluded s)) =
    (Db.journal s ++ entries ++
     match e with
     | PyMongoError msg => [(ERROR, Db.OperationFailed msg)]
     | _ => []
     end)%list.
Proof.
  intros Hthrown.
  destruct (save_preference_cases user liked excluded s)
    as [(e & Hr & Hc & Hfrom & entries & Hinfo & Hj) | (Hdone & _)].
  - split; [exact Hc |]. exists e, entries. rewrite Hr in Hthrown.
    split; [congruence |]. split; [exact Hfrom |]. split; [exact Hinfo | exact Hj].
  - rewrite Hdone in Hthrown. discriminate Hthrown.
Qed.

Lemma view_lookup (user : string) (docs : list Db.Document) :
  Db.view docs !! user =
  (fun d => (Db.liked_ingredients d, Db.excluded_ingredients d))
    <$> Db.first_of user docs.
Proof.
  unfold Db.first_of. induction docs as [| d rest IH]; [reflexivity |].
  cbn [Db.view find]. case_bool_decide as Hd.
  - rewrite Hd. apply lookup_insert_eq.
  - rewrite lookup_insert_ne by exact Hd. exact IH.
Qed.

Lemma view_set_first (user : string) liked excluded (docs : list Db.Document) d :
  Db.first_of user docs = Some d ->
  Db.view (Db.set_first user liked excluded docs) =
  <[user := (liked, excluded)]> (Db.view docs).
Proof.
  unfold Db.first_of. induction docs as [| d' rest IH]; [discriminate |].
  cbn [find Db.set_first Db.view]. case_bool_decide as Hd.
  - intros _. cbn [Db.view Db.user_id Db.liked_ingredients Db.excluded_ingredients].
    rewrite Hd, insert_insert_eq. reflexivity.
  - intros H. cbn [Db.view]. rewrite (IH H).
    apply insert_insert_ne. exact Hd.
Qed.

Lemma view_append (user : string) liked excluded (docs : list Db.Document) id :
  Db.first_of user docs = None ->
  Db.view (docs ++ [{| Db._id := id; Db.user_id := user;
                       Db.liked_ingredients := liked;
                       Db.excluded_ingredients := excluded |}]) =
  <[user := (liked, excluded)]> (Db.view docs).
Proof.
  unfold Db.first_of. induction docs as [| d' rest IH]; [reflexivity |].
  cbn [find app Db.view]. case_bool_decide as Hd; [discriminate |].
  intros H. rewrite (IH H). apply insert_insert_ne. exact Hd.
Qed.

(** X17: seen as a map from users to their pair of lists, the collection
    after a save that succeeds is the map before with the user's entry
    set; it is then the map that the [save_preference] step of the
    recipe pipeline computes, which also takes the same branch (update
    or create). *)
Theorem save_preference_refines_map (user : string) (liked excluded : list string)
    (s : Db.Store) :
  fst (save user liked excluded s) = Db.Done tt ->
  Db.view (Db.collection (snd (save user liked excluded s)))
    = <[user := (liked, excluded)]> (Db.view (Db.collection s)) /\
  (is_Some (Db.view (Db.collection s) !! user)
   <-> is_Some (Db.first_of user (Db.collection s))) /\
  (forall db_fault w,
     db_answers db_fault ->
     preferences w = Db.view (Db.collection s) ->
     preferences (snd (save_preference db_fault user liked excluded w))
     = Db.view (Db.collection (snd (save user liked excluded s)))).
Proof.
  intros Hdone.
  assert (Hview : Db.view (Db.collection (snd (save user liked excluded s)))
                  = <[user := (liked, excluded)]> (Db.view (Db.collection s))).
  { destruct (save_preference_cases user liked excluded s)
      as [(msg & Hthrown & _) | (_ & [(d & Hfirst & ->) | (Hnone & ->)])].
    - rewrite Hdone in Hthrown. discriminate Hthrown.
    - apply (view_set_first _ _ _ _ _ Hfirst).
    - apply view_append, Hnone. }
  split; [exact Hview |]. split.
  - rewrite view_lookup. destruct (Db.first_of user (Db.collection s)); cbn.
    + split; eauto.
    + split; intros [x Hx]; discriminate Hx.
  - intros db_fault w Hdb Hpref.
    rewrite (save_preference_run db_fault user liked excluded w Hdb).
    cbn [snd stored preferences logged]. rewrite Hpref, Hview. reflexivity.
Qed.

(** Unfold an endpoint down to the operations of the driver. *)
Ltac run_endpoint :=
  unfold Db.save_user_preferences, Db.get_user_preferences,
    Db.delete_user_preferences, Db.to_500;
  run_store.

Lemma catch_to_500 {A} (m : Db.D A) (about : string) (logged_as : string -> Db.event)
    (s : Db.Store) r :
  fst (Db.catch m (Db.to_500 str_raised about logged_as) s) = Db.Thrown r ->
  r = Db.HTTPException 500 (about ++ str_raised
        match fst (m s) with
        | Db.Thrown r0 => r0
        | Db.Done _ => r
        end).
Proof.
  unfold Db.catch, Db.to_500. destruct (m s) as [[a | r0] s1]; cbn [fst].
  - discriminate.
  - rewrite run_bind_D. cbn [Db.note Db.throw fst]. intros H. inversion H. reflexivity.
Qed.

(** X18: the three preference endpoints raise nothing but
    [HTTPException] with status 500: every exception of their [try],
    the 404 they raise themselves included, is caught by their
    [except Exception] clause. *)
Theorem preference_endpoints_raise_500 (user : string) (liked excluded : list string)
    (s : Db.Store) r :
  fst (Db.save_user_preferences fault str_raised user liked excluded s) = Db.Thrown r \/
  fst (Db.get_user_preferences fault str_ObjectId str_raised user s) = Db.Thrown r \/
  fst (Db.delete_user_preferences fault str_raised user s) = Db.Thrown r ->
  exists detail, r = Db.HTTPException 500 detail.
Proof.
  unfold Db.save_user_preferences, Db.get_user_preferences, Db.delete_user_preferences.
  rewrite !run_bind_D. cbn [Db.note].
  intros [H | [H | H]]; apply catch_to_500 in H; eexists; exact H.
Qed.

(** X19: with the driver answering, asking for, or deleting, the
    preferences of a user who has none is answered with status 500, not
    404: the detail is the endpoint's prefix followed by the text of the
    404 exception it caught; the collection is left as it was. *)
Theorem missing_preferences_answer_500 (user : string) (s : Db.Store) :
  Db.answers fault ->
  Db.first_of user (Db.collection s) = None ->
  (fst (Db.get_user_preferences fault str_ObjectId str_raised user s) =
   Db.Thrown (Db.HTTPException 500
                ("Error retrieving preferences: "
                 ++ str_raised (Db.HTTPException 404 "Preferences not found"))) /\
   Db.collection (snd (Db.get_user_preferences fault str_ObjectId str_raised user s))
   = Db.collection s) /\
  (fst (Db.delete_user_preferences fault str_raised user s) =
   Db.Thrown (Db.HTTPException 500
                ("Error deleting preferences: "
                 ++ str_raised (Db.HTTPException 404 Db.nothing_to_delete))) /\
   Db.collection (snd (Db.delete_user_preferences fault str_raised user s))
   = Db.collection s).
Proof.
  intros Hok Hnone. split.
  - run_endpoint. rewrite !Hok. run_store. rewrite Hnone. run_store. done.
  - run_endpoint. rewrite !Hok. run_store. rewrite Hnone. run_store.
    cbn [Db.contains]. done.
Qed.

(** X20: with the driver answering, what [save_user_preferences] stores
    is what [get_user_preferences] then returns, and after
    [delete_user_preferences] has answered with the success message the
    same question is answered with status 500. *)
Theorem endpoints_round_trip (user : string) (liked excluded : list string)
    (s : Db.Store) :
  Db.answers fault ->
  Db.one_per_user (Db.collection s) ->
  let s1 := snd (Db.save_user_preferences fault str_raised user liked excluded s) in
  let s2 := snd (Db.delete_user_preferences fault str_raised user s1) in
  fst (Db.save_user_preferences fault str_raised user liked excluded s)
    = Db.Done "Preferences saved successfully" /\
  (exists id,
     fst (Db.get_user_preferences fault str_ObjectId str_raised user s1) =
     Db.Done {| Db.id_str := str_ObjectId id; Db.of_user := user;
                Db.liked := liked; Db.excluded := excluded |}) /\
  fst (Db.delete_user_preferences fault str_raised user s1)
    = Db.Done Db.deleted_successfully /\
  exists detail,
    fst (Db.get_user_preferences fault str_ObjectId str_raised user s2)
    = Db.Thrown (Db.HTTPException 500 detail).
Proof.
  intros Hok Hone s1 s2. subst s1 s2.
  assert (Hyes : Db.contains "successfully" Db.deleted_successfully = true)
    by (vm_compute; reflexivity).
  run_endpoint. rewrite !Hok. run_store.
  destruct (Db.first_of user (Db.collection s)) as [d |] eqn:Hfirst; run_store.
  - assert (Hgone : Db.first_of user
                      (Db.drop_first user
                         (Db.set_first user liked excluded (Db.collection s))) = None).
    { apply drop_first_gone. unfold Db.one_per_user.
      rewrite users_set_first. exact Hone. }
    repeat first
      [ rewrite (first_of_set_first _ _ _ _ _ Hfirst)
      | rewrite Hgone
      | rewrite Hyes
      | progress run_store
      | progress cbn [Nat.ltb Nat.leb] ].
    split; [reflexivity |]. split; [exists (Db._id d); reflexivity |].
    split; [reflexivity |]. eexists. reflexivity.
  - pose (new := {| Db._id := Db.next_id s; Db.user_id := user;
                    Db.liked_ingredients := liked;
                    Db.excluded_ingredients := excluded |}).
    assert (Hnew : Db.first_of user (Db.collection s ++ [new]) = Some new)
      by (apply first_of_append; [exact Hfirst | reflexivity]).
    assert (Hgone : Db.first_of user
                      (Db.drop_first user (Db.collection s ++ [new])) = None).
    { apply drop_first_gone. unfold Db.one_per_user.
      rewrite map_app. cbn [map]. apply NoDup_app. split; [exact Hone |]. split.
      - intros u Hu Hin. apply list_elem_of_singleton in Hin as ->.
        apply first_of_none in Hfirst. exact (Hfirst Hu).
      - apply NoDup_singleton. }
    fold new.
    repeat first
      [ rewrite Hnew
      | rewrite Hgone
      | rewrite Hyes
      | progress run_store
      | progress cbn [Nat.ltb Nat.leb] ].
    split; [reflexivity |]. split; [exists (Db.next_id s); reflexivity |].
    split; [reflexivity |]. eexists. reflexivity.
Qed.

End StoreFacts.

(** ** Start-up *)

Section BootFacts.

Context (ping_at : nat -> option exn) (str_exn : exn -> string).

Local Abbreviation connect := (Lifespan.connect ping_at str_exn).

Lemma connect_S (retries : nat) (b : Lifespan.Boot) :
  connect (S retries) b =
  match ping_at (Lifespan.pings b) with
  | None => (Return tt, Lifespan.note INFO Lifespan.Connected (Lifespan.pinged b))
  | Some e =>
      let b1 := Lifespan.note ERROR (Lifespan.ConnectFailed (str_exn e))
                  (Lifespan.pinged b) in
      if (retries =? 0)%nat then (Raise e, b1)
      else connect retries (Lifespan.sleep 5 b1)
  end.
Proof. reflexivity. Qed.

(** The loop with [S retries] attempts left: it stops at the first ping
    that answers, [k] failures before it, or after the last attempt. *)
Lemma connect_attempts (retries : nat) (b : Lifespan.Boot) :
  exists k,
    k <= retries /\
    Lifespan.pings (snd (connect (S retries) b)) = Lifespan.pings b + S k /\
    Lifespan.slept (snd (connect (S retries) b)) = Lifespan.slept b + 5 * k /\
    (forall i, i < k -> ping_at (Lifespan.pings b + i) <> None) /\
    match fst (connect (S retries) b) with
    | Return _ =>
        ping_at (Lifespan.pings b + k) = None /\
        last (Lifespan.journal (snd (connect (S retries) b)))
          = Some (INFO, Lifespan.Connected)
    | Raise e =>
        k = retries /\
        ping_at (Lifespan.pings b + k) = Some e /\
        last (Lifespan.journal (snd (connect (S retries) b)))
          = Some (ERROR, Lifespan.ConnectFailed (str_exn e))
    end.
Proof.
  revert b. induction retries as [| n IH]; intros b.
  - rewrite connect_S. destruct (ping_at (Lifespan.pings b)) as [e |] eqn:Hping.
    + exists 0. cbn [Nat.eqb fst snd Lifespan.note Lifespan.pinged
                      Lifespan.pings Lifespan.slept Lifespan.journal].
      rewrite !Nat.add_0_r, last_snoc.
      repeat split; try lia; try assumption; intros i Hi; lia.
    + exists 0. cbn [fst snd Lifespan.note Lifespan.pinged
                      Lifespan.pings Lifespan.slept Lifespan.journal].
      rewrite !Nat.add_0_r, last_snoc.
      repeat split; try lia; try assumption; intros i Hi; lia.
  - rewrite (connect_S (S n) b).
    destruct (ping_at (Lifespan.pings b)) as [e |] eqn:Hping.
    + cbv zeta. cbn [Nat.eqb].
      destruct (IH (Lifespan.sleep 5
                      (Lifespan.note ERROR (Lifespan.ConnectFailed (str_exn e))
                         (Lifespan.pinged b))))
        as (k & Hk & Hpings & Hslept & Hbefore & Hlast).
      cbn [Lifespan.sleep Lifespan.note Lifespan.pinged
           Lifespan.pings Lifespan.slept] in Hpings, Hslept, Hbefore, Hlast.
      exists (S k). split; [lia |]. split; [lia |]. split; [lia |]. split.
      * intros [| i] Hi.
        -- rewrite Nat.add_0_r, Hping. discriminate.
        -- replace (Lifespan.pings b + S i) with (S (Lifespan.pings b) + i) by lia.
           apply Hbefore. lia.
      * replace (Lifespan.pings b + S k) with (S (Lifespan.pings b) + k) by lia.
        destruct (fst (connect (S n) _)) as [u | e'].
        -- exact Hlast.
        -- destruct Hlast as (-> & Hlast). split; [reflexivity | exact Hlast].
    + exists 0. cbn [fst snd Lifespan.note Lifespan.pinged
                      Lifespan.pings Lifespan.slept Lifespan.journal].
      rewrite !Nat.add_0_r, last_snoc.
      repeat split; try lia; try assumption; intros i Hi; lia.
Qed.

(** X21: [lifespan] pings at most three times and stops at the first
    ping that answers; it sleeps five seconds after each failure but the
    third, ten at most; it raises only when the three pings failed, and
    then what the third raised; its last message tells which. *)
Theorem startup_attempts (b : Lifespan.Boot) :
  exists k,
    k < 3 /\
    Lifespan.pings (snd (Lifespan.startup ping_at str_exn b)) = Lifespan.pings b + S k /\
    Lifespan.slept (snd (Lifespan.startup ping_at str_exn b)) = Lifespan.slept b + 5 * k /\
    (forall i, i < k -> ping_at (Lifespan.pings b + i) <> None) /\
    match fst (Lifespan.startup ping_at str_exn b) with
    | Return _ =>
        ping_at (Lifespan.pings b + k) = None /\
        last (Lifespan.journal (snd (Lifespan.startup ping_at str_exn b)))
          = Some (INFO, Lifespan.Connected)
    | Raise e =>
        k = 2 /\
        ping_at (Lifespan.pings b + 2) = Some e /\
        last (Lifespan.journal (snd (Lifespan.startup ping_at str_exn b)))
          = Some (ERROR, Lifespan.ConnectFailed (str_exn e))
    end.
Proof.
  unfold Lifespan.startup.
  destruct (connect_attempts 2 (Lifespan.note INFO Lifespan.Starting b))
    as (k & Hk & Hpings & Hslept & Hbefore & Hlast).
  cbn [Lifespan.note Lifespan.pings Lifespan.slept] in Hpings, Hslept, Hbefore, Hlast.
  exists k. split; [lia |]. split; [exact Hpings |]. split; [exact Hslept |].
  split; [exact Hbefore |].
  destruct (fst (connect 3 _)) as [u | e]; [exact Hlast |].
  destruct Hlast as (-> & Hlast). split; [reflexivity | exact Hlast].
Qed.

End BootFacts.

(** ** The recipe endpoint *)

Section EndpointFacts.

Context (lemmatize : string -> string)
        (json_loads : string -> option pyobj)
        (core_categories_repr : string)
        (ingredients_table : list (option string * option string))
        (client : nat -> ChatRequest -> ChatOutcome)
        (db_fault : DbOp -> option string)
        (str_exn : exn -> string).

Local Abbreviation normalize := (normalize_ingredient lemmatize).
Local Abbreviation generate :=
  (generate_recipe lemmatize json_loads core_categories_repr
     ingredients_table client db_fault).
Local Abbreviation endpoint :=
  (Api.generate_recipe_endpoint lemmatize json_loads core_categories_repr
     ingredients_table client db_fault str_exn).

(** X22: the recipe endpoint returns what [generate_recipe] returns,
    and answers every exception [generate_recipe] raises with status
    500, the detail being its prefix and the text of the exception; the
    world is left as [generate_recipe] left it.  So, with the database
    answering, a request whose liked and excluded lists share a
    canonical ingredient is answered 500 with the conflict message; by
    then its preferences are stored as received, and nothing was sent to
    the chat endpoint. *)
Theorem generate_recipe_endpoint_answers (request : RecipeRequest) (s : Api.Served) :
  fst (endpoint request s) =
  match fst (generate request (Api.world s)) with
  | Return recipes => Db.Done recipes
  | Raise e =>
      Db.Thrown (Db.HTTPException 500 ("Error generating recipe: " ++ str_exn e))
  end /\
  Api.world (snd (endpoint request s)) = snd (generate request (Api.world s)) /\
  (db_answers db_fault ->
   forall a b,
     a ∈ liked_ingredients request ->
     b ∈ excluded_ingredients request ->
     normalize a = normalize b ->
     exists names,
       normalize a ∈ names /\
       fst (endpoint request s) =
       Db.Thrown (Db.HTTPException 500
                    ("Error generating recipe: "
                     ++ str_exn (ValueError (conflict_msg names)))) /\
       preferences (Api.world (snd (endpoint request s))) =
       <[user_id request := (liked_ingredients request, excluded_ingredients request)]>
         (preferences (Api.world s)) /\
       calls (Api.world (snd (endpoint request s))) = calls (Api.world s)).
Proof.
  split; [| split].
  - unfold Api.generate_recipe_endpoint.
    destruct (generate request (Api.world s)) as [[recipes | e] w]; reflexivity.
  - unfold Api.generate_recipe_endpoint.
    destruct (generate request (Api.world s)) as [[recipes | e] w]; reflexivity.
  - intros Hdb a b Ha Hb Hnorm.
    assert (Hl : normalize a ∈ map normalize (liked_ingredients request))
      by (apply list_elem_of_fmap_2, Ha).
    assert (He : normalize a ∈ map normalize (excluded_ingredients request))
      by (rewrite Hnorm; apply list_elem_of_fmap_2, Hb).
    destruct (check_conflict_rejects _ _
                (entry_world lemmatize request (Api.world s)) _ Hl He)
      as [Hin Hrun].
    eexists. split; [exact Hin |].
    unfold Api.generate_recipe_endpoint.
    rewrite (generate_recipe_entry lemmatize json_loads core_categories_repr
               ingredients_table client db_fault request (Api.world s) Hdb).
    rewrite (try_except_raised _ _ _ _ (bind_raises _ _ _ _ _ Hrun)).
    split; [reflexivity |]. split; reflexivity.
Qed.

End EndpointFacts.

(** ** The further properties, run in the kitchen and on the shelf *)

Lemma shelf_answers : Db.answers Shelf.up.
Proof. intros o. reflexivity. Qed.

Lemma shelf_one_per_user : Db.one_per_user (Db.collection Shelf.two_users).
Proof. unfold Db.one_per_user. decided. Qed.

Lemma generate_recipe_saves_first_witness :
  preferences (snd (Kitchen.run Kitchen.db_up [] Kitchen.conflicting_request))
  = <["u1" := (["Chicken"], ["chicken"])]> (preferences initial_world).
Proof.
  exact (generate_recipe_saves_first Kitchen.lemmatize Json.loads Kitchen.core_repr
           Kitchen.table (Kitchen.scripted []) Kitchen.db_up
           Kitchen.conflicting_request initial_world kitchen_db_answers).
Defined.

Lemma resolve_all_from_dataset_witness :
  resolve_all Kitchen.lemmatize Json.loads Kitchen.core_repr Kitchen.table
    (Kitchen.scripted []) [" Chicken"; "Onions"; "chicken"] initial_world
  = (Return {| valid_ingredients := ["chicken"; "onion"; "chicken"];
               matched_db := ["chicken"; "onion"; "chicken"];
               matched_llm := [];
               ingredient_categories :=
                 [PyStr "protein"; PyStr "vegetables"; PyStr "protein"] |},
     initial_world).
Proof.
  rewrite (resolve_all_from_dataset Kitchen.lemmatize Json.loads Kitchen.core_repr
             Kitchen.table (Kitchen.scripted [])
             [" Chicken"; "Onions"; "chicken"] initial_world).
  - vm_compute. reflexivity.
  - intros ing Hing.
    repeat (apply elem_of_cons in Hing as [-> | Hing]; [vm_compute; reflexivity |]).
    inversion Hing.
Defined.

Lemma get_ingredient_category_first_row_witness :
  get_ingredient_category Kitchen.table "butter" = PyStr "dairy".
Proof.
  apply (get_ingredient_category_first_row Kitchen.table
           [(Some "Chicken", Some "Protein"); (Some "Onion", Some "Vegetables");
            (Some "Garlic", Some "Vegetables")]
           [(Some "Salt", Some " "); (Some "Water", None)]
           "Butter" (Some "Dairy")).
  - reflexivity.
  - intros row Hrow.
    repeat (apply elem_of_cons in Hrow as [-> | Hrow]; [vm_compute; discriminate |]).
    inversion Hrow.
Defined.

Lemma generate_recipe_conflict_up_to_case_witness :
  exists names,
    "oliveoil" ∈ names /\
    fst (Kitchen.run Kitchen.db_up []
           (Kitchen.request ["olive oil"; "OliveOil"; "garlic"]
                            ["olive oil"] ["OliveOil"]))
      = Raise (ValueError (conflict_msg names)) /\
    calls (snd (Kitchen.run Kitchen.db_up []
                  (Kitchen.request ["olive oil"; "OliveOil"; "garlic"]
                                   ["olive oil"] ["OliveOil"]))) = [].
Proof.
  destruct (generate_recipe_conflict_up_to_case Kitchen.lemmatize Json.loads
              Kitchen.core_repr Kitchen.table (Kitchen.scripted []) Kitchen.db_up
              (Kitchen.request ["olive oil"; "OliveOil"; "garlic"]
                               ["olive oil"] ["OliveOil"])
              initial_world "olive oil" "OliveOil")
    as (names & Hin & Hrun & Hcalls).
  - exact kitchen_db_answers.
  - left.
  - left.
  - reflexivity.
  - reflexivity.
  - repeat first [ apply same_end
                 | apply same_letter; [reflexivity |]
                 | apply same_blank_l; [reflexivity |]
                 | apply same_blank_r; [reflexivity |] ].
  - exists names. split; [exact Hin |]. split; [exact Hrun | exact Hcalls].
Defined.

Lemma generate_recipe_returned_only_if_witness :
  exists recipes w',
    Kitchen.run Kitchen.db_up [Kitchen.says Kitchen.one_recipe] Kitchen.plain_request
      = (Return recipes, w') /\
    Kitchen.db_up Ping = None /\
    3 <= length (available_ingredients Kitchen.plain_request) /\
    exists acc w2 s v,
      resolve_all Kitchen.lemmatize Json.loads Kitchen.core_repr Kitchen.table
        (Kitchen.scripted [Kitchen.says Kitchen.one_recipe])
        (map (normalize_ingredient Kitchen.lemmatize)
             (available_ingredients Kitchen.plain_request))
        (entry_world Kitchen.lemmatize Kitchen.plain_request initial_world)
        = (Return acc, w2) /\
      3 <= length (valid_ingredients acc) /\
      meets_core (ingredient_categories acc) = true /\
      Json.loads (unfence (Str.strip s)) = Some v.
Proof.
  eexists _, _.
  evaluate_first Hrun.
  split; [exact Hrun |].
  destruct (generate_recipe_returned_only_if Kitchen.lemmatize Json.loads
              Kitchen.core_repr Kitchen.table
              (Kitchen.scripted [Kitchen.says Kitchen.one_recipe]) Kitchen.db_up
              Kitchen.plain_request initial_world _ _ Hrun)
    as (Hping & _ & Hlen & acc & w2 & s & rest & v
        & Hres & Hvalid & Hcore & _ & Hjson).
  split; [exact Hping |]. split; [exact Hlen |].
  exists acc, w2, s, v. split; [exact Hres |]. split; [exact Hvalid |].
  split; [exact Hcore | exact Hjson].
Defined.

Lemma generate_recipe_one_debug_record_witness :
  exists recipes w' acc w2 s,
    Kitchen.run Kitchen.db_up [Kitchen.says Kitchen.one_recipe] Kitchen.plain_request
      = (Return recipes, w') /\
    resolve_all Kitchen.lemmatize Json.loads Kitchen.core_repr Kitchen.table
      (Kitchen.scripted [Kitchen.says Kitchen.one_recipe])
      (map (normalize_ingredient Kitchen.lemmatize)
           (available_ingredients Kitchen.plain_request))
      (entry_world Kitchen.lemmatize Kitchen.plain_request initial_world)
      = (Return acc, w2) /\
    forall recipe, recipe ∈ recipes ->
      debug_info recipe =
      {| matched_with_database := matched_db acc;
         matched_via_llm := matched_llm acc;
         final_liked_ingredients := [];
         final_excluded_ingredients := [];
         raw_llm_response := Str.strip s |}.
Proof.
  eexists _, _.
  eassert (Hrun : Kitchen.run Kitchen.db_up [Kitchen.says Kitchen.one_recipe]
                    Kitchen.plain_request = (Return _, _))
    by (vm_compute; reflexivity).
  destruct (generate_recipe_one_debug_record Kitchen.lemmatize Json.loads
              Kitchen.core_repr Kitchen.table
              (Kitchen.scripted [Kitchen.says Kitchen.one_recipe]) Kitchen.db_up
              Kitchen.plain_request initial_world _ _ Hrun)
    as (acc & w2 & s & rest & Hres & _ & Hall).
  exists acc, w2, s. split; [exact Hrun |]. split; [exact Hres | exact Hall].
Defined.

Lemma call_llm_for_ingredient_absorbs_witness :
  fst (call_llm_for_ingredient Json.loads Kitchen.core_repr
         (Kitchen.scripted [Kitchen.says (quoted "YES")]) "quinoa" initial_world)
    = Return (PyStr "YES") /\
  fst (call_llm_for_ingredient Json.loads Kitchen.core_repr
         (Kitchen.scripted [Kitchen.says "YES"]) "quinoa" initial_world)
    = Return PyNone /\
  fst (call_llm_for_ingredient Json.loads Kitchen.core_repr
         (Kitchen.scripted []) "quinoa" initial_world)
    = Return PyNone.
Proof.
  split; [| split].
  - rewrite (proj1 (call_llm_for_ingredient_absorbs Json.loads Kitchen.core_repr
                      (Kitchen.scripted [Kitchen.says (quoted "YES")])
                      "quinoa" initial_world)).
    vm_compute. reflexivity.
  - rewrite (proj1 (call_llm_for_ingredient_absorbs Json.loads Kitchen.core_repr
                      (Kitchen.scripted [Kitchen.says "YES"])
                      "quinoa" initial_world)).
    vm_compute. reflexivity.
  - rewrite (proj1 (call_llm_for_ingredient_absorbs Json.loads Kitchen.core_repr
                      (Kitchen.scripted []) "quinoa" initial_world)).
    vm_compute. reflexivity.
Defined.


Lemma other_users_untouched_witness :
  Db.first_of "bob"
    (Db.collection (snd (Db.save_preference Shelf.up "ann" ["leek"] [] Shelf.two_users)))
    = Some Shelf.bob /\
  Db.first_of "bob"
    (Db.collection (snd (Db.delete_preference Shelf.up Shelf.str_raised "ann"
                           Shelf.two_users)))
    = Some Shelf.bob.
Proof.
  destruct (other_users_untouched Shelf.up Shelf.str_raised "ann" "bob" ["leek"] []
              Shelf.two_users) as [Hsave Hdelete].
  - discriminate.
  - rewrite Hsave, Hdelete. split; reflexivity.
Defined.

Lemma one_per_user_kept_witness :
  Db.one_per_user
    (Db.collection (snd (Db.save_preference Shelf.up "carl" ["leek"] [] Shelf.two_users))) /\
  Db.one_per_user
    (Db.collection (snd (Db.delete_preference Shelf.up Shelf.str_raised "carl"
                           Shelf.two_users))).
Proof.
  exact (one_per_user_kept Shelf.up Shelf.str_raised "carl" ["leek"] []
           Shelf.two_users shelf_one_per_user).
Defined.

Lemma delete_then_get_witness :
  fst (Db.get_preference Shelf.up Shelf.str_ObjectId Shelf.str_raised "ann"
         (snd (Db.delete_preference Shelf.up Shelf.str_raised "ann" Shelf.two_users)))
  = Db.Done None.
Proof.
  destruct (delete_then_get Shelf.up Shelf.str_ObjectId Shelf.str_raised "ann"
              Shelf.two_users shelf_one_per_user) as (Hdeleted & _ & _).
  destruct Hdeleted as [_ Hget]; [vm_compute; reflexivity |].
  apply Hget. reflexivity.
Defined.

Lemma save_failure_changes_nothing_witness :
  fst (Db.save_preference Shelf.read_only "carl" ["leek"] [] Shelf.two_users)
    = Db.Thrown (Db.Py (PyMongoError "not primary")) /\
  Db.collection (snd (Db.save_preference Shelf.read_only "carl" ["leek"] []
                        Shelf.two_users))
    = [Shelf.ann; Shelf.bob] /\
  last (Db.journal (snd (Db.save_preference Shelf.read_only "carl" ["leek"] []
                           Shelf.two_users)))
    = Some (ERROR, Db.OperationFailed "not primary").
Proof.
  evaluate_first Hthrown.
  split; [exact Hthrown |].
  destruct (save_failure_changes_nothing Shelf.read_only "carl" ["leek"] []
              Shelf.two_users _ Hthrown)
    as (Hsame & e & entries & He & _ & _ & Hjournal).
  split; [exact Hsame |].
  inversion He. subst e. rewrite Hjournal, !app_assoc. apply last_snoc.
Defined.

Lemma save_preference_refines_map_witness :
  Db.view (Db.collection (snd (Db.save_preference Shelf.up "ann" ["leek"] []
                                 Shelf.two_users)))
    = <["ann" := (["leek"], [])]> (Db.view (Db.collection Shelf.two_users)) /\
  preferences
    (snd (save_preference Kitchen.db_up "ann" ["leek"] []
            {| log := []; calls := [];
               preferences := Db.view (Db.collection Shelf.two_users) |}))
    = Db.view (Db.collection (snd (Db.save_preference Shelf.up "ann" ["leek"] []
                                     Shelf.two_users))).
Proof.
  destruct (save_preference_refines_map Shelf.up "ann" ["leek"] [] Shelf.two_users)
    as (Hview & _ & Hsame).
  - vm_compute. reflexivity.
  - split; [exact Hview |].
    apply Hsame; [exact kitchen_db_answers | reflexivity].
Defined.

Lemma preference_endpoints_raise_500_witness :
  exists detail,
    fst (Db.get_user_preferences Shelf.up Shelf.str_ObjectId Shelf.str_raised
           "carl" Shelf.two_users)
    = Db.Thrown (Db.HTTPException 500 detail).
Proof.
  eassert (Hthrown : fst (Db.get_user_preferences Shelf.up Shelf.str_ObjectId
                            Shelf.str_raised "carl" Shelf.two_users)
                     = Db.Thrown _) by (vm_compute; reflexivity).
  destruct (preference_endpoints_raise_500 Shelf.up Shelf.str_ObjectId
              Shelf.str_raised "carl" [] [] Shelf.two_users _
              (or_intror (or_introl Hthrown))) as [detail Hdetail].
  exists detail. rewrite Hthrown, Hdetail. reflexivity.
Defined.

Lemma missing_preferences_answer_500_witness :
  fst (Db.get_user_preferences Shelf.up Shelf.str_ObjectId Shelf.str_raised
         "carl" Shelf.two_users)
    = Db.Thrown (Db.HTTPException 500
                   "Error retrieving preferences: 404: Preferences not found") /\
  fst (Db.delete_user_preferences Shelf.up Shelf.str_raised "carl" Shelf.two_users)
    = Db.Thrown (Db.HTTPException 500
                   "Error deleting preferences: 404: No preference found to delete.").
Proof.
  destruct (missing_preferences_answer_500 Shelf.up Shelf.str_ObjectId
              Shelf.str_raised "carl" Shelf.two_users shelf_answers eq_refl)
    as [[Hget _] [Hdelete _]].
  rewrite Hget, Hdelete. split; vm_compute; reflexivity.
Defined.

Lemma endpoints_round_trip_witness :
  fst (Db.delete_user_preferences Shelf.up Shelf.str_raised "carl"
         (snd (Db.save_user_preferences Shelf.up Shelf.str_raised "carl" ["leek"] []
                 Shelf.two_users)))
    = Db.Done Db.deleted_successfully /\
  exists id,
    fst (Db.get_user_preferences Shelf.up Shelf.str_ObjectId Shelf.str_raised "carl"
           (snd (Db.save_user_preferences Shelf.up Shelf.str_raised "carl" ["leek"] []
                   Shelf.two_users)))
    = Db.Done {| Db.id_str := Shelf.str_ObjectId id; Db.of_user := "carl";
                 Db.liked := ["leek"]; Db.excluded := [] |}.
Proof.
  pose proof (endpoints_round_trip Shelf.up Shelf.str_ObjectId Shelf.str_raised
                "carl" ["leek"] [] Shelf.two_users shelf_answers shelf_one_per_user)
    as Htrip.
  cbv zeta in Htrip. destruct Htrip as (_ & Hget & Hdelete & _).
  split; [exact Hdelete | exact Hget].
Defined.

Lemma generate_recipe_endpoint_answers_witness :
  exists names,
    fst (Api.generate_recipe_endpoint Kitchen.lemmatize Json.loads Kitchen.core_repr
           Kitchen.table (Kitchen.scripted []) Kitchen.db_up Shelf.str_exn
           Kitchen.conflicting_request
           {| Api.world := initial_world; Api.access := [] |})
    = Db.Thrown (Db.HTTPException 500
                   ("Error generating recipe: " ++ conflict_msg names)) /\
    "chicken" ∈ names.
Proof.
  destruct (generate_recipe_endpoint_answers Kitchen.lemmatize Json.loads
              Kitchen.core_repr Kitchen.table (Kitchen.scripted []) Kitchen.db_up
              Shelf.str_exn Kitchen.conflicting_request
              {| Api.world := initial_world; Api.access := [] |})
    as (_ & _ & Hconflict).
  destruct (Hconflict kitchen_db_answers "Chicken" "chicken")
    as (names & Hin & Hanswer & _).
  - left.
  - left.
  - vm_compute. reflexivity.
  - exists names. split; [exact Hanswer | exact Hin].
Defined.
